(** * AdvancedContainerManager: metrics derivation, history store,
      terminal sessions and the background sampling loop

    A shallow embedding of [advanced_manager.py]:
    - [PyFloat]: Python's [float] (IEEE-754 binary64) with the three
      operations the metric formulas use: [int / int], [float * x] and
      [round(x, 2)];
    - [collect_system_metrics], [collect_container_metrics] and
      [store_metrics] of [MetricsCollector], over the two history backends
      (Redis list, in-process list);
    - [create_session] and [send_command] of [TerminalManager], over the
      [active_sessions] dict;
    - [get_container_stats_history] of [AdvancedContainerManager];
    - [collect_metrics_background]: the sampling loop, one iteration per
      element of a sequence of environments, with its log and sleep events. *)

From Stdlib Require Import ZArith Lia SpecFloat.
From stdpp Require Import base option list strings pretty gmap.

Local Open Scope Z_scope.

(** ** Exceptions

    The exceptions that the modelled code paths can raise.  All of them
    derive from Python's [Exception], so every [except Exception] clause and
    every bare [except:] of the source catches them. *)
Inductive exn : Type :=
  | ZeroDivisionError
  | OverflowError
  | DockerException (msg : string)
  | PsutilError (msg : string)
  | RedisConnectionError.

(** A [try] body: either the raised exception or the value. *)
Definition result (A : Type) : Type := exn + A.

Definition ret {A} (a : A) : result A := inr a.
Definition raise {A} (e : exn) : result A := inl e.
Definition bind {A B} (m : result A) (k : A -> result B) : result B :=
  match m with
  | inl e => inl e
  | inr a => k a
  end.

Declare Scope try_scope.
Delimit Scope try_scope with try.
Notation "x <- m ;; k" := (bind m (fun x => k))
  (at level 100, m at next level, right associativity) : try_scope.

(** ** Python floats *)
Module PyFloat.

Definition prec : Z := 53.
Definition emax : Z := 1024.

(** A Python [float] is a binary64 value. *)
Definition float : Type := spec_float.

(** The exact value of an [int], as an unrounded operand. *)
Definition exact (z : Z) : spec_float :=
  match z with
  | Z0 => S754_zero false
  | Zpos p => S754_finite false p 0
  | Zneg p => S754_finite true p 0
  end.

(** [float(z)], rounded to nearest, ties to even. *)
Definition of_int (z : Z) : float := binary_normalize prec emax z 0 false.

(** [x * y] on floats. *)
Definition mul (x y : float) : float := SFmul prec emax x y.

(** [a / b] on ints: the correctly rounded quotient; raises
    [ZeroDivisionError] on a zero divisor and [OverflowError] when the
    quotient is too large for a float. *)
Definition int_truediv (a b : Z) : result float :=
  if b =? 0 then raise ZeroDivisionError
  else match SFdiv prec emax (exact a) (exact b) with
       | S754_infinity _ => raise OverflowError
       | q => ret q
       end.

(** The integer nearest to [m * 2^e], ties to even. *)
Definition nearest_even (m e : Z) : Z :=
  match e with
  | Zneg p =>
      let d := 2 ^ Zpos p in
      let q := m / d in
      let r := m mod d in
      match 2 * r ?= d with
      | Lt => q
      | Gt => q + 1
      | Eq => if Z.even q then q else q + 1
      end
  | _ => m * 2 ^ e
  end.

(** [round(x, ndigits)] for [0 <= ndigits]: the decimal with [ndigits]
    places nearest to the exact value of [x] (ties to even), converted back
    to the nearest float; infinities and NaN round to themselves. *)
Definition round (x : float) (ndigits : nat) : float :=
  match x with
  | S754_finite s m e =>
      let p := 10 ^ Z.of_nat ndigits in
      match nearest_even (Zpos m * p) e with
      | Zpos n => SFdiv prec emax (S754_finite s n 0) (exact p)
      | _ => S754_zero s
      end
  | _ => x
  end.

Definition zero : float := S754_zero false.     (* 0.0 *)
Definition hundred : float := of_int 100.       (* 100.0 *)

End PyFloat.

(** ** Python values

    The metric records, the history entries and what Redis holds are Python
    dicts with string keys. *)
#[local] Unset Elimination Schemes.
Inductive pyval : Type :=
  | PyNone
  | PyInt (z : Z)
  | PyFloat (x : PyFloat.float)
  | PyStr (s : string)
  | PyList (l : list pyval)
  | PyDict (d : gmap string pyval).
#[local] Set Elimination Schemes.

Abbreviation dict := (gmap string pyval).

(** A dict display [{k1: v1, ..., kn: vn}]. *)
Definition dict_of (items : list (string * pyval)) : dict := list_to_map items.

(** Truth value of a dict: [if d:] holds when [d] has a key. *)
Definition truthy (d : dict) : bool :=
  match map_to_list d with
  | [] => false
  | _ :: _ => true
  end.

(** [d.get(k) == s] for a string [s]. *)
Definition get_eq_str (d : dict) (k s : string) : bool :=
  match d !! k with
  | Some (PyStr s') => String.eqb s' s
  | _ => false
  end.

(** ** The container runtime's data, as the code reads it *)
Module Docker.

Record CpuUsage := { total_usage : Z; percpu_usage : list Z }.
Record CpuStats := { cpu_usage : CpuUsage; system_cpu_usage : Z }.
Record MemoryStats := { usage : Z; limit : Z }.
Record Network := { rx_bytes : Z; tx_bytes : Z }.
Record BlkioStats := { read_bytes : Z; write_bytes : Z }.

(** [container.stats(stream=False)]: every key that
    [collect_container_metrics] indexes; ['blkio_stats'] may be absent. *)
Record Stats := {
  cpu_stats : CpuStats;
  precpu_stats : CpuStats;
  memory_stats : MemoryStats;
  networks : list (string * Network);
  blkio_stats : option BlkioStats
}.

Record Container := {
  id : string;
  status : string;
  stats : result Stats
}.

(** The runtime reports its counters as unsigned 64-bit integers. *)
Definition uint64 (z : Z) : Prop := 0 <= z < 2 ^ 64.

Definition counters_uint64 (s : Stats) : Prop :=
  uint64 (total_usage (cpu_usage (cpu_stats s))) /\
  uint64 (total_usage (cpu_usage (precpu_stats s))) /\
  uint64 (system_cpu_usage (cpu_stats s)) /\
  uint64 (system_cpu_usage (precpu_stats s)) /\
  uint64 (usage (memory_stats s)) /\
  uint64 (limit (memory_stats s)).

End Docker.

(** An attached exec stream, by its file descriptor. *)
Inductive Socket : Type := SocketIO (fd : Z).

(** ** Module-level flags, set once at import *)
Record Globals := {
  DOCKER_AVAILABLE : bool;
  REDIS_AVAILABLE : bool
}.

(** ** The environment of a call

    What the external collaborators (Docker client, Redis server, psutil, the
    clock) answer while one call, or one iteration of the sampling loop,
    runs. *)
Record Env := {
  (** [docker_client.containers.get(container_id)] *)
  containers_get : string -> result Docker.Container;
  (** [docker_client.containers.list()] *)
  containers_list : result (list Docker.Container);
  (** whether the Redis server answers; when it does not, every
      [redis_client] command raises *)
  redis_up : bool;
  (** the psutil and [os.getloadavg] reads of [collect_system_metrics]:
      the five values, or the exception one of them raises *)
  psutil_reads : result (pyval * pyval * pyval * pyval * pyval);
  (** [datetime.now().isoformat()] *)
  now_isoformat : string;
  (** [int(time.time())] *)
  time_time : Z;
  (** [container.client.api.exec_create(container_id, 'bash', ...)] *)
  exec_create : string -> result string;
  (** [container.client.api.exec_start(exec_id, ...)] *)
  exec_start : string -> result Socket;
  (** [socket._sock.send(command.encode())] *)
  sock_send : Socket -> string -> result Z
}.

(** ** Program state and its monads *)

Inductive Event : Type :=
  | LogError (msg : string) (e : exn)     (* logger.error(f"{msg}: {e}") *)
  | Sleep (seconds : Z).                  (* time.sleep(seconds) *)

Record Session := {
  container_id : string;
  exec_id : string;
  socket : option Socket
}.

Record State := {
  (** [MetricsCollector.metrics_history], oldest entry first *)
  metrics_history : list dict;
  (** the lists held by the Redis server, index 0 first; an element stands
      for its JSON text, [json.loads (json.dumps d)] being [d] on the dicts
      stored here *)
  redis : gmap string (list dict);
  (** [TerminalManager.active_sessions] *)
  active_sessions : gmap string Session;
  (** the log records and sleeps so far, oldest first *)
  events : list Event
}.

Definition initial : State :=
  {| metrics_history := []; redis := ∅; active_sessions := ∅; events := [] |}.

(** Code that reads and writes the state. *)
Definition M (A : Type) : Type := State -> A * State.

Definition pure {A} (a : A) : M A := fun st => (a, st).
Definition seq {A B} (m : M A) (k : A -> M B) : M B :=
  fun st => let (a, st') := m st in k a st'.

(** Code that may also raise: an exception ends what follows it, the state
    changed so far stays changed. *)
Definition try_seq {A B} (m : M (result A)) (k : A -> M (result B)) : M (result B) :=
  fun st =>
    match m st with
    | (inr a, st') => k a st'
    | (inl e, st') => (inl e, st')
    end.

Definition lift {A} (m : M A) : M (result A) :=
  fun st => let (a, st') := m st in (ret a, st').

Declare Scope state_scope.
Delimit Scope state_scope with M.
Notation "x <- m ;; k" := (seq m (fun x => k))
  (at level 100, m at next level, right associativity) : state_scope.
Notation "m ;;; k" := (seq m (fun _ => k))
  (at level 100, right associativity) : state_scope.

Declare Scope raising_scope.
Delimit Scope raising_scope with T.
Notation "x <- m ;; k" := (try_seq m (fun x => k))
  (at level 100, m at next level, right associativity) : raising_scope.
Notation "m ;;; k" := (try_seq m (fun _ => k))
  (at level 100, right associativity) : raising_scope.

Definition emit (ev : Event) : M unit :=
  fun st => (tt, {| metrics_history := metrics_history st; redis := redis st;
                    active_sessions := active_sessions st;
                    events := events st ++ [ev] |}).

Definition logger_error (msg : string) (e : exn) : M unit := emit (LogError msg e).
Definition time_sleep (seconds : Z) : M unit := emit (Sleep seconds).

Definition set_metrics_history (h : list dict) : M unit :=
  fun st => (tt, {| metrics_history := h; redis := redis st;
                    active_sessions := active_sessions st; events := events st |}).
Definition set_redis (r : gmap string (list dict)) : M unit :=
  fun st => (tt, {| metrics_history := metrics_history st; redis := r;
                    active_sessions := active_sessions st; events := events st |}).
Definition set_active_sessions (a : gmap string Session) : M unit :=
  fun st => (tt, {| metrics_history := metrics_history st; redis := redis st;
                    active_sessions := a; events := events st |}).
Definition get {A} (f : State -> A) : M A := fun st => (f st, st).

(** [for x in xs: body(x)], outside and inside a [try]. *)
Fixpoint for_each {A} (xs : list A) (body : A -> M unit) : M unit :=
  match xs with
  | [] => pure tt
  | x :: xs' => (body x ;;; for_each xs' body)%M
  end.

Fixpoint try_for_each {A} (xs : list A) (body : A -> M (result unit)) : M (result unit) :=
  match xs with
  | [] => pure (ret tt)
  | x :: xs' => (body x ;;; try_for_each xs' body)%T
  end.

(** ** Redis lists *)
Module Redis.

(** The slice of a list that [LRANGE]/[LTRIM start stop] selects: negative
    indexes count from the end, the bounds are inclusive and clamped. *)
Definition slice {A} (l : list A) (start stop : Z) : list A :=
  let len := Z.of_nat (length l) in
  let start := Z.max 0 (if start <? 0 then len + start else start) in
  let stop := Z.min (len - 1) (if stop <? 0 then len + stop else stop) in
  if stop <? start then []
  else take (Z.to_nat (stop - start + 1)) (drop (Z.to_nat start) l).

(** A command sent to the server: run when it answers. *)
Definition command {A} (env : Env) (run : M A) : M (result A) :=
  if redis_up env then lift run else pure (raise RedisConnectionError).

(** [redis_client.lpush(key, value)] *)
Definition lpush (env : Env) (key : string) (value : dict) : M (result unit) :=
  command env
    (r <- get redis ;;
     set_redis (<[key := value :: default [] (r !! key)]> r))%M.

(** [redis_client.ltrim(key, start, stop)]; a list trimmed to nothing is
    removed. *)
Definition ltrim (env : Env) (key : string) (start stop : Z) : M (result unit) :=
  command env
    (r <- get redis ;;
     match slice (default [] (r !! key)) start stop with
     | [] => set_redis (delete key r)
     | l => set_redis (<[key := l]> r)
     end)%M.

(** [redis_client.lrange(key, start, stop)] *)
Definition lrange (env : Env) (key : string) (start stop : Z) : M (result (list dict)) :=
  command env
    (r <- get redis ;; pure (slice (default [] (r !! key)) start stop))%M.

End Redis.

(** ** class MetricsCollector *)

Definition max_history : Z := 100.

Definition collect_system_metrics (env : Env) : M dict :=
  match psutil_reads env with
  | inr (cpu, mem, disk, net, load) =>
      pure (dict_of [("timestamp", PyStr (now_isoformat env));
                     ("cpu_percent", cpu);
                     ("memory_percent", mem);
                     ("disk_usage", disk);
                     ("network_io", net);
                     ("load_average", load)])
  | inl e =>
      (logger_error "Error collecting system metrics" e ;;; pure ∅)%M
  end.

(** The CPU part of [collect_container_metrics] (source lines 93-99). *)
Definition cpu_usage_of (stats : Docker.Stats) : result PyFloat.float :=
  let cur := Docker.cpu_stats stats in
  let pre := Docker.precpu_stats stats in
  if 0 <? Docker.total_usage (Docker.cpu_usage cur) then
    let cpu_delta :=
      Docker.total_usage (Docker.cpu_usage cur) - Docker.total_usage (Docker.cpu_usage pre) in
    let system_delta := Docker.system_cpu_usage cur - Docker.system_cpu_usage pre in
    if 0 <? system_delta then
      (q <- PyFloat.int_truediv cpu_delta system_delta ;;
       ret (PyFloat.mul
              (PyFloat.mul q
                 (PyFloat.of_int (Z.of_nat (length (Docker.percpu_usage (Docker.cpu_usage cur))))))
              PyFloat.hundred))%try
    else ret PyFloat.zero
  else ret PyFloat.zero.

(** The memory part (source lines 101-104). *)
Definition memory_usage_of (stats : Docker.Stats) : result PyFloat.float :=
  let mem := Docker.memory_stats stats in
  if 0 <? Docker.limit mem then
    (q <- PyFloat.int_truediv (Docker.usage mem) (Docker.limit mem) ;;
     ret (PyFloat.mul q PyFloat.hundred))%try
  else ret PyFloat.zero.

(** The network sums (source lines 106-111). *)
Definition network_io_of (stats : Docker.Stats) : Z * Z :=
  fold_left
    (fun acc item =>
       (fst acc + Docker.rx_bytes (snd item), snd acc + Docker.tx_bytes (snd item)))
    (Docker.networks stats) (0, 0).

(** The [try] body of [collect_container_metrics] once the container is
    resolved: from the stats to the returned dict. *)
Definition container_metrics_of (now : string) (stats : Docker.Stats) : result dict :=
  (cpu_usage <- cpu_usage_of stats ;;
   memory_usage <- memory_usage_of stats ;;
   let (network_rx, network_tx) := network_io_of stats in
   ret (dict_of
          [("timestamp", PyStr now);
           ("cpu_percent", PyFloat (PyFloat.round cpu_usage 2));
           ("memory_percent", PyFloat (PyFloat.round memory_usage 2));
           ("memory_usage", PyInt (Docker.usage (Docker.memory_stats stats)));
           ("memory_limit", PyInt (Docker.limit (Docker.memory_stats stats)));
           ("network_rx", PyInt network_rx);
           ("network_tx", PyInt network_tx);
           ("block_read",
             PyInt (from_option Docker.read_bytes 0 (Docker.blkio_stats stats)));
           ("block_write",
             PyInt (from_option Docker.write_bytes 0 (Docker.blkio_stats stats)))]))%try.

Definition collect_container_metrics (g : Globals) (env : Env) (container_id : string) : M dict :=
  if negb (DOCKER_AVAILABLE g) then pure ∅
  else
    match (container <- containers_get env container_id ;;
           stats <- Docker.stats container ;;
           container_metrics_of (now_isoformat env) stats)%try with
    | inr metrics => pure metrics
    | inl e =>
        (logger_error "Error collecting container metrics" e ;;; pure ∅)%M
    end.

(** The dict that the in-process backend appends. *)
Definition history_entry (metrics_type : string) (data : dict) (timestamp : string) : dict :=
  dict_of [("type", PyStr metrics_type);
           ("data", PyDict data);
           ("timestamp", PyStr timestamp)].

(** [store_metrics] has no [try] of its own: what a Redis command raises
    goes to the caller. *)
Definition store_metrics (g : Globals) (env : Env) (metrics_type : string) (data : dict)
  : M (result unit) :=
  if REDIS_AVAILABLE g then
    let key := "metrics:" +:+ metrics_type in
    (Redis.lpush env key data ;;;
     Redis.ltrim env key 0 (max_history - 1))%T
  else
    lift (h <- get metrics_history ;;
          let h := h ++ [history_entry metrics_type data (now_isoformat env)] in
          if max_history <? Z.of_nat (length h)
          then set_metrics_history (drop 1 h)        (* pop(0) *)
          else set_metrics_history h)%M.

(** ** class TerminalManager *)

Definition create_session (g : Globals) (env : Env) (container_id : string) : M (option string) :=
  if negb (DOCKER_AVAILABLE g) then pure None
  else
    match containers_get env container_id with
    | inl e => (logger_error "Error creating terminal session" e ;;; pure None)%M
    | inr container =>
        if negb (String.eqb (Docker.status container) "running") then pure None
        else
          match exec_create env container_id with
          | inl e => (logger_error "Error creating terminal session" e ;;; pure None)%M
          | inr exec_id =>
              let session_id := container_id +:+ "_" +:+ pretty (time_time env) in
              (a <- get active_sessions ;;
               set_active_sessions
                 (<[session_id := {| container_id := container_id;
                                     exec_id := exec_id;
                                     socket := None |}]> a) ;;;
               pure (Some session_id))%M
          end
    end.

Definition send_command (env : Env) (session_id command : string) : M bool :=
  (a <- get active_sessions ;;
   match a !! session_id with
   | None => pure false
   | Some session =>
       match (container <- containers_get env (container_id session) ;;
              socket <- exec_start env (exec_id session) ;;
              sock_send env socket command)%try with
       | inr _ => pure true
       | inl e => (logger_error "Error sending command to terminal" e ;;; pure false)
       end
   end)%M.

(** ** class AdvancedContainerManager *)

Definition get_container_stats_history (g : Globals) (env : Env) (container_id : string)
  : M (list dict) :=
  if REDIS_AVAILABLE g then
    (data <- Redis.lrange env ("metrics:container:" +:+ container_id) 0 (-1) ;;
     match data with
     | inr items => pure items
     | inl _ => pure []
     end)%M
  else
    (h <- get metrics_history ;;
     pure (filter (fun m => get_eq_str m "container_id" container_id = true) h))%M.

(** ** collect_metrics_background *)

(** Sampling the host (source lines 508-510). *)
Definition sample_system (g : Globals) (env : Env) : M (result unit) :=
  (system_metrics <- lift (collect_system_metrics env) ;;
   if truthy system_metrics
   then store_metrics g env "system" system_metrics
   else pure (ret tt))%T.

(** Sampling one container: the body of the [for] (source lines 515-518). *)
Definition sample_container (g : Globals) (env : Env) (container : Docker.Container)
  : M (result unit) :=
  (container_metrics <- lift (collect_container_metrics g env (Docker.id container)) ;;
   if truthy container_metrics then
     let container_metrics :=
       <["container_id" := PyStr (Docker.id container)]> container_metrics in
     store_metrics g env ("container:" +:+ Docker.id container) container_metrics
   else pure (ret tt))%T.

(** The [try] block of one iteration. *)
Definition sampling_cycle (g : Globals) (env : Env) : M (result unit) :=
  (sample_system g env ;;;
   (if DOCKER_AVAILABLE g then
      containers <- pure (containers_list env) ;;
      try_for_each containers (sample_container g env)
    else pure (ret tt)) ;;;
   lift (time_sleep 5))%T.

(** One pass through the body of [while True]. *)
Definition iteration (g : Globals) (env : Env) : M unit :=
  (r <- sampling_cycle g env ;;
   match r with
   | inr _ => pure tt
   | inl e => logger_error "Error in metrics collection" e ;;; time_sleep 10
   end)%M.

(** The loop, run for as many iterations as environments are given: the
    [i]-th environment is what the collaborators answer during the [i]-th
    iteration. *)
Fixpoint collect_metrics_background (g : Globals) (envs : list Env) : M unit :=
  match envs with
  | [] => pure tt
  | env :: envs' => (iteration g env ;;; collect_metrics_background g envs')%M
  end.

(** ** Observing the history store

    The records a backend holds for one metrics type, in arrival order (oldest
    first): the Redis list of that key read from its tail, or the data of the
    in-process entries tagged with that type. *)
Definition entry_data (metrics_type : string) (m : dict) : option dict :=
  if get_eq_str m "type" metrics_type then
    match m !! "data" with
    | Some (PyDict d) => Some d
    | _ => None
    end
  else None.

Definition stream (g : Globals) (metrics_type : string) (st : State) : list dict :=
  if REDIS_AVAILABLE g
  then reverse (default [] (redis st !! ("metrics:" +:+ metrics_type)))
  else omap (entry_data metrics_type) (metrics_history st).

(** The bound both backends keep. *)
Definition history_bounded (st : State) : Prop :=
  (length (metrics_history st) <= 100)%nat /\
  forall key l, redis st !! key = Some l -> (length l <= 100)%nat.

(** A sequence of [store_metrics] calls, each in its environment and each
    by a caller that catches what it raises. *)
Definition store_all (g : Globals) (calls : list (Env * string * dict)) : M unit :=
  for_each calls (fun call =>
    (_ <- store_metrics g call.1.1 call.1.2 call.2 ;; pure tt)%M).

(** The calls that append [records] to one metrics type. *)
Definition appends_to (metrics_type : string) (records : list (Env * dict))
  : list (Env * string * dict) :=
  map (fun r => (r.1, metrics_type, r.2)) records.

(** The backend in use answers in [env]. *)
Definition backend_up (g : Globals) (env : Env) : Prop :=
  REDIS_AVAILABLE g = true -> redis_up env = true.

(** Both backends hold in [st'] what they held in [st]. *)
Definition same_history (st st' : State) : Prop :=
  metrics_history st' = metrics_history st /\ redis st' = redis st.

(** From [st] to [st'] the stream of [metrics_type] gained no record: it
    lost at most some of its oldest ones, and none under Redis. *)
Definition only_evicts (g : Globals) (metrics_type : string) (st st' : State) : Prop :=
  stream g metrics_type st' `suffix_of` stream g metrics_type st /\
  (REDIS_AVAILABLE g = true -> stream g metrics_type st' = stream g metrics_type st).

(** ** Observing the loop and the session table *)

(** The events of the loop itself: its sleeps and the records of its own
    [except] clause. *)
Definition is_loop_event (ev : Event) : bool :=
  match ev with
  | Sleep _ => true
  | LogError msg _ => String.eqb msg "Error in metrics collection"
  end.

Definition loop_events (evs : list Event) : list Event :=
  filter (fun ev => is_loop_event ev = true) evs.

(** Steps that add no event of the loop itself. *)
Definition quiet (st st' : State) : Prop :=
  loop_events (events st') = loop_events (events st).

(** A [try] block that comes out normally only through its closing
    5-second sleep. *)
Definition ends_with_sleep {A} (m : M (result A)) : Prop :=
  forall st,
    match m st with
    | (inl _, st') => quiet st st'
    | (inr _, st') => exists st1, quiet st st1 /\ events st' = events st1 ++ [Sleep 5]
    end.

(** What comes out of the [try] block when it runs in [env]; the state it
    starts from has no part in it. *)
Definition outcome (g : Globals) (env : Env) : result unit :=
  (sampling_cycle g env initial).1.

(** The public methods of [TerminalManager]. *)
Inductive TerminalCall : Type :=
  | CreateSession (g : Globals) (env : Env) (container_id : string)
  | SendCommand (env : Env) (session_id command : string).

Definition call (c : TerminalCall) : M unit :=
  match c with
  | CreateSession g env container_id =>
      (_ <- create_session g env container_id ;; pure tt)%M
  | SendCommand env session_id command =>
      (_ <- send_command env session_id command ;; pure tt)%M
  end.

(** [m] moves every state to an [R]-related one. *)
Definition within (R : relation State) {A} (m : M A) : Prop :=
  forall st, R st (m st).2.

(** The value [m] returns does not depend on the state it starts from. *)
Definition stateless {A} (m : M A) : Prop :=
  forall st st0, (m st).1 = (m st0).1.

(** ** Sample environments

    Concrete collaborators used to run the definitions: a running container
    whose CPU total goes from 1000 to 1400 while the system total goes from
    10000 to 11000 on 4 cores, with 256 MiB used of 512 MiB. *)
Module Sample.

Definition stats : Docker.Stats :=
  {| Docker.cpu_stats :=
       {| Docker.cpu_usage :=
            {| Docker.total_usage := 1400; Docker.percpu_usage := [350; 350; 350; 350] |};
          Docker.system_cpu_usage := 11000 |};
     Docker.precpu_stats :=
       {| Docker.cpu_usage :=
            {| Docker.total_usage := 1000; Docker.percpu_usage := [250; 250; 250; 250] |};
          Docker.system_cpu_usage := 10000 |};
     Docker.memory_stats := {| Docker.usage := 268435456; Docker.limit := 536870912 |};
     Docker.networks := [("eth0", {| Docker.rx_bytes := 1024; Docker.tx_bytes := 2048 |})];
     Docker.blkio_stats := None |}.

Definition running : Docker.Container :=
  {| Docker.id := "abc123"; Docker.status := "running"; Docker.stats := ret stats |}.

Definition stopped : Docker.Container :=
  {| Docker.id := "def456"; Docker.status := "stopped";
     Docker.stats := raise (DockerException "container is not running") |}.

Definition get (container_id : string) : result Docker.Container :=
  if String.eqb container_id "abc123" then ret running
  else if String.eqb container_id "def456" then ret stopped
  else raise (DockerException "404 Client Error: Not Found").

(** Cooperating collaborators at second [t], handing out exec id [e]. *)
Definition env_at (t : Z) (e : string) : Env :=
  {| containers_get := get;
     containers_list := ret [running];
     redis_up := true;
     psutil_reads :=
       ret (PyFloat (PyFloat.of_int 12), PyFloat (PyFloat.of_int 40),
            PyFloat (PyFloat.of_int 71), PyDict ∅,
            PyList [PyFloat PyFloat.zero; PyFloat PyFloat.zero; PyFloat PyFloat.zero]);
     now_isoformat := "2023-11-14T22:13:20";
     time_time := t;
     exec_create := fun _ => ret e;
     exec_start := fun _ => ret (SocketIO 7);
     sock_send := fun _ command => ret (Z.of_nat (String.length command)) |}.

Definition env : Env := env_at 1700000000 "exec-1".

(** The container has exited since: it still resolves, its exec cannot be
    started. *)
Definition env_exited : Env :=
  {| containers_get := get;
     containers_list := ret [];
     redis_up := true;
     psutil_reads := psutil_reads env;
     now_isoformat := "2023-11-14T22:14:00";
     time_time := 1700000040;
     exec_create := fun _ => raise (DockerException "409 Conflict: container is not running");
     exec_start := fun _ => raise (DockerException "409 Conflict: container is not running");
     sock_send := fun _ _ => raise (DockerException "Broken pipe") |}.

(** The runtime is unreachable: every client call raises. *)
Definition env_down : Env :=
  {| containers_get := fun _ => raise (DockerException "Connection refused");
     containers_list := raise (DockerException "Connection refused");
     redis_up := true;
     psutil_reads := raise (PsutilError "access denied");
     now_isoformat := "2023-11-14T22:13:25";
     time_time := 1700000005;
     exec_create := fun _ => raise (DockerException "Connection refused");
     exec_start := fun _ => raise (DockerException "Connection refused");
     sock_send := fun _ _ => raise (DockerException "Connection refused") |}.

(** 101 records, numbered in arrival order. *)
Definition records : list (Env * dict) :=
  map (fun i => (env, {["seq" := PyInt i]})) (seqZ 1 101).

Definition with_redis : Globals := {| DOCKER_AVAILABLE := true; REDIS_AVAILABLE := true |}.
Definition in_memory : Globals := {| DOCKER_AVAILABLE := true; REDIS_AVAILABLE := false |}.

End Sample.

(** ** Further observations *)

(** The keys of the record that [collect_container_metrics] builds. *)
Definition container_metrics_keys : gset string :=
  list_to_set ["timestamp"; "cpu_percent"; "memory_percent"; "memory_usage";
               "memory_limit"; "network_rx"; "network_tx"; "block_read"; "block_write"].

(** The keys of the record that [collect_system_metrics] builds. *)
Definition system_metrics_keys : gset string :=
  list_to_set ["timestamp"; "cpu_percent"; "memory_percent"; "disk_usage";
               "network_io"; "load_average"].

(** Every record held for a container's metrics type names that container. *)
Definition records_tagged (g : Globals) (st : State) : Prop :=
  forall container_id d,
    d ∈ stream g ("container:" +:+ container_id) st ->
    d !! "container_id" = Some (PyStr container_id).

(** No in-process entry has a top-level ['container_id'] key. *)
Definition entries_untagged (st : State) : Prop :=
  Forall (fun m => m !! "container_id" = None) (metrics_history st).

(** [P] once true stays true. *)
Definition keeps (P : State -> Prop) (st st' : State) : Prop := P st -> P st'.


(** ** The terminal route *)

(** [AdvancedContainerManager.create_terminal_session] *)
Definition create_terminal_session (g : Globals) (env : Env) (container_id : string)
  : M (option string) :=
  create_session g env container_id.

(** The JSON bodies of [api_create_terminal]. *)
Inductive TerminalResponse : Type :=
  | TerminalCreated (session_id : string)  (* {"success": True, "session_id": session_id} *)
  | TerminalFailed (message : string).     (* {"success": False, "message": message} *)

(** [if session_id:] on a value that is [None] or a string. *)
Definition truthy_id (session_id : option string) : bool :=
  match session_id with
  | None => false
  | Some s => negb (String.eqb s "")
  end.

Definition api_create_terminal (g : Globals) (env : Env) (container_id : string)
  : M TerminalResponse :=
  (session_id <- create_terminal_session g env container_id ;;
   if truthy_id session_id
   then pure (TerminalCreated (default "" session_id))
   else pure (TerminalFailed "Failed to create terminal session"))%M.

(** No character of [s] is an underscore. *)
Fixpoint underscore_free (s : string) : bool :=
  match s with
  | EmptyString => true
  | String c s' => negb (String.eqb (String c "") "_") && underscore_free s'
  end.

(** The session table as the manager builds it: every entry is filed under
    its container's id followed by ["_"] and a second, and holds no
    socket. *)
Definition sessions_wellformed (st : State) : Prop :=
  forall session_id session,
    active_sessions st !! session_id = Some session ->
    socket session = None /\
    exists t : Z, session_id = container_id session +:+ "_" +:+ pretty t.

(** The session table is as it was. *)
Definition same_sessions (st st' : State) : Prop :=
  active_sessions st' = active_sessions st.

(** ** The stores of one iteration *)

(** The record the loop would store for [container], when the collection
    gives one. *)
Definition container_sample (g : Globals) (env : Env) (container : Docker.Container)
  : option (Env * string * dict) :=
  let container_metrics := (collect_container_metrics g env (Docker.id container) initial).1 in
  if truthy container_metrics
  then Some (env, "container:" +:+ Docker.id container,
             <["container_id" := PyStr (Docker.id container)]> container_metrics)
  else None.

(** The [store_metrics] calls an iteration makes in [env] when the backend
    answers: the host sample if there is one, then one per listed container
    that gave a sample. *)
Definition samples_of (g : Globals) (env : Env) : list (Env * string * dict) :=
  let system_metrics := (collect_system_metrics env initial).1 in
  (if truthy system_metrics then [(env, "system", system_metrics)] else [])
  ++ (if DOCKER_AVAILABLE g then
        match containers_list env with
        | inr containers => omap (container_sample g env) containers
        | inl _ => []
        end
      else []).

(** The records held for the given metrics types, counted together. *)
Definition held (g : Globals) (metrics_types : list string) (st : State) : nat :=
  sum_list_with (fun metrics_type => length (stream g metrics_type st)) metrics_types.

(** ** get_container_processes *)

(** What [container.top()] answers: the column titles and one row of
    strings per process.  [Processes] is [None] when the answer is empty
    or has no ['Processes'] key; the titles are read only otherwise. *)
Record Top := {
  Titles : list string;
  Processes : option (list (list string))
}.

(** [dict(zip(headers, process))]: the pairing stops at the shorter list,
    and a title that comes twice keeps its last value. *)
Definition zip_dict (headers process : list string) : gmap string string :=
  foldl (fun d item => <[item.1 := item.2]> d) ∅ (zip headers process).

(** The dict appended for one row (source lines 426-434). *)
Definition process_record (headers process : list string) : dict :=
  let process_dict := zip_dict headers process in
  dict_of [("pid", PyStr (default "" (process_dict !! "PID")));
           ("user", PyStr (default "" (process_dict !! "USER")));
           ("time", PyStr (default "" (process_dict !! "TIME")));
           ("command", PyStr (default "" (process_dict !! "COMMAND")));
           ("cpu", PyStr (default "0.0" (process_dict !! "%CPU")));
           ("memory", PyStr (default "0.0" (process_dict !! "%MEM")))].

(** [container_top] is the [top()] method of a container. *)
Definition get_container_processes (g : Globals) (env : Env)
    (container_top : Docker.Container -> result Top) (container_id : string)
  : M (list dict) :=
  if negb (DOCKER_AVAILABLE g) then pure []
  else
    match containers_get env container_id with
    | inl e => (logger_error "Error getting container processes" e ;;; pure [])%M
    | inr container =>
        if negb (String.eqb (Docker.status container) "running") then pure []
        else
          match container_top container with
          | inl e => (logger_error "Error getting container processes" e ;;; pure [])%M
          | inr top =>
              match Processes top with
              | Some rows => pure (map (process_record (Titles top)) rows)
              | None => pure []
              end
          end
    end.

(** The keys of a process record. *)
Definition process_keys : gset string :=
  list_to_set ["pid"; "user"; "time"; "command"; "cpu"; "memory"].

(** ** get_project_health *)

(** Truth value of a Python value: [if v:]. *)
Definition py_truthy (v : pyval) : bool :=
  match v with
  | PyNone => false
  | PyInt z => negb (z =? 0)
  | PyFloat (S754_zero _) => false
  | PyFloat _ => true
  | PyStr s => negb (String.eqb s "")
  | PyList [] => false
  | PyList (_ :: _) => true
  | PyDict d => truthy d
  end.

Module Health.

(** A container of [docker_client.containers.list(all=True)], as
    [get_project_health] reads it. *)
Record Container := {
  name : string;
  status : string;
  attrs : dict
}.

(** An entry of ['issues']: [f"Container {name} is unhealthy"], or [str(e)]
    of the exception that ended the check. *)
Inductive Issue : Type :=
  | Unhealthy (name : string)
  | Failure (e : exn).

(** The dict [get_project_health] returns. *)
Record Status := {
  overall : string;
  containers : list dict;
  last_check : string;
  issues : list Issue
}.

End Health.

(** [container.attrs.get('State', {}).get('Health', {})]; [None] when the
    second [get] is sent to something that is not a dict and raises. *)
Definition health_info_of (attrs : dict) : option pyval :=
  match default (PyDict ∅) (attrs !! "State") with
  | PyDict state => Some (default (PyDict ∅) (state !! "Health"))
  | _ => None
  end.

(** The entry built for one container (source lines 306-320); what the
    inner [try] raises leaves ["running"] as health. *)
Definition container_health (container : Health.Container) : dict :=
  let container_health :=
    dict_of [("name", PyStr (Health.name container));
             ("status", PyStr (Health.status container));
             ("health", PyStr "unknown")] in
  if String.eqb (Health.status container) "running" then
    match health_info_of (Health.attrs container) with
    | Some health_info =>
        if py_truthy health_info then
          match health_info with
          | PyDict h =>
              <["failing_streak" := default (PyInt 0) (h !! "FailingStreak")]>
                (<["health" := default (PyStr "unknown") (h !! "Status")]> container_health)
          | _ => <["health" := PyStr "running"]> container_health
          end
        else container_health
    | None => <["health" := PyStr "running"]> container_health
    end
  else container_health.

(** [c['name']] of an entry. *)
Definition entry_name (c : dict) : string :=
  match c !! "name" with
  | Some (PyStr s) => s
  | _ => ""
  end.

(** [projects] is [self.config["projects"]], [lower] is [str.lower] and
    [containers_list_all] what [docker_client.containers.list(all=True)]
    answers during the call. *)
Definition get_project_health (lower : string -> string) (g : Globals) (env : Env)
    (containers_list_all : result (list Health.Container))
    (projects : dict) (name : string)
  : M (option Health.Status) :=
  match projects !! name with
  | None => pure None
  | Some project =>
      if negb (py_truthy project) then pure None
      else
        let last_check := now_isoformat env in
        if DOCKER_AVAILABLE g then
          match containers_list_all with
          | inr all_containers =>
              let project_containers :=
                filter (fun c => String.prefix (lower name) (Health.name c) = true)
                       all_containers in
              let containers := map container_health project_containers in
              match project_containers with
              | [] =>
                  pure (Some {| Health.overall := "no_containers";
                                Health.containers := containers;
                                Health.last_check := last_check;
                                Health.issues := [] |})
              | _ :: _ =>
                  let unhealthy :=
                    filter (fun c => get_eq_str c "health" "unhealthy" = true) containers in
                  match unhealthy with
                  | _ :: _ =>
                      pure (Some {| Health.overall := "unhealthy";
                                    Health.containers := containers;
                                    Health.last_check := last_check;
                                    Health.issues :=
                                      map (fun c => Health.Unhealthy (entry_name c))
                                          unhealthy |})
                  | [] =>
                      pure (Some {| Health.overall := "healthy";
                                    Health.containers := containers;
                                    Health.last_check := last_check;
                                    Health.issues := [] |})
                  end
              end
          | inl e =>
              (logger_error "Error checking project health" e ;;;
               pure (Some {| Health.overall := "error";
                             Health.containers := [];
                             Health.last_check := last_check;
                             Health.issues := [Health.Failure e] |}))%M
          end
        else
          pure (Some {| Health.overall := "healthy";
                        Health.containers := [];
                        Health.last_check := last_check;
                        Health.issues := [] |})
  end.

(** The fields of a process record: the key, the title of the column it is
    read from and the value it takes when the row has no such column. *)
Definition process_columns : list (string * string * string) :=
  [("pid", "PID", ""); ("user", "USER", ""); ("time", "TIME", "");
   ("command", "COMMAND", ""); ("cpu", "%CPU", "0.0"); ("memory", "%MEM", "0.0")].

(** A running container whose health check reports ["unhealthy"], read off
    what the runtime gives. *)
Definition reports_unhealthy (container : Health.Container) : bool :=
  String.eqb (Health.status container) "running" &&
  match Health.attrs container !! "State" with
  | Some (PyDict state) =>
      match state !! "Health" with
      | Some (PyDict h) => get_eq_str h "Status" "unhealthy"
      | _ => false
      end
  | _ => false
  end.

(** The containers counted for a project: those whose name starts with the
    project's name in lower case. *)
Definition project_containers (lower : string -> string) (name : string)
    (all_containers : list Health.Container) : list Health.Container :=
  filter (fun c => String.prefix (lower name) (Health.name c) = true) all_containers.

(** ** Sample projects *)
Module SampleProject.

(** [str.lower], on ASCII strings. *)
Fixpoint lower (s : string) : string :=
  match s with
  | EmptyString => EmptyString
  | String c s' =>
      let n := Ascii.nat_of_ascii c in
      String (if (65 <=? n)%nat && (n <=? 90)%nat then Ascii.ascii_of_nat (n + 32) else c)
             (lower s')
  end.

Definition projects : dict :=
  dict_of [("Web", PyDict (dict_of [("name", PyStr "Web"); ("status", PyStr "configured")]));
           ("webapp", PyDict (dict_of [("name", PyStr "webapp")]));
           ("empty", PyDict ∅)].

(** A running container whose health check fails, one that has exited in
    the same state, and a running one without health check. *)
Definition failing : Health.Container :=
  {| Health.name := "webapp-db-1"; Health.status := "running";
     Health.attrs :=
       dict_of [("State", PyDict (dict_of
                  [("Status", PyStr "running");
                   ("Health", PyDict (dict_of [("Status", PyStr "unhealthy");
                                               ("FailingStreak", PyInt 3)]))]))] |}.

Definition exited : Health.Container :=
  {| Health.name := "web-worker-1"; Health.status := "exited";
     Health.attrs := Health.attrs failing |}.

Definition plain : Health.Container :=
  {| Health.name := "cache-1"; Health.status := "running";
     Health.attrs := dict_of [("State", PyDict (dict_of [("Status", PyStr "running")]))] |}.

Definition listed : list Health.Container := [exited; failing; plain].

(** [top()] of the running sample container, as [ps -ef] prints. *)
Definition top (container : Docker.Container) : result Top :=
  ret {| Titles := ["UID"; "PID"; "PPID"; "C"; "STIME"; "TTY"; "TIME"; "CMD"];
         Processes := Some [["root"; "1"; "0"; "0"; "10:01"; "?"; "00:00:03"; "nginx"];
                            ["www"; "29"; "1"; "0"; "10:01"; "?"; "00:00:00"; "worker"]] |}.

End SampleProject.

(** ** class AdvancedProjectManager *)
Module Projects.

(** What the manager's code can raise: an error of Git or of the file
    system, or an error of indexing the config. *)
Inductive raised : Type :=
  | GitError (msg : string)
  | OSError (msg : string)
  | KeyError (key : string)
  | TypeError
  | AttributeError.

(** What a call does outside the manager: the Git and file operations it
    starts and the records it logs, oldest first. *)
Inductive Effect : Type :=
  | Pull (path : string)                     (* Repo(path).remotes.origin.pull() *)
  | Clone (repo_url path branch : string)    (* Repo.clone_from(repo_url, path, branch=branch) *)
  | Dump (config : pyval)                    (* open(CONFIG_FILE, 'w'); json.dump(config, f) *)
  | Log (msg : string) (e : raised).         (* logger.error(f"{msg}: {e}") *)

(** What Git, the file system and the clock answer during one call. *)
Record Env := {
  (** [os.path.exists(path)] *)
  path_exists : string -> bool;
  (** [Repo(path)] and [origin.pull()] *)
  pull : string -> raised + unit;
  (** [Repo.clone_from(repo_url, path, branch=branch)] *)
  clone_from : string -> string -> string -> raised + unit;
  (** writing the config file *)
  write : pyval -> raised + unit;
  (** the config file: absent, unreadable, or holding a value *)
  read : option (raised + pyval);
  (** the two [datetime.now().isoformat()] of [add_project] *)
  created_at : string;
  last_updated : string
}.

Record State := {
  (** [self.config] *)
  config : pyval;
  effects : list Effect
}.

(** The JSON bodies of [add_project]. *)
Inductive Response : Type :=
  | Added (name : string)    (* {"success": True, "message": f"Project {name} added successfully"} *)
  | Failed (e : raised).     (* {"success": False, "message": str(e)} *)

End Projects.

Definition PROJECTS_DIR : string := "/tmp/advanced_manager_projects".

(** [os.path.join(a, b)] on POSIX paths. *)
Definition path_join (a b : string) : string :=
  if String.prefix "/" b then b
  else if String.eqb a "" || String.prefix "/" (String.rev a) then a +:+ b
  else a +:+ "/" +:+ b.

(** [{"projects": {}, "settings": {}}] *)
Definition default_config : pyval :=
  PyDict (dict_of [("projects", PyDict ∅); ("settings", PyDict ∅)]).

Definition perform (effect : Projects.Effect) (st : Projects.State) : Projects.State :=
  {| Projects.config := Projects.config st;
     Projects.effects := Projects.effects st ++ [effect] |}.

Definition set_config (config : pyval) (st : Projects.State) : Projects.State :=
  {| Projects.config := config; Projects.effects := Projects.effects st |}.

(** [save_config]: what the write raises is logged and goes no further. *)
Definition save_config (env : Projects.Env) (st : Projects.State) : Projects.State :=
  let st := perform (Projects.Dump (Projects.config st)) st in
  match Projects.write env (Projects.config st) with
  | inr _ => st
  | inl e => perform (Projects.Log "Error saving config" e) st
  end.

Definition load_config (env : Projects.Env) (st : Projects.State) : Projects.State :=
  match Projects.read env with
  | Some (inr config) => set_config config st
  | Some (inl e) =>
      set_config default_config (perform (Projects.Log "Error loading config" e) st)
  | None => save_config env (set_config default_config st)
  end.

(** [v.get(k, d)] on a Python value. *)
Definition py_get (v : pyval) (k : string) (d : pyval) : Projects.raised + pyval :=
  match v with
  | PyDict m => inr (default d (m !! k))
  | _ => inl Projects.AttributeError
  end.

Definition get_projects (st : Projects.State) : Projects.raised + pyval :=
  py_get (Projects.config st) "projects" (PyDict ∅).

Definition get_project (name : string) (st : Projects.State) : Projects.raised + pyval :=
  match get_projects st with
  | inr projects => py_get projects name PyNone
  | inl e => inl e
  end.

(** The entry [add_project] files; [False] is the int 0 it equals. *)
Definition project_entry (env : Projects.Env)
    (name repo_url branch project_path dockerfile_path compose_file : string)
    (environment_vars : dict) : pyval :=
  PyDict (dict_of
    [("name", PyStr name);
     ("repo_url", PyStr repo_url);
     ("branch", PyStr branch);
     ("path", PyStr project_path);
     ("dockerfile", PyStr dockerfile_path);
     ("compose_file", PyStr compose_file);
     ("environment_vars", PyDict environment_vars);
     ("containers", PyList []);
     ("status", PyStr "configured");
     ("created_at", PyStr (Projects.created_at env));
     ("last_updated", PyStr (Projects.last_updated env));
     ("build_history", PyList []);
     ("deploy_history", PyList []);
     ("health_checks", PyList []);
     ("auto_restart", PyInt 0);
     ("resource_limits", PyDict (dict_of [("memory", PyStr "512m"); ("cpu", PyStr "0.5")]))]).

(** The [except] clause of [add_project]. *)
Definition add_project_failed (e : Projects.raised) (st : Projects.State)
  : Projects.Response * Projects.State :=
  (Projects.Failed e, perform (Projects.Log "Error adding project" e) st).

(** The Git operation [add_project] starts for [name], and what it answers:
    a pull in the project's directory when that exists, a clone otherwise. *)
Definition checkout (env : Projects.Env) (name repo_url branch : string)
  : Projects.Effect * (Projects.raised + unit) :=
  let project_path := path_join PROJECTS_DIR name in
  if Projects.path_exists env project_path
  then (Projects.Pull project_path, Projects.pull env project_path)
  else (Projects.Clone repo_url project_path branch,
        Projects.clone_from env repo_url project_path branch).

Definition add_project (env : Projects.Env)
    (name repo_url branch dockerfile_path compose_file : string) (environment_vars : dict)
    (st : Projects.State) : Projects.Response * Projects.State :=
  let project_path := path_join PROJECTS_DIR name in
  let repo := checkout env name repo_url branch in
  let st := perform repo.1 st in
  match repo.2 with
  | inl e => add_project_failed e st
  | inr _ =>
      let entry :=
        project_entry env name repo_url branch project_path dockerfile_path compose_file
                      environment_vars in
      (* self.config["projects"][name] = entry *)
      match Projects.config st with
      | PyDict c =>
          match c !! "projects" with
          | Some (PyDict projects) =>
              let config := PyDict (<["projects" := PyDict (<[name := entry]> projects)]> c) in
              (Projects.Added name, save_config env (set_config config st))
          | Some _ => add_project_failed Projects.TypeError st
          | None => add_project_failed (Projects.KeyError "projects") st
          end
      | _ => add_project_failed Projects.TypeError st
      end
  end.

(** File system, Git and clock of the sample runs: the directory of
    ["shop"] exists, cloning works, the config file cannot be written. *)
Module SampleRepo.

Definition env : Projects.Env :=
  {| Projects.path_exists := fun path => String.eqb path "/tmp/advanced_manager_projects/shop";
     Projects.pull := fun _ => inr tt;
     Projects.clone_from := fun _ _ _ => inr tt;
     Projects.write := fun _ => inl (Projects.OSError "Read-only file system");
     Projects.read := Some (inr (PyDict ∅));
     Projects.created_at := "2023-11-14T22:13:20.000001";
     Projects.last_updated := "2023-11-14T22:13:20.000002" |}.

Definition loaded : Projects.State :=
  {| Projects.config := default_config; Projects.effects := [] |}.

End SampleRepo.
(** * Properties *)

(** ** Floats: [int / int] is defined on 64-bit counters *)

Lemma digits2_pos_size p : digits2_pos p = Pos.size p.
Proof. induction p; simpl; congruence. Qed.

Lemma Zdigits2_log2 m : 0 < m -> Zdigits2 m = Z.log2 m + 1.
Proof.
  destruct m as [|p|p]; try lia. intros _. simpl.
  rewrite digits2_pos_size. destruct p; simpl; lia.
Qed.

Lemma Zdigits2_nonneg m : 0 <= Zdigits2 m.
Proof. destruct m; simpl; lia. Qed.

Lemma Zdigits2_lt_pow2 m k : 0 <= k -> 0 <= m < 2 ^ k -> Zdigits2 m <= k.
Proof.
  intros Hk [Hm Hlt]. destruct (Z.eq_dec m 0) as [->|Hne]; [simpl; lia|].
  rewrite Zdigits2_log2 by lia.
  assert (Z.log2 m < k) by (apply Z.log2_lt_pow2; lia). lia.
Qed.

Lemma Zdigits2_gt m : 0 <= m -> m < 2 ^ Zdigits2 m.
Proof.
  intros Hm. destruct (Z.eq_dec m 0) as [->|Hne]; [simpl; lia|].
  rewrite Zdigits2_log2 by lia.
  replace (Z.log2 m + 1) with (Z.succ (Z.log2 m)) by lia.
  apply Z.log2_spec. lia.
Qed.

Lemma shr_m_shr_1 mrs : 0 <= shr_m mrs -> shr_m (shr_1 mrs) = shr_m mrs / 2.
Proof.
  destruct mrs as [m r s]. simpl. intros Hm.
  destruct m as [|[p|p|]|p]; cbn [shr_m]; try lia; try done.
  - apply Z.div_unique with 1; lia.
  - apply Z.div_unique with 0; lia.
Qed.

Lemma shr_m_iter_pos p : forall mrs,
  0 <= shr_m mrs -> shr_m (SpecFloat.iter_pos shr_1 p mrs) = shr_m mrs / 2 ^ Zpos p.
Proof.
  induction p as [p IH|p IH|]; intros mrs Hm; simpl SpecFloat.iter_pos.
  - assert (H1 : 0 <= shr_m (shr_1 mrs)) by (rewrite shr_m_shr_1 by done; apply Z.div_pos; lia).
    assert (H2 : 0 <= shr_m (SpecFloat.iter_pos shr_1 p (shr_1 mrs)))
      by (rewrite IH by done; apply Z.div_pos; lia).
    rewrite IH, IH, shr_m_shr_1 by done.
    rewrite !Z.div_div by lia. f_equal.
    replace (Z.pos p~1) with (1 + Z.pos p + Z.pos p) by lia.
    rewrite !Z.pow_add_r by lia. lia.
  - assert (H2 : 0 <= shr_m (SpecFloat.iter_pos shr_1 p mrs))
      by (rewrite IH by done; apply Z.div_pos; lia).
    rewrite IH, IH by done.
    rewrite !Z.div_div by lia. f_equal.
    replace (Z.pos p~0) with (Z.pos p + Z.pos p) by lia.
    rewrite !Z.pow_add_r by lia. lia.
  - rewrite shr_m_shr_1 by done. reflexivity.
Qed.

(** What [shr_fexp] leaves: a nonnegative mantissa whose digits end no
    higher than before, at an exponent that is the old one or the format's. *)
Lemma shr_fexp_bound m e l mrs' e' :
  0 <= m ->
  shr_fexp PyFloat.prec PyFloat.emax m e l = (mrs', e') ->
  0 <= shr_m mrs' /\
  (e' = e \/ e' = fexp PyFloat.prec PyFloat.emax (Zdigits2 m + e)) /\
  Zdigits2 (shr_m mrs') + e' <= Z.max (Zdigits2 m + e) e'.
Proof.
  intros Hm. unfold shr_fexp, shr.
  assert (Hrec : shr_m (shr_record_of_loc m l) = m) by (destruct l as [|[]]; reflexivity).
  destruct (fexp PyFloat.prec PyFloat.emax (Zdigits2 m + e) - e) as [|n|n] eqn:Hn;
    intros [= <- <-]; rewrite ?Hrec; try (split; [done|split; [by left|lia]]).
  rewrite shr_m_iter_pos, Hrec by (rewrite Hrec; done).
  split; [apply Z.div_pos; lia|]. split; [right; lia|].
  pose proof (Zdigits2_nonneg m) as Hd.
  destruct (Z_lt_le_dec (Zdigits2 m) (Zpos n)) as [Hlt|Hge].
  - rewrite Z.div_small; [simpl; lia|]. split; [done|].
    eapply Z.lt_le_trans; [apply Zdigits2_gt; done|].
    apply Z.pow_le_mono_r; lia.
  - assert (Zdigits2 (m / 2 ^ Zpos n) <= Zdigits2 m - Zpos n); [|lia].
    apply Zdigits2_lt_pow2; [lia|]. split; [apply Z.div_pos; lia|].
    apply Z.div_lt_upper_bound; [lia|].
    rewrite <- Z.pow_add_r by lia.
    replace (Zpos n + (Zdigits2 m - Zpos n)) with (Zdigits2 m) by lia.
    by apply Zdigits2_gt.
Qed.

Lemma Zdigits2_succ m : 0 <= m -> Zdigits2 (m + 1) <= Zdigits2 m + 1.
Proof.
  intros Hm. pose proof (Zdigits2_nonneg m).
  apply Zdigits2_lt_pow2; [lia|]. split; [lia|].
  rewrite Z.pow_add_r by lia. pose proof (Zdigits2_gt m Hm). lia.
Qed.

Lemma round_nearest_even_bound m l :
  0 <= m -> 0 <= round_nearest_even m l /\ Zdigits2 (round_nearest_even m l) <= Zdigits2 m + 1.
Proof.
  intros Hm. pose proof (Zdigits2_succ m Hm). pose proof (Zdigits2_nonneg m).
  destruct l as [|[]]; simpl; try (split; lia).
  destruct (Z.even m); split; lia.
Qed.

(** Rounding a mantissa whose digits end below [2^1023] never overflows. *)
Lemma binary_round_aux_finite s m e l s' :
  0 <= m -> Zdigits2 m + e <= 1023 -> e <= 971 ->
  binary_round_aux PyFloat.prec PyFloat.emax s m e l <> S754_infinity s'.
Proof.
  intros Hm Hd He. unfold binary_round_aux.
  destruct (shr_fexp PyFloat.prec PyFloat.emax m e l) as [mrs1 e1] eqn:H1.
  apply shr_fexp_bound in H1 as (Hm1 & He1 & Hd1); [|done].
  pose proof (round_nearest_even_bound (shr_m mrs1) (loc_of_shr_record mrs1) Hm1) as [Hr Hrd].
  destruct (shr_fexp PyFloat.prec PyFloat.emax (round_nearest_even (shr_m mrs1) (loc_of_shr_record mrs1)) e1 loc_Exact)
    as [mrs2 e2] eqn:H2.
  apply shr_fexp_bound in H2 as (Hm2 & He2 & Hd2); [|done].
  destruct (shr_m mrs2) as [|p|p]; try discriminate.
  destruct (Z.leb_spec e2 (PyFloat.emax - PyFloat.prec)); [discriminate|].
  exfalso. unfold fexp, emin, PyFloat.emax, PyFloat.prec in *. lia.
Qed.

Lemma SFdiv_exact_finite a b s :
  Z.abs a < 2 ^ 1023 -> b <> 0 ->
  SFdiv PyFloat.prec PyFloat.emax (PyFloat.exact a) (PyFloat.exact b) <> S754_infinity s.
Proof.
  intros Ha Hb.
  assert (Hcore : forall pa pb sg, Zpos pa < 2 ^ 1023 ->
    (let '(mz, ez, lz) := SFdiv_core_binary PyFloat.prec PyFloat.emax (Zpos pa) 0 (Zpos pb) 0 in
     binary_round_aux PyFloat.prec PyFloat.emax sg mz ez lz) <> S754_infinity s).
  { intros pa pb sg Hpa. unfold SFdiv_core_binary.
    set (e' := Z.min _ _). 
    assert (He' : e' <= 0) by (subst e'; lia).
    set (m' := match 0 - 0 - e' with Z0 => Zpos pa | Zpos _ => Z.shiftl (Zpos pa) (0 - 0 - e') | Zneg _ => 0 end).
    assert (Hm' : m' = Zpos pa * 2 ^ (- e')).
    { subst m'. destruct (0 - 0 - e') as [|n|n] eqn:Hs; try lia.
      - replace (- e') with 0 by lia. lia.
      - rewrite Z.shiftl_mul_pow2 by lia. f_equal. f_equal. lia. }
    clearbody m'. 
    destruct (Z.div_eucl m' (Zpos pb)) as [q r] eqn:Hqr.
    assert (Hq : q = m' / Zpos pb) by (unfold Z.div; by rewrite Hqr).
    assert (0 < 2 ^ (- e')) by (apply Z.pow_pos_nonneg; lia).
    assert (Hq0 : 0 <= q) by (subst q; apply Z.div_pos; lia).
    assert (Hqm : q <= m') by (subst q; apply Z.div_le_upper_bound; nia).
    apply binary_round_aux_finite; [done| |lia].
    assert (Zdigits2 q <= 1023 - e'); [|lia].
    apply Zdigits2_lt_pow2; [lia|]. split; [done|].
    eapply Z.le_lt_trans; [exact Hqm|]. rewrite Hm'.
    replace (1023 - e') with (1023 + - e') by lia. rewrite Z.pow_add_r by lia.
    apply Z.mul_lt_mono_pos_r; lia. }
  destruct a as [|pa|pa], b as [|pb|pb]; simpl; try done; apply Hcore; lia.
Qed.

Lemma int_truediv_defined a b :
  Z.abs a < 2 ^ 1023 -> b <> 0 -> exists q, PyFloat.int_truediv a b = ret q.
Proof.
  intros Ha Hb. unfold PyFloat.int_truediv.
  destruct (Z.eqb_spec b 0); [done|].
  destruct (SFdiv PyFloat.prec PyFloat.emax (PyFloat.exact a) (PyFloat.exact b)) as [| s | |] eqn:Hd; eauto.
  by apply SFdiv_exact_finite in Hd.
Qed.

(** ** Sampler: the derived percentages *)

Lemma cpu_usage_of_defined stats :
  Docker.counters_uint64 stats -> exists x, cpu_usage_of stats = ret x.
Proof.
  intros (H1 & H2 & H3 & H4 & _). unfold cpu_usage_of, Docker.uint64 in *.
  destruct (0 <? _); [|by eexists].
  destruct (Z.ltb_spec 0 (Docker.system_cpu_usage (Docker.cpu_stats stats)
                          - Docker.system_cpu_usage (Docker.precpu_stats stats))); [|by eexists].
  edestruct int_truediv_defined as [q ->]; [| |by eexists]; [|lia].
  assert (2 ^ 64 < 2 ^ 1023) by (apply Z.pow_lt_mono_r; lia). lia.
Qed.

Lemma memory_usage_of_defined stats :
  Docker.counters_uint64 stats -> exists x, memory_usage_of stats = ret x.
Proof.
  intros (_ & _ & _ & _ & H5 & H6). unfold memory_usage_of, Docker.uint64 in *.
  destruct (Z.ltb_spec 0 (Docker.limit (Docker.memory_stats stats))); [|by eexists].
  edestruct int_truediv_defined as [q ->]; [| |by eexists]; [|lia].
  assert (2 ^ 64 < 2 ^ 1023) by (apply Z.pow_lt_mono_r; lia). lia.
Qed.

Lemma int_truediv_no_zero_division a b :
  0 < b -> PyFloat.int_truediv a b <> raise ZeroDivisionError.
Proof.
  intros Hb. unfold PyFloat.int_truediv.
  destruct (Z.eqb_spec b 0); [lia|].
  by destruct (SFdiv _ _ _ _).
Qed.

Lemma bind_not_raise {A B} (m : result A) (k : A -> result B) e :
  m <> raise e -> (forall a, k a <> raise e) -> bind m k <> raise e.
Proof.
  unfold raise. destruct m as [e'|a]; simpl; [|auto].
  intros H _ [= ->]. by apply H.
Qed.

Lemma container_metrics_of_no_zero_division now stats :
  container_metrics_of now stats <> raise ZeroDivisionError.
Proof.
  unfold container_metrics_of.
  apply bind_not_raise.
  - unfold cpu_usage_of. destruct (0 <? _); [|done].
    destruct (Z.ltb_spec 0 (Docker.system_cpu_usage (Docker.cpu_stats stats)
                            - Docker.system_cpu_usage (Docker.precpu_stats stats))); [|done].
    apply bind_not_raise; [by apply int_truediv_no_zero_division|done].
  - intros cpu. apply bind_not_raise.
    + unfold memory_usage_of.
      destruct (Z.ltb_spec 0 (Docker.limit (Docker.memory_stats stats))); [|done].
      apply bind_not_raise; [by apply int_truediv_no_zero_division|done].
    + intros mem. by destruct (network_io_of stats).
Qed.

Lemma container_metrics_of_percent now stats cpu mem :
  cpu_usage_of stats = ret cpu -> memory_usage_of stats = ret mem ->
  exists metrics, container_metrics_of now stats = ret metrics /\
    metrics !! "cpu_percent" = Some (PyFloat (PyFloat.round cpu 2)) /\
    metrics !! "memory_percent" = Some (PyFloat (PyFloat.round mem 2)).
Proof.
  intros Hc Hm. unfold container_metrics_of. rewrite Hc, Hm. simpl.
  destruct (network_io_of stats) as [rx tx]. eexists. split; [reflexivity|].
  generalize (PyFloat.round cpu 2), (PyFloat.round mem 2). intros x y.
  split; reflexivity.
Qed.

Lemma collect_container_metrics_resolved g env container_id container stats metrics st :
  DOCKER_AVAILABLE g = true ->
  containers_get env container_id = ret container ->
  Docker.stats container = ret stats ->
  container_metrics_of (now_isoformat env) stats = ret metrics ->
  collect_container_metrics g env container_id st = (metrics, st).
Proof.
  intros Hg Hc Hs Hm. unfold collect_container_metrics.
  rewrite Hg, Hc. simpl. rewrite Hs. simpl. rewrite Hm. reflexivity.
Qed.

(** [C1] For a snapshot whose current CPU total and system CPU delta are both
    positive, [collect_container_metrics] returns as [cpu_percent] the float
    [(cpu_usage_delta / system_cpu_delta) * num_cores * 100.0] rounded to two
    places; when the system delta or the current total is not positive it
    returns [0.0]; and the derivation never raises [ZeroDivisionError]. *)
Theorem cpu_percent_derivation g env container_id container stats st :
  DOCKER_AVAILABLE g = true ->
  containers_get env container_id = ret container ->
  Docker.stats container = ret stats ->
  Docker.counters_uint64 stats ->
  let cur := Docker.cpu_stats stats in
  let pre := Docker.precpu_stats stats in
  let total_usage := Docker.total_usage (Docker.cpu_usage cur) in
  let cpu_usage_delta := total_usage - Docker.total_usage (Docker.cpu_usage pre) in
  let system_cpu_delta := Docker.system_cpu_usage cur - Docker.system_cpu_usage pre in
  let num_cores := Z.of_nat (length (Docker.percpu_usage (Docker.cpu_usage cur))) in
  let metrics := fst (collect_container_metrics g env container_id st) in
  (0 < total_usage -> 0 < system_cpu_delta ->
   exists q,
     PyFloat.int_truediv cpu_usage_delta system_cpu_delta = ret q /\
     metrics !! "cpu_percent" =
       Some (PyFloat (PyFloat.round
                        (PyFloat.mul (PyFloat.mul q (PyFloat.of_int num_cores))
                                     PyFloat.hundred) 2))) /\
  (system_cpu_delta <= 0 \/ total_usage <= 0 ->
   metrics !! "cpu_percent" = Some (PyFloat PyFloat.zero)) /\
  container_metrics_of (now_isoformat env) stats <> raise ZeroDivisionError.
Proof.
  intros Hg Hc Hs Hwf. cbv zeta.
  destruct (cpu_usage_of_defined stats Hwf) as [cpu Hcpu].
  destruct (memory_usage_of_defined stats Hwf) as [mem Hmem].
  destruct (container_metrics_of_percent (now_isoformat env) stats cpu mem Hcpu Hmem)
    as (metrics & Hm & Hcp & _).
  rewrite (collect_container_metrics_resolved g env container_id container stats metrics st)
    by done.
  cbn [fst]. rewrite Hcp. unfold cpu_usage_of in Hcpu.
  split; [|split; [|apply container_metrics_of_no_zero_division]].
  - intros Ht Hd.
    destruct (Z.ltb_spec 0 (Docker.total_usage (Docker.cpu_usage (Docker.cpu_stats stats))));
      [|lia].
    destruct (Z.ltb_spec 0 (Docker.system_cpu_usage (Docker.cpu_stats stats)
                            - Docker.system_cpu_usage (Docker.precpu_stats stats))); [|lia].
    destruct (PyFloat.int_truediv _ _) as [e|q]; [discriminate|].
    injection Hcpu as <-. by exists q.
  - intros Hle.
    destruct (Z.ltb_spec 0 (Docker.total_usage (Docker.cpu_usage (Docker.cpu_stats stats))));
      [|by injection Hcpu as <-].
    destruct (Z.ltb_spec 0 (Docker.system_cpu_usage (Docker.cpu_stats stats)
                            - Docker.system_cpu_usage (Docker.precpu_stats stats)));
      [lia|by injection Hcpu as <-].
Qed.

Lemma sample_counters_uint64 : Docker.counters_uint64 Sample.stats.
Proof. unfold Docker.counters_uint64, Docker.uint64. simpl. lia. Qed.

(** The scenario of 400 CPU units over 1000 system units on 4 cores: 160.0. *)
Lemma cpu_percent_derivation_witness :
  fst (collect_container_metrics Sample.with_redis Sample.env "abc123" initial)
    !! "cpu_percent" = Some (PyFloat (PyFloat.of_int 160)).
Proof.
  destruct (cpu_percent_derivation Sample.with_redis Sample.env "abc123"
              Sample.running Sample.stats initial
              eq_refl eq_refl eq_refl sample_counters_uint64) as [H _].
  destruct H as (q & Hq & ->); [simpl; lia|simpl; lia|].
  vm_compute in Hq. injection Hq as <-. vm_compute. reflexivity.
Defined.

(** [C3] [collect_container_metrics] returns as [memory_percent] the float
    [(usage / limit) * 100.0] rounded to two places when the limit is
    positive, and [0.0] when the limit is not positive. *)
Theorem memory_percent_derivation g env container_id container stats st :
  DOCKER_AVAILABLE g = true ->
  containers_get env container_id = ret container ->
  Docker.stats container = ret stats ->
  Docker.counters_uint64 stats ->
  let memory_usage := Docker.usage (Docker.memory_stats stats) in
  let memory_limit := Docker.limit (Docker.memory_stats stats) in
  let metrics := fst (collect_container_metrics g env container_id st) in
  (0 < memory_limit ->
   exists q,
     PyFloat.int_truediv memory_usage memory_limit = ret q /\
     metrics !! "memory_percent" =
       Some (PyFloat (PyFloat.round (PyFloat.mul q PyFloat.hundred) 2))) /\
  (memory_limit <= 0 -> metrics !! "memory_percent" = Some (PyFloat PyFloat.zero)).
Proof.
  intros Hg Hc Hs Hwf. cbv zeta.
  destruct (cpu_usage_of_defined stats Hwf) as [cpu Hcpu].
  destruct (memory_usage_of_defined stats Hwf) as [mem Hmem].
  destruct (container_metrics_of_percent (now_isoformat env) stats cpu mem Hcpu Hmem)
    as (metrics & Hm & _ & Hmp).
  rewrite (collect_container_metrics_resolved g env container_id container stats metrics st)
    by done.
  cbn [fst]. rewrite Hmp. unfold memory_usage_of in Hmem.
  destruct (Z.ltb_spec 0 (Docker.limit (Docker.memory_stats stats))).
  - split; [intros _|lia].
    destruct (PyFloat.int_truediv _ _) as [e|q]; [discriminate|].
    injection Hmem as <-. by exists q.
  - split; [lia|intros _]. by injection Hmem as <-.
Qed.

(** 256 MiB used of a 512 MiB limit: 50.0. *)
Lemma memory_percent_derivation_witness :
  fst (collect_container_metrics Sample.with_redis Sample.env "abc123" initial)
    !! "memory_percent" = Some (PyFloat (PyFloat.of_int 50)).
Proof.
  destruct (memory_percent_derivation Sample.with_redis Sample.env "abc123"
              Sample.running Sample.stats initial
              eq_refl eq_refl eq_refl sample_counters_uint64) as [H _].
  destruct H as (q & Hq & ->); [simpl; lia|].
  vm_compute in Hq. injection Hq as <-. vm_compute. reflexivity.
Defined.


(** ** History store *)

Lemma slice_trim {A} (l : list A) : Redis.slice l 0 (max_history - 1) = take 100 l.
Proof.
  unfold Redis.slice, max_history.
  change (100 - 1) with 99. change (99 <? 0) with false. change (0 <? 0) with false.
  cbv iota. change (Z.max 0 0) with 0. change (Z.to_nat 0) with 0%nat. rewrite drop_0.
  destruct (Z.ltb_spec (Z.min (Z.of_nat (length l) - 1) 99) 0) as [H|H].
  - destruct l; [done|]. simpl length in H. lia.
  - destruct (Z_le_gt_dec (Z.of_nat (length l)) 100).
    + rewrite !take_ge; [done|lia|lia].
    + f_equal. lia.
Qed.

Lemma slice_all {A} (l : list A) : Redis.slice l 0 (-1) = l.
Proof.
  unfold Redis.slice.
  change (-1 <? 0) with true. change (0 <? 0) with false.
  cbv iota. change (Z.max 0 0) with 0. change (Z.to_nat 0) with 0%nat. rewrite drop_0.
  destruct (Z.ltb_spec (Z.min (Z.of_nat (length l) - 1) (Z.of_nat (length l) + -1)) 0) as [H|H].
  - destruct l; [done|]. simpl length in H. lia.
  - rewrite take_ge; [done|lia].
Qed.

(** With the server answering, a store under Redis pushes and trims. *)
Lemma store_metrics_redis g env metrics_type data st :
  REDIS_AVAILABLE g = true ->
  redis_up env = true ->
  store_metrics g env metrics_type data st =
    (ret tt,
     {| metrics_history := metrics_history st;
        redis := <["metrics:" +:+ metrics_type :=
                     take 100 (data :: default [] (redis st !! ("metrics:" +:+ metrics_type)))]>
                   (redis st);
        active_sessions := active_sessions st;
        events := events st |}).
Proof.
  intros Hg Hup. unfold store_metrics. rewrite Hg.
  unfold Redis.lpush, Redis.ltrim, Redis.command. rewrite Hup.
  unfold try_seq, lift, seq, get, set_redis. cbn [redis metrics_history active_sessions events].
  rewrite lookup_insert_eq. cbn [default from_option id]. rewrite slice_trim.
  cbn [take]. cbn [redis metrics_history active_sessions events].
  by rewrite insert_insert_eq.
Qed.

(** With the server down, it raises and changes nothing. *)
Lemma store_metrics_redis_down g env metrics_type data st :
  REDIS_AVAILABLE g = true ->
  redis_up env = false ->
  store_metrics g env metrics_type data st = (raise RedisConnectionError, st).
Proof.
  intros Hg Hup. unfold store_metrics. rewrite Hg.
  unfold Redis.lpush, Redis.command. by rewrite Hup.
Qed.

Lemma store_metrics_memory g env metrics_type data st :
  REDIS_AVAILABLE g = false ->
  (length (metrics_history st) <= 100)%nat ->
  store_metrics g env metrics_type data st =
    (ret tt,
     {| metrics_history :=
          drop (length (metrics_history st) + 1 - 100)
               (metrics_history st ++ [history_entry metrics_type data (now_isoformat env)]);
        redis := redis st;
        active_sessions := active_sessions st;
        events := events st |}).
Proof.
  intros Hg Hlen. unfold store_metrics. rewrite Hg.
  unfold lift, seq, get, set_metrics_history, max_history.
  rewrite length_app. cbn [length].
  destruct (Z.ltb_spec 100 (Z.of_nat (length (metrics_history st) + 1))) as [H|H].
  - replace (length (metrics_history st) + 1 - 100)%nat with 1%nat by lia. done.
  - replace (length (metrics_history st) + 1 - 100)%nat with 0%nat by lia. done.
Qed.

Lemma history_bounded_initial : history_bounded initial.
Proof. split; [simpl; lia|]. intros key l. simpl. by rewrite lookup_empty. Qed.

Lemma store_metrics_bounded g env metrics_type data st :
  history_bounded st -> history_bounded (store_metrics g env metrics_type data st).2.
Proof.
  intros [Hm Hr]. destruct (REDIS_AVAILABLE g) eqn:Hg.
  - destruct (redis_up env) eqn:Hup; [|by rewrite store_metrics_redis_down].
    rewrite store_metrics_redis by done. split; [done|]. cbn [snd redis].
    intros key l. rewrite lookup_insert. case_decide.
    + intros [= <-]. cbn [length]. rewrite length_take. lia.
    + apply Hr.
  - rewrite store_metrics_memory by done. split; [|done]. cbn [snd metrics_history].
    rewrite length_drop, length_app. simpl. lia.
Qed.

Lemma store_all_cons g call calls st :
  store_all g (call :: calls) st
    = store_all g calls (store_metrics g call.1.1 call.1.2 call.2 st).2.
Proof.
  unfold store_all. cbn [for_each]. unfold seq, pure.
  by destruct (store_metrics g call.1.1 call.1.2 call.2 st).
Qed.

Lemma store_all_bounded g calls : forall st,
  history_bounded st -> history_bounded (store_all g calls st).2.
Proof.
  induction calls as [|call calls IH]; intros st Hst; [done|].
  rewrite store_all_cons. by apply IH, store_metrics_bounded.
Qed.

Lemma length_omap_le {A B} (f : A -> option B) (l : list A) :
  (length (omap f l) <= length l)%nat.
Proof. induction l as [|x l IH]; csimpl; [done|]. destruct (f x); simpl; lia. Qed.

Lemma stream_bounded g metrics_type st :
  history_bounded st -> (length (stream g metrics_type st) <= 100)%nat.
Proof.
  intros [Hm Hr]. unfold stream. destruct (REDIS_AVAILABLE g).
  - rewrite length_reverse. destruct (redis st !! _) as [l|] eqn:Hl; [by eapply Hr|simpl; lia].
  - etrans; [apply length_omap_le|done].
Qed.

Lemma entry_data_same metrics_type data timestamp :
  entry_data metrics_type (history_entry metrics_type data timestamp) = Some data.
Proof.
  unfold entry_data, get_eq_str, history_entry, dict_of.
  cbn [list_to_map foldr uncurry fst snd]. rewrite lookup_insert_eq, String.eqb_refl.
  rewrite lookup_insert_ne, lookup_insert_eq; done.
Qed.

Lemma entry_data_other metrics_type other data timestamp :
  other <> metrics_type ->
  entry_data metrics_type (history_entry other data timestamp) = None.
Proof.
  intros Hne. unfold entry_data, get_eq_str, history_entry, dict_of.
  cbn [list_to_map foldr uncurry fst snd]. rewrite lookup_insert_eq.
  by destruct (String.eqb_spec other metrics_type).
Qed.

Lemma omap_none_drop {A B} (f : A -> option B) (l : list A) n :
  omap f l = [] -> omap f (drop n l) = [].
Proof.
  intros H. rewrite <- (take_drop n l), omap_app in H.
  by apply app_eq_nil in H as [_ ?].
Qed.

Lemma omap_all_some_drop {A B} (f : A -> option B) (xs : list A) (ys : list B) n :
  Forall2 (fun x y => f x = Some y) xs ys -> omap f (drop n xs) = drop n ys.
Proof.
  intros H. revert n. induction H as [|x y xs ys Hxy _ IH]; intros [|n]; csimpl; try done.
  rewrite Hxy. f_equal. apply (IH 0%nat).
Qed.

(** Appending to the in-process list keeps its last 100 entries. *)
Lemma store_all_memory g calls : forall st,
  REDIS_AVAILABLE g = false ->
  (length (metrics_history st) <= 100)%nat ->
  metrics_history (store_all g calls st).2 =
    drop (length (metrics_history st) + length calls - 100)
         (metrics_history st
            ++ map (fun call => history_entry call.1.2 call.2 (now_isoformat call.1.1)) calls).
Proof.
  induction calls as [|call calls IH]; intros st Hg Hlen.
  - cbn. rewrite app_nil_r. replace (_ + 0 - 100)%nat with 0%nat by lia. done.
  - rewrite store_all_cons, store_metrics_memory by done.
    rewrite IH; [|done|]; cbn [snd metrics_history].
    2:{ rewrite length_drop, length_app. simpl. lia. }
    rewrite length_drop, length_app. cbn [length map].
    set (e := history_entry _ _ _). set (es := map _ calls).
    set (h := metrics_history st) in *.
    destruct (decide (length h + 1 <= 100)%nat) as [Hle|Hgt].
    + replace (length h + 1 - 100)%nat with 0%nat by lia. rewrite drop_0, <- app_assoc.
      cbn [app]. f_equal. lia.
    + replace (length h + 1 - 100)%nat with 1%nat by lia.
      rewrite (cons_middle e h es), app_assoc.
      rewrite <- (drop_app_le (h ++ [e]) es 1) by (rewrite length_app; simpl; lia).
      rewrite drop_drop. f_equal. lia.
Qed.

Lemma take_app_take {A} (l k : list A) n : take n (l ++ take n k) = take n (l ++ k).
Proof. rewrite !take_app, take_take. do 2 f_equal. lia. Qed.

(** Pushing to one Redis list keeps its first 100 entries. *)
Lemma store_all_redis g metrics_type records : forall st,
  REDIS_AVAILABLE g = true ->
  Forall (fun r => redis_up r.1 = true) records ->
  redis (store_all g (appends_to metrics_type records) st).2 !! ("metrics:" +:+ metrics_type) =
    match records with
    | [] => redis st !! ("metrics:" +:+ metrics_type)
    | _ => Some (take 100 (reverse records.*2
                           ++ default [] (redis st !! ("metrics:" +:+ metrics_type))))
    end.
Proof.
  induction records as [|[env d] records IH]; intros st Hg Hup; [done|].
  apply Forall_cons in Hup as [Hup Hups].
  cbn [appends_to map]. rewrite store_all_cons. cbn [fst snd].
  rewrite store_metrics_redis by done. cbn [snd].
  fold (appends_to metrics_type records).
  rewrite (IH _ Hg Hups). cbn [redis]. rewrite lookup_insert_eq.
  set (old := default [] (redis st !! _)).
  destruct records as [|r records]; [done|]. f_equal. cbn [default from_option id].
  rewrite take_app_take. f_equal.
  rewrite (fmap_cons snd (env, d)), (reverse_cons _ d), <- app_assoc. done.
Qed.

(** The stream of a fresh metrics type after [records] were appended to it:
    the last 100 of them, in arrival order. *)
Lemma stream_after_appends g metrics_type records st :
  history_bounded st ->
  Forall (fun r => backend_up g r.1) records ->
  stream g metrics_type st = [] ->
  stream g metrics_type (store_all g (appends_to metrics_type records) st).2 =
    drop (length records - 100) records.*2.
Proof.
  intros [Hm Hr] Hup Hfresh. unfold stream in *. destruct (REDIS_AVAILABLE g) eqn:Hg.
  - rewrite store_all_redis; [|done|].
    2:{ eapply Forall_impl; [exact Hup|]. intros r Hr'. by apply Hr'. }
    assert (Hold : default [] (redis st !! ("metrics:" +:+ metrics_type)) = []).
    { apply (f_equal reverse) in Hfresh. by rewrite reverse_involutive in Hfresh. }
    rewrite Hold in *. destruct records as [|r records]; [by rewrite Hold|].
    cbn [default from_option id]. rewrite app_nil_r, take_reverse, reverse_involutive.
    by rewrite length_fmap.
  - rewrite store_all_memory by done.
    set (h := metrics_history st) in *.
    unfold appends_to. rewrite length_map, map_map. cbn [fst snd].
    set (es := map _ records).
    assert (Hes : Forall2 (fun x y => entry_data metrics_type x = Some y) es records.*2).
    { subst es. clear. induction records as [|r records IH]; constructor; [|done].
      apply entry_data_same. }
    assert (length es = length records) by (subst es; by rewrite length_map).
    rewrite drop_app, omap_app, (omap_none_drop _ h) by done. cbn [app].
    rewrite (omap_all_some_drop _ es records.*2) by done.
    destruct (decide (length records <= 100)%nat).
    + f_equal. lia.
    + f_equal. lia.
Qed.

Lemma sample_records_up g : Forall (fun r => backend_up g r.1) Sample.records.
Proof.
  unfold Sample.records. apply Forall_fmap, Forall_forall. by intros i _ _.
Qed.

(** [C2] After any sequence of [store_metrics] calls the stream of every
    metrics type holds at most 100 records; appending records to a fresh type
    leaves the last 100 of them in arrival order, so 101 appends leave exactly
    100 records, the first one evicted. *)
Theorem history_cap g calls metrics_type records :
  let st := (store_all g calls initial).2 in
  (length (stream g metrics_type st) <= 100)%nat /\
  (stream g metrics_type st = [] ->
   Forall (fun r => backend_up g r.1) records ->
   let st' := (store_all g (appends_to metrics_type records) st).2 in
   stream g metrics_type st' = drop (length records - 100) records.*2 /\
   (length records = 101%nat ->
    length (stream g metrics_type st') = 100%nat /\
    stream g metrics_type st' = drop 1 records.*2)).
Proof.
  cbv zeta.
  pose proof (store_all_bounded g calls initial history_bounded_initial) as Hb.
  split; [by apply stream_bounded|]. intros Hfresh Hup.
  rewrite stream_after_appends by done. split; [done|]. intros Hlen.
  rewrite Hlen. split; [|done].
  rewrite length_drop, length_fmap. lia.
Qed.

(** 101 records appended in process to a fresh type, after a record of
    another type: the first of the 101 is gone. *)
Lemma history_cap_witness :
  stream Sample.in_memory "container:abc123"
    (store_all Sample.in_memory (appends_to "container:abc123" Sample.records)
       (store_all Sample.in_memory [(Sample.env, "system", ∅)] initial).2).2
  = drop 1 Sample.records.*2.
Proof.
  destruct (history_cap Sample.in_memory [(Sample.env, "system", ∅)]
              "container:abc123" Sample.records) as [_ H].
  destruct H as [_ H']; [by vm_compute|apply sample_records_up|].
  destruct H' as [_ H']; [by vm_compute|]. exact H'.
Defined.

(** [C4] as stated fails.  After one sampling iteration over the same
    running container, the history read returns the stored record from Redis
    and nothing from the in-process list, which does hold the record.  And
    after 100 appends to a container's type followed by one to another type,
    Redis still holds the 100 while the in-process list, whose cap is shared
    by all types, has dropped the oldest of them. *)
Lemma backends_differ :
  let st_redis := (iteration Sample.with_redis Sample.env initial).2 in
  let st_memory := (iteration Sample.in_memory Sample.env initial).2 in
  let calls :=
    appends_to "container:abc123" (take 100 Sample.records) ++ [(Sample.env, "system", ∅)] in
  (length (get_container_stats_history Sample.with_redis Sample.env "abc123" st_redis).1
     = 1%nat /\
   length (stream Sample.in_memory "container:abc123" st_memory) = 1%nat /\
   (get_container_stats_history Sample.in_memory Sample.env "abc123" st_memory).1 = []) /\
  (length (stream Sample.with_redis "container:abc123"
             (store_all Sample.with_redis calls initial).2) = 100%nat /\
   length (stream Sample.in_memory "container:abc123"
             (store_all Sample.in_memory calls initial).2) = 99%nat).
Proof. cbv zeta. repeat split; vm_compute; reflexivity. Qed.

Lemma history_read_redis g env container_id st :
  REDIS_AVAILABLE g = true ->
  redis_up env = true ->
  (get_container_stats_history g env container_id st).1
    = reverse (stream g ("container:" +:+ container_id) st).
Proof.
  intros Hg Hup. unfold get_container_stats_history, stream. rewrite Hg.
  unfold Redis.lrange, Redis.command. rewrite Hup.
  unfold lift, seq, get, pure. cbn [fst].
  by rewrite slice_all, reverse_involutive.
Qed.

(** [C4], amended: for appends to one container's metrics type from the
    empty store, both backends hold the same records, the last 100 appended
    in arrival order, and the history read over Redis returns them newest
    first. *)
Theorem backends_agree_on_one_stream g_redis g_memory env container_id records :
  REDIS_AVAILABLE g_redis = true ->
  REDIS_AVAILABLE g_memory = false ->
  redis_up env = true ->
  Forall (fun r => redis_up r.1 = true) records ->
  let metrics_type := "container:" +:+ container_id in
  let st_redis := (store_all g_redis (appends_to metrics_type records) initial).2 in
  let st_memory := (store_all g_memory (appends_to metrics_type records) initial).2 in
  stream g_redis metrics_type st_redis = drop (length records - 100) records.*2 /\
  stream g_memory metrics_type st_memory = stream g_redis metrics_type st_redis /\
  (get_container_stats_history g_redis env container_id st_redis).1
    = reverse (stream g_redis metrics_type st_redis).
Proof.
  intros Hr Hm Hup Hups. cbv zeta.
  assert (Hfresh : forall g, stream g ("container:" +:+ container_id) initial = []).
  { intros g. unfold stream. by destruct (REDIS_AVAILABLE g). }
  assert (Hb : forall g, Forall (fun r => backend_up g r.1) records).
  { intros g. eapply Forall_impl; [exact Hups|]. by intros r ? _. }
  rewrite !stream_after_appends by (apply history_bounded_initial || apply Hfresh || apply Hb).
  split; [done|]. split; [done|].
  rewrite history_read_redis by done.
  by rewrite stream_after_appends by (apply history_bounded_initial || apply Hfresh || apply Hb).
Qed.

Lemma backends_agree_on_one_stream_witness :
  stream Sample.in_memory "container:abc123"
    (store_all Sample.in_memory (appends_to "container:abc123" Sample.records) initial).2
  = stream Sample.with_redis "container:abc123"
    (store_all Sample.with_redis (appends_to "container:abc123" Sample.records) initial).2.
Proof.
  destruct (backends_agree_on_one_stream Sample.with_redis Sample.in_memory Sample.env
              "abc123" Sample.records eq_refl eq_refl eq_refl) as (_ & H & _); [|exact H].
  unfold Sample.records. apply Forall_fmap, Forall_forall. by intros i _.
Defined.

(** ** Terminal sessions *)

(** [C5] For a container whose reported status is not ["running"],
    [create_session] returns [None] and leaves the whole state, the session
    table included, as it was. *)
Theorem create_session_not_running g env container_id container st :
  containers_get env container_id = ret container ->
  Docker.status container <> "running" ->
  create_session g env container_id st = (None, st).
Proof.
  intros Hc Hs. unfold create_session.
  destruct (DOCKER_AVAILABLE g); [|done]. cbn [negb]. rewrite Hc. unfold ret.
  by destruct (String.eqb_spec (Docker.status container) "running").
Qed.

Lemma create_session_not_running_witness :
  create_session Sample.with_redis Sample.env "def456" initial = (None, initial).
Proof.
  apply (create_session_not_running Sample.with_redis Sample.env "def456" Sample.stopped);
    [reflexivity|discriminate].
Defined.

(** What a successful [create_session] leaves behind. *)
Lemma create_session_some g env container_id st session_id st' :
  create_session g env container_id st = (Some session_id, st') ->
  exists exec_id,
    exec_create env container_id = ret exec_id /\
    session_id = container_id +:+ "_" +:+ pretty (time_time env) /\
    events st' = events st /\
    active_sessions st' =
      <[session_id := {| container_id := container_id; exec_id := exec_id; socket := None |}]>
        (active_sessions st).
Proof.
  unfold create_session. destruct (DOCKER_AVAILABLE g); [|done]. cbn [negb].
  destruct (containers_get env container_id) as [e|container]; [done|].
  destruct (String.eqb (Docker.status container) "running"); [|done]. cbn [negb].
  destruct (exec_create env container_id) as [e|exec_id]; [done|].
  intros [= <- <-]. by exists exec_id.
Qed.

(** [C6] as stated fails: the session is fresh and the command is its first,
    but the container has exited and the runtime refuses to start the exec. *)
Lemma send_command_fresh_session_fails :
  let created := create_session Sample.with_redis Sample.env "abc123" initial in
  created.1 = Some "abc123_1700000000" /\
  (send_command Sample.env_exited "abc123_1700000000" "ls" created.2).1 = false.
Proof. cbv zeta. split; vm_compute; reflexivity. Qed.

(** [C6], amended: [send_command] returns [False] for a session id that is
    not in [active_sessions]; for an id just returned by [create_session] it
    returns [True] when the container lookup, the exec start and the socket
    write all succeed, and [False] when one of them raises. *)
Theorem send_command_result g env0 container_id st0 env session_id command st :
  (active_sessions st !! session_id = None ->
   send_command env session_id command st = (false, st)) /\
  (create_session g env0 container_id st0 = (Some session_id, st) ->
   exists exec_id,
     exec_create env0 container_id = ret exec_id /\
     match (container <- containers_get env container_id ;;
            socket <- exec_start env exec_id ;;
            sock_send env socket command)%try with
     | inr _ => send_command env session_id command st = (true, st)
     | inl _ => (send_command env session_id command st).1 = false
     end).
Proof.
  split.
  - intros Hnone. unfold send_command, seq, get. by rewrite Hnone.
  - intros Hcreate.
    apply create_session_some in Hcreate as (exec_id & Hexec & _ & _ & Ha).
    exists exec_id. split; [done|].
    unfold send_command, seq, get. rewrite Ha, lookup_insert_eq. cbn.
    by destruct (bind _ _).
Qed.

Lemma send_command_result_witness :
  send_command Sample.env "nobody_0" "ls" initial = (false, initial) /\
  (send_command Sample.env "abc123_1700000000" "ls"
     (create_session Sample.with_redis Sample.env "abc123" initial).2).1 = true.
Proof.
  destruct (send_command_result Sample.with_redis Sample.env "abc123" initial
              Sample.env "nobody_0" "ls" initial) as [H _].
  split; [by apply H|].
  destruct (send_command_result Sample.with_redis Sample.env "abc123" initial
              Sample.env "abc123_1700000000" "ls"
              (create_session Sample.with_redis Sample.env "abc123" initial).2) as [_ H'].
  destruct H' as (exec_id & Hexec & Hsend); [by vm_compute|].
  vm_compute in Hexec. injection Hexec as <-.
  change (send_command Sample.env "abc123_1700000000" "ls"
            (create_session Sample.with_redis Sample.env "abc123" initial).2
          = (true, (create_session Sample.with_redis Sample.env "abc123" initial).2)) in Hsend.
  by rewrite Hsend.
Defined.

(** [C7] fails on the code: two sessions created for the same container
    within one second get the same identifier, and the second creation
    replaces the entry (and the exec handle) of the first. *)
Theorem same_second_sessions_collide :
  let first := create_session Sample.with_redis (Sample.env_at 1700000000 "exec-1")
                 "abc123" initial in
  let second := create_session Sample.with_redis (Sample.env_at 1700000000 "exec-2")
                  "abc123" first.2 in
  first.1 = Some "abc123_1700000000" /\
  second.1 = Some "abc123_1700000000" /\
  exec_id <$> active_sessions first.2 !! "abc123_1700000000" = Some "exec-1" /\
  exec_id <$> active_sessions second.2 !! "abc123_1700000000" = Some "exec-2" /\
  size (active_sessions second.2) = 1%nat.
Proof. cbv zeta. repeat split; vm_compute; reflexivity. Qed.

(** ** Framing *)

Section Frame.
Context (R : relation State) `{!PreOrder R}.

Lemma within_pure {A} (a : A) : within R (pure a).
Proof. intros st. reflexivity. Qed.

Lemma within_seq {A B} (m : M A) (k : A -> M B) :
  within R m -> (forall a, within R (k a)) -> within R (seq m k).
Proof.
  intros Hm Hk st. unfold seq. specialize (Hm st).
  destruct (m st) as [a st1]. etrans; [exact Hm|apply Hk].
Qed.

Lemma within_lift {A} (m : M A) : within R m -> within R (lift m).
Proof. intros Hm st. unfold lift. specialize (Hm st). by destruct (m st). Qed.

Lemma within_try_seq {A B} (m : M (result A)) (k : A -> M (result B)) :
  within R m -> (forall a, within R (k a)) -> within R (try_seq m k).
Proof.
  intros Hm Hk st. unfold try_seq. specialize (Hm st).
  destruct (m st) as [[e|a] st1]; [done|]. etrans; [exact Hm|apply Hk].
Qed.

Lemma within_try_for_each {A} (xs : list A) (body : A -> M (result unit)) :
  (forall x, within R (body x)) -> within R (try_for_each xs body).
Proof.
  intros Hb. induction xs as [|x xs IH]; [apply within_pure|].
  cbn [try_for_each]. by apply within_try_seq.
Qed.

End Frame.

Lemma call_keeps_sessions c session_id st :
  is_Some (active_sessions st !! session_id) ->
  is_Some (active_sessions (call c st).2 !! session_id).
Proof.
  intros Hs. destruct c as [g env container_id|env sid command]; unfold call, seq.
  - destruct (create_session g env container_id st) as [[sid|] st'] eqn:Hc.
    + apply create_session_some in Hc as (x & _ & _ & _ & Ha). unfold pure. cbn [snd].
      rewrite Ha, lookup_insert. by case_decide.
    + revert Hc. unfold create_session.
      destruct (DOCKER_AVAILABLE g); [|by intros [= <-]]. cbn [negb].
      destruct (containers_get env container_id) as [e|container]; [by intros [= <-]|].
      destruct (negb _); [by intros [= <-]|].
      destruct (exec_create env container_id) as [e|x]; by intros [= <-].
  - unfold send_command, seq, get.
    destruct (active_sessions st !! sid) as [session|]; [|done].
    by destruct (bind _ _).
Qed.

(** [C8] as stated fails, there being nothing that closes: with one session
    registered, no call of the manager, whatever its arguments and whatever
    the runtime answers, takes the session out of [active_sessions]. *)
Lemma no_call_closes_a_session :
  let st := (create_session Sample.with_redis Sample.env "abc123" initial).2 in
  is_Some (active_sessions st !! "abc123_1700000000") /\
  ~ exists c, active_sessions (call c st).2 !! "abc123_1700000000" = None.
Proof.
  cbv zeta.
  assert (H : is_Some (active_sessions
                (create_session Sample.with_redis Sample.env "abc123" initial).2
                !! "abc123_1700000000")) by (vm_compute; eauto).
  split; [done|]. intros [c Hc].
  apply (call_keeps_sessions c) in H. rewrite Hc in H. by destruct H.
Qed.

(** [C8], amended: the manager has no close operation; a session id that is
    registered stays registered through every sequence of [create_session]
    and [send_command] calls. *)
Theorem sessions_stay_registered cs session_id st :
  is_Some (active_sessions st !! session_id) ->
  is_Some (active_sessions (for_each cs call st).2 !! session_id).
Proof.
  revert st. induction cs as [|c cs IH]; intros st Hs; [done|].
  cbn [for_each]. unfold seq at 1.
  destruct (call c st) as [[] st1] eqn:Hc. apply IH.
  apply (call_keeps_sessions c) in Hs. by rewrite Hc in Hs.
Qed.

Lemma sessions_stay_registered_witness :
  is_Some (active_sessions
    (for_each [SendCommand Sample.env_exited "abc123_1700000000" "exit";
               CreateSession Sample.with_redis Sample.env_exited "abc123";
               SendCommand Sample.env "abc123_1700000000" "exit"] call
       (create_session Sample.with_redis Sample.env "abc123" initial).2).2
    !! "abc123_1700000000").
Proof.
  apply sessions_stay_registered. vm_compute. eauto.
Defined.


(** ** The sampling loop *)

#[local] Instance quiet_preorder : PreOrder quiet.
Proof. split; [by intros st|]. intros st1 st2 st3 H1 H2. unfold quiet in *. congruence. Qed.

Lemma store_metrics_events g env metrics_type data st :
  events (store_metrics g env metrics_type data st).2 = events st.
Proof.
  unfold store_metrics. destruct (REDIS_AVAILABLE g).
  - unfold Redis.lpush, Redis.ltrim, Redis.command. destruct (redis_up env); [|done].
    unfold try_seq, lift, seq, get, set_redis. cbn [redis fst snd].
    by destruct (Redis.slice _ _ _).
  - unfold lift, seq, get, set_metrics_history. by destruct (_ <? _).
Qed.

(** What [store_metrics] returns: it raises exactly when Redis is the
    backend and the server is down. *)
Lemma store_metrics_result g env metrics_type data st :
  (store_metrics g env metrics_type data st).1
    = if REDIS_AVAILABLE g && negb (redis_up env) then raise RedisConnectionError else ret tt.
Proof.
  destruct (REDIS_AVAILABLE g) eqn:Hg; cbn [andb].
  - destruct (redis_up env) eqn:Hup; cbn [negb].
    + by rewrite store_metrics_redis.
    + by rewrite store_metrics_redis_down.
  - unfold store_metrics. rewrite Hg. unfold lift, seq, get, set_metrics_history.
    by destruct (_ <? _).
Qed.

Lemma collect_system_metrics_quiet env : within quiet (collect_system_metrics env).
Proof.
  intros st. unfold collect_system_metrics.
  destruct (psutil_reads env) as [e|[[[[? ?] ?] ?] ?]]; [|reflexivity].
  unfold seq, logger_error, emit, pure, quiet, loop_events. cbn [snd events].
  by rewrite filter_app, app_nil_r.
Qed.

Lemma collect_container_metrics_quiet g env container_id :
  within quiet (collect_container_metrics g env container_id).
Proof.
  intros st. unfold collect_container_metrics.
  destruct (DOCKER_AVAILABLE g); [|reflexivity]. cbn [negb].
  destruct (bind _ _) as [e|metrics]; [|reflexivity].
  unfold seq, logger_error, emit, pure, quiet, loop_events. cbn [snd events].
  by rewrite filter_app, app_nil_r.
Qed.

Lemma store_metrics_quiet g env metrics_type data :
  within quiet (store_metrics g env metrics_type data).
Proof. intros st. unfold quiet. by rewrite store_metrics_events. Qed.

Lemma sample_system_quiet g env : within quiet (sample_system g env).
Proof.
  apply within_try_seq; [apply _|apply within_lift, collect_system_metrics_quiet; apply _|].
  intros metrics. destruct (truthy metrics); [apply store_metrics_quiet|apply within_pure, _].
Qed.

Lemma sample_container_quiet g env container : within quiet (sample_container g env container).
Proof.
  apply within_try_seq; [apply _|apply within_lift, collect_container_metrics_quiet; apply _|].
  intros metrics. destruct (truthy metrics); [apply store_metrics_quiet|apply within_pure, _].
Qed.

Lemma sample_containers_quiet g env :
  within quiet
    (if DOCKER_AVAILABLE g then
       containers <- pure (containers_list env) ;;
       try_for_each containers (sample_container g env)
     else pure (ret tt))%T.
Proof.
  destruct (DOCKER_AVAILABLE g); [|apply within_pure, _].
  apply within_try_seq; [apply _|apply within_pure, _|]. intros containers.
  apply within_try_for_each; [apply _|]. intros container. apply sample_container_quiet.
Qed.

Lemma ends_with_sleep_try_seq {A B} (m : M (result A)) (k : A -> M (result B)) :
  within quiet m -> (forall a, ends_with_sleep (k a)) -> ends_with_sleep (try_seq m k).
Proof.
  intros Hm Hk st. unfold try_seq. specialize (Hm st).
  destruct (m st) as [[e|a] st1]; [done|]. cbn [snd] in Hm.
  specialize (Hk a st1). destruct (k a st1) as [[e|b] st2].
  - by etrans.
  - destruct Hk as (st3 & Hq & Hev). exists st3. split; [by etrans|done].
Qed.

Lemma sampling_cycle_ends_with_sleep g env : ends_with_sleep (sampling_cycle g env).
Proof.
  unfold sampling_cycle.
  apply ends_with_sleep_try_seq; [apply sample_system_quiet|]. intros _.
  apply ends_with_sleep_try_seq; [apply sample_containers_quiet|]. intros _.
  intros st. unfold lift, time_sleep, emit. by exists st.
Qed.

Lemma stateless_pure {A} (a : A) : stateless (pure a).
Proof. by intros st st0. Qed.

Lemma stateless_lift {A} (m : M A) : stateless m -> stateless (lift m).
Proof.
  intros Hm st st0. unfold lift. specialize (Hm st st0).
  destruct (m st), (m st0). cbn [fst] in *. by subst.
Qed.

Lemma stateless_try_seq {A B} (m : M (result A)) (k : A -> M (result B)) :
  stateless m -> (forall a, stateless (k a)) -> stateless (try_seq m k).
Proof.
  intros Hm Hk st st0. unfold try_seq. specialize (Hm st st0).
  destruct (m st) as [[e|a] st1], (m st0) as [[e'|a'] st1']; cbn [fst] in *;
    simplify_eq; [done|apply Hk].
Qed.

Lemma stateless_try_for_each {A} (xs : list A) (body : A -> M (result unit)) :
  (forall x, stateless (body x)) -> stateless (try_for_each xs body).
Proof.
  intros Hb. induction xs as [|x xs IH]; [apply stateless_pure|].
  cbn [try_for_each]. by apply stateless_try_seq.
Qed.

Lemma collect_system_metrics_stateless env : stateless (collect_system_metrics env).
Proof.
  intros st st0. unfold collect_system_metrics.
  by destruct (psutil_reads env) as [e|[[[[? ?] ?] ?] ?]].
Qed.

Lemma collect_container_metrics_stateless g env container_id :
  stateless (collect_container_metrics g env container_id).
Proof.
  intros st st0. unfold collect_container_metrics.
  destruct (DOCKER_AVAILABLE g); [|done]. cbn [negb]. by destruct (bind _ _).
Qed.

Lemma store_metrics_stateless g env metrics_type data :
  stateless (store_metrics g env metrics_type data).
Proof. intros st st0. by rewrite !store_metrics_result. Qed.

Lemma sample_system_stateless g env : stateless (sample_system g env).
Proof.
  apply stateless_try_seq; [apply stateless_lift, collect_system_metrics_stateless|].
  intros metrics. destruct (truthy _); [apply store_metrics_stateless|apply stateless_pure].
Qed.

Lemma sample_container_stateless g env container :
  stateless (sample_container g env container).
Proof.
  apply stateless_try_seq; [apply stateless_lift, collect_container_metrics_stateless|].
  intros metrics. destruct (truthy _); [apply store_metrics_stateless|apply stateless_pure].
Qed.

Lemma sampling_cycle_stateless g env : stateless (sampling_cycle g env).
Proof.
  unfold sampling_cycle.
  apply stateless_try_seq; [apply sample_system_stateless|]. intros _.
  apply stateless_try_seq; [|intros _; by apply stateless_lift].
  destruct (DOCKER_AVAILABLE g); [|apply stateless_pure].
  apply stateless_try_seq; [apply stateless_pure|]. intros containers.
  apply stateless_try_for_each. intros container. apply sample_container_stateless.
Qed.

Lemma iteration_loop_events g env st :
  loop_events (events (iteration g env st).2)
    = loop_events (events st)
      ++ match outcome g env with
         | inl e => [LogError "Error in metrics collection" e; Sleep 10]
         | inr _ => [Sleep 5]
         end.
Proof.
  unfold iteration, seq, outcome.
  rewrite <- (sampling_cycle_stateless g env st initial).
  pose proof (sampling_cycle_ends_with_sleep g env st) as H.
  destruct (sampling_cycle g env st) as [[e|[]] st1]; cbn [fst].
  - unfold logger_error, time_sleep, emit. cbn [snd events].
    unfold quiet, loop_events in *. by rewrite !filter_app, H, <- app_assoc.
  - destruct H as (st0 & Hq & Hev). unfold pure. cbn [snd]. rewrite Hev.
    unfold quiet, loop_events in *. by rewrite !filter_app, Hq.
Qed.

(** When the runtime's [containers.list()] raises, an exception escapes the
    [try] block: that one, unless a Redis outage raised first. *)
Lemma runtime_failure_escapes g env e :
  DOCKER_AVAILABLE g = true ->
  containers_list env = raise e ->
  exists e', outcome g env = raise e' /\ (backend_up g env -> e' = e).
Proof.
  intros Hg He. unfold outcome, sampling_cycle, sample_system, try_seq, lift.
  destruct (collect_system_metrics env initial) as [system_metrics st1].
  rewrite Hg, He. unfold ret, raise, pure. cbv beta iota.
  destruct (truthy system_metrics); [|by exists e].
  pose proof (store_metrics_result g env "system" system_metrics st1) as Hr.
  destruct (store_metrics g env "system" system_metrics st1) as [[e2|[]] st2];
    cbn [fst] in Hr; [|by exists e].
  exists e2. split; [done|]. unfold backend_up. intros Hup.
  destruct (REDIS_AVAILABLE g); [|done]. by rewrite Hup in Hr.
Qed.

(** [C9] Over any sequence of iterations the loop never stops and does, per
    iteration and in order, exactly this of its own: when an exception
    escaped the [try] block it logs it and sleeps 10 seconds, once;
    otherwise it sleeps 5 seconds; then the next iteration samples again.
    A runtime whose [containers.list()] raises makes an exception escape. *)
Theorem sampling_loop_backoff g envs st :
  loop_events (events (collect_metrics_background g envs st).2)
    = loop_events (events st)
      ++ concat (map (fun env =>
                        match outcome g env with
                        | inl e => [LogError "Error in metrics collection" e; Sleep 10]
                        | inr _ => [Sleep 5]
                        end) envs) /\
  (forall env e,
     DOCKER_AVAILABLE g = true -> containers_list env = raise e ->
     exists e', outcome g env = raise e' /\ (backend_up g env -> e' = e)).
Proof.
  split; [|intros env e; apply runtime_failure_escapes].
  revert st. induction envs as [|env envs IH]; intros st.
  - cbn. by rewrite app_nil_r.
  - cbn [collect_metrics_background]. unfold seq.
    pose proof (iteration_loop_events g env st) as He.
    destruct (iteration g env st) as [[] st1]. cbn [snd] in He.
    by rewrite IH, He, <- app_assoc.
Qed.

(** The runtime is down for the second of three iterations: it is logged,
    slept on for 10 seconds once, and the third iteration samples again. *)
Lemma sampling_loop_backoff_witness :
  let st := (collect_metrics_background Sample.with_redis
               [Sample.env; Sample.env_down; Sample.env] initial).2 in
  loop_events (events st)
    = [Sleep 5; LogError "Error in metrics collection" (DockerException "Connection refused");
       Sleep 10; Sleep 5] /\
  length (stream Sample.with_redis "container:abc123" st) = 2%nat.
Proof.
  cbv zeta. split; [|vm_compute; reflexivity].
  destruct (sampling_loop_backoff Sample.with_redis
              [Sample.env; Sample.env_down; Sample.env] initial) as [-> H].
  destruct (H Sample.env_down (DockerException "Connection refused") eq_refl eq_refl)
    as (e' & He' & Heq).
  cbn [map concat]. rewrite He'. rewrite Heq by done.
  vm_compute. reflexivity.
Defined.

(** ** Failed samples *)

#[local] Instance only_evicts_preorder g metrics_type : PreOrder (only_evicts g metrics_type).
Proof.
  split; [by intros st|].
  intros st1 st2 st3 [H1 H2] [H3 H4]. split; [by etrans|].
  intros Hg. by rewrite H4, H2.
Qed.

Lemma only_evicts_same_history g metrics_type st st' :
  metrics_history st' = metrics_history st -> redis st' = redis st ->
  only_evicts g metrics_type st st'.
Proof. intros Hm Hr. unfold only_evicts, stream. by rewrite Hm, Hr. Qed.

Lemma truthy_empty : truthy ∅ = false.
Proof. unfold truthy. by rewrite map_to_list_empty. Qed.

Lemma collect_system_metrics_only_evicts g metrics_type env :
  within (only_evicts g metrics_type) (collect_system_metrics env).
Proof.
  intros st. apply only_evicts_same_history; unfold collect_system_metrics;
    by destruct (psutil_reads env) as [e|[[[[? ?] ?] ?] ?]].
Qed.

Lemma collect_container_metrics_only_evicts g metrics_type env container_id :
  within (only_evicts g metrics_type) (collect_container_metrics g env container_id).
Proof.
  intros st. apply only_evicts_same_history; unfold collect_container_metrics;
    (destruct (DOCKER_AVAILABLE g); [|done]); cbn [negb]; by destruct (bind _ _).
Qed.

Lemma omap_drop_suffix {A B} (f : A -> option B) (l : list A) n :
  omap f (drop n l) `suffix_of` omap f l.
Proof.
  rewrite <- (take_drop n l) at 2. rewrite omap_app. by apply suffix_app_r.
Qed.

(** Storing under another metrics type appends nothing to this one. *)
Lemma store_metrics_other g env metrics_type other data :
  other <> metrics_type ->
  within (only_evicts g metrics_type) (store_metrics g env other data).
Proof.
  intros Hne st. destruct (REDIS_AVAILABLE g) eqn:Hg.
  - destruct (redis_up env) eqn:Hup; [|by rewrite store_metrics_redis_down].
    rewrite store_metrics_redis by done. unfold only_evicts, stream. rewrite Hg.
    cbn [snd redis]. rewrite lookup_insert_ne; [done|].
    intros Heq. by apply (inj _) in Heq.
  - unfold only_evicts, stream. rewrite Hg. split; [|done].
    unfold store_metrics. rewrite Hg. unfold lift, seq, get, set_metrics_history.
    assert (Hsame : omap (entry_data metrics_type)
                      (metrics_history st ++ [history_entry other data (now_isoformat env)])
                    = omap (entry_data metrics_type) (metrics_history st)).
    { rewrite omap_app. cbn [omap list_omap]. rewrite entry_data_other by done.
      by rewrite app_nil_r. }
    destruct (_ <? _); cbn [snd metrics_history].
    + rewrite <- Hsame. apply omap_drop_suffix.
    + by rewrite Hsame.
Qed.

Lemma within_try_seq_lift (R : relation State) `{!PreOrder R} {A B}
    (m : M A) (k : A -> M (result B)) :
  within R m -> (forall st, within R (k (m st).1)) -> within R (try_seq (lift m) k).
Proof.
  intros Hm Hk st. unfold try_seq, lift. specialize (Hm st). specialize (Hk st).
  destruct (m st) as [a st1]. unfold ret. etrans; [exact Hm|apply Hk].
Qed.

Lemma collect_system_metrics_same_history env st :
  same_history st (collect_system_metrics env st).2.
Proof.
  unfold same_history, collect_system_metrics.
  by destruct (psutil_reads env) as [e|[[[[? ?] ?] ?] ?]].
Qed.

Lemma collect_container_metrics_same_history g env container_id st :
  same_history st (collect_container_metrics g env container_id st).2.
Proof.
  unfold same_history, collect_container_metrics.
  destruct (DOCKER_AVAILABLE g); [|done]. cbn [negb]. by destruct (bind _ _).
Qed.

(** A host sample that came back empty is not stored. *)
Lemma sample_system_failed g env st :
  (collect_system_metrics env st).1 = ∅ -> same_history st (sample_system g env st).2.
Proof.
  intros Hempty. unfold sample_system, try_seq, lift.
  pose proof (collect_system_metrics_same_history env st) as Hs.
  destruct (collect_system_metrics env st) as [metrics st1]. cbn [fst snd] in *.
  subst metrics. unfold ret. by rewrite truthy_empty.
Qed.

(** A container sample that came back empty is not stored. *)
Lemma sample_container_failed g env container st :
  (collect_container_metrics g env (Docker.id container) st).1 = ∅ ->
  same_history st (sample_container g env container st).2.
Proof.
  intros Hempty. unfold sample_container, try_seq, lift.
  pose proof (collect_container_metrics_same_history g env (Docker.id container) st) as Hs.
  destruct (collect_container_metrics g env (Docker.id container) st) as [metrics st1].
  cbn [fst snd] in *. subst metrics. unfold ret. by rewrite truthy_empty.
Qed.

Lemma sampling_cycle_only_evicts g env metrics_type :
  (metrics_type = "system" -> forall st, (collect_system_metrics env st).1 = ∅) ->
  (forall container_id, metrics_type = "container:" +:+ container_id ->
     forall st, (collect_container_metrics g env container_id st).1 = ∅) ->
  within (only_evicts g metrics_type) (sampling_cycle g env).
Proof.
  intros Hsys Hcont. unfold sampling_cycle.
  apply within_try_seq; [apply _| |intros _].
  { apply within_try_seq_lift; [apply _|apply collect_system_metrics_only_evicts|].
    intros st0. destruct (truthy _) eqn:Ht; [|apply within_pure, _].
    apply store_metrics_other. intros <-. by rewrite Hsys, truthy_empty in Ht. }
  apply within_try_seq; [apply _| |intros _].
  { destruct (DOCKER_AVAILABLE g); [|apply within_pure, _].
    apply within_try_seq; [apply _|apply within_pure, _|]. intros containers.
    apply within_try_for_each; [apply _|]. intros container.
    apply within_try_seq_lift; [apply _|apply collect_container_metrics_only_evicts|].
    intros st1. destruct (truthy _) eqn:Ht; [|apply within_pure, _].
    apply store_metrics_other. intros <-. by rewrite Hcont, truthy_empty in Ht. }
  intros st1. by apply only_evicts_same_history.
Qed.

(** [C10] When the collection for a metrics type came back empty, the
    sample is not stored: the sampling step leaves both backends as they
    were, and over the whole pass that type's stream gains no record; what it
    holds after the pass is what it held before, less at most some of the
    oldest records (none, under Redis). *)
Theorem failed_sample_appends_nothing g env st metrics_type :
  (metrics_type = "system" /\ (collect_system_metrics env st).1 = ∅) \/
  (exists container_id,
     metrics_type = "container:" +:+ container_id /\
     (collect_container_metrics g env container_id st).1 = ∅) ->
  let st' := (sampling_cycle g env st).2 in
  (metrics_type = "system" -> same_history st (sample_system g env st).2) /\
  (forall container,
     metrics_type = "container:" +:+ Docker.id container ->
     same_history st (sample_container g env container st).2) /\
  stream g metrics_type st' `suffix_of` stream g metrics_type st /\
  (REDIS_AVAILABLE g = true -> stream g metrics_type st' = stream g metrics_type st).
Proof.
  intros Hfailed. cbv zeta.
  assert (Hsys : metrics_type = "system" ->
            forall st0, (collect_system_metrics env st0).1 = ∅).
  { intros -> st0. rewrite (collect_system_metrics_stateless env st0 st).
    destruct Hfailed as [[_ ?]|(cid & [=] & _)]; done. }
  assert (Hcont : forall container_id, metrics_type = "container:" +:+ container_id ->
            forall st0, (collect_container_metrics g env container_id st0).1 = ∅).
  { intros cid -> st0. destruct Hfailed as [[[=] _]|(cid' & Heq & Hc)].
    apply (inj _) in Heq as <-.
    by rewrite (collect_container_metrics_stateless g env cid st0 st). }
  split; [intros Heq; by apply sample_system_failed, Hsys|].
  split; [intros container Heq; by apply sample_container_failed, (Hcont _ Heq)|].
  apply (sampling_cycle_only_evicts g env metrics_type Hsys Hcont st).
Qed.

(** With the runtime down, both collections come back empty and a pass
    stores nothing. *)
Lemma failed_sample_appends_nothing_witness :
  stream Sample.with_redis "container:abc123"
    (sampling_cycle Sample.with_redis Sample.env_down
       (iteration Sample.with_redis Sample.env initial).2).2
  = stream Sample.with_redis "container:abc123"
      (iteration Sample.with_redis Sample.env initial).2.
Proof.
  destruct (failed_sample_appends_nothing Sample.with_redis Sample.env_down
              (iteration Sample.with_redis Sample.env initial).2 "container:abc123")
    as (_ & _ & _ & H); [|by apply H].
  right. exists "abc123". split; vm_compute; reflexivity.
Defined.

(** * Further properties *)

(** ** The derived record *)

Lemma truthy_lookup (d : dict) k v : d !! k = Some v -> truthy d = true.
Proof.
  intros H. unfold truthy. destruct (map_to_list d) as [|x l] eqn:Hl; [|done].
  apply map_to_list_empty_iff in Hl. subst. by rewrite lookup_empty in H.
Qed.

Lemma truthy_spec (d : dict) : truthy d = false <-> d = ∅.
Proof.
  unfold truthy. destruct (map_to_list d) as [|x l] eqn:Hl.
  - by apply map_to_list_empty_iff in Hl.
  - split; [done|]. intros ->. by rewrite map_to_list_empty in Hl.
Qed.

Lemma network_io_of_sums stats :
  network_io_of stats =
    (foldr Z.add 0 (map (fun item => Docker.rx_bytes item.2) (Docker.networks stats)),
     foldr Z.add 0 (map (fun item => Docker.tx_bytes item.2) (Docker.networks stats))).
Proof.
  unfold network_io_of.
  assert (H : forall l rx tx,
    fold_left (fun acc item =>
                 (acc.1 + Docker.rx_bytes item.2, acc.2 + Docker.tx_bytes item.2)) l (rx, tx)
    = (rx + foldr Z.add 0 (map (fun item : string * Docker.Network => Docker.rx_bytes item.2) l),
       tx + foldr Z.add 0 (map (fun item : string * Docker.Network => Docker.tx_bytes item.2) l))).
  { induction l as [|x l IH]; intros rx tx; cbn [fold_left map foldr fst snd].
    - f_equal; lia.
    - rewrite IH. f_equal; lia. }
  apply (H _ 0 0).
Qed.

Lemma container_metrics_of_items now stats metrics :
  container_metrics_of now stats = ret metrics ->
  exists cpu mem,
    metrics = dict_of
      [("timestamp", PyStr now);
       ("cpu_percent", PyFloat cpu);
       ("memory_percent", PyFloat mem);
       ("memory_usage", PyInt (Docker.usage (Docker.memory_stats stats)));
       ("memory_limit", PyInt (Docker.limit (Docker.memory_stats stats)));
       ("network_rx", PyInt (network_io_of stats).1);
       ("network_tx", PyInt (network_io_of stats).2);
       ("block_read", PyInt (from_option Docker.read_bytes 0 (Docker.blkio_stats stats)));
       ("block_write", PyInt (from_option Docker.write_bytes 0 (Docker.blkio_stats stats)))].
Proof.
  unfold container_metrics_of.
  destruct (cpu_usage_of stats) as [e|cpu]; [done|].
  destruct (memory_usage_of stats) as [e|mem]; [done|]. cbn [bind].
  destruct (network_io_of stats) as [rx tx]. intros [= <-]. by eexists _, _.
Qed.

(** [X1] The record's [network_rx] and [network_tx] are the sums of the
    interfaces' byte counters, whatever the order the interfaces come in, and
    0 when there is no interface. *)
Theorem network_totals now stats metrics :
  container_metrics_of now stats = ret metrics ->
  metrics !! "network_rx"
    = Some (PyInt (foldr Z.add 0
                     (map (fun item => Docker.rx_bytes item.2) (Docker.networks stats)))) /\
  metrics !! "network_tx"
    = Some (PyInt (foldr Z.add 0
                     (map (fun item => Docker.tx_bytes item.2) (Docker.networks stats)))) /\
  (forall stats',
     Docker.networks stats' ≡ₚ Docker.networks stats ->
     network_io_of stats' = network_io_of stats) /\
  (Docker.networks stats = [] ->
   metrics !! "network_rx" = Some (PyInt 0) /\ metrics !! "network_tx" = Some (PyInt 0)).
Proof.
  intros Hm. apply container_metrics_of_items in Hm as (cpu & mem & ->).
  rewrite network_io_of_sums. cbn [fst snd].
  assert (Hperm : forall (f : string * Docker.Network -> Z) l l',
            l' ≡ₚ l -> foldr Z.add 0 (map f l') = foldr Z.add 0 (map f l)).
  { intros f l l' H. induction H; cbn [map foldr]; lia. }
  split; [reflexivity|]. split; [reflexivity|]. split.
  - intros stats' Hp. rewrite !network_io_of_sums. f_equal; by apply Hperm.
  - intros ->. split; reflexivity.
Qed.

Lemma network_totals_witness :
  (collect_container_metrics Sample.with_redis Sample.env "abc123" initial).1
    !! "network_rx" = Some (PyInt 1024).
Proof.
  assert (H : container_metrics_of (now_isoformat Sample.env) Sample.stats
              = ret (collect_container_metrics Sample.with_redis Sample.env "abc123" initial).1)
    by (vm_compute; reflexivity).
  destruct (network_totals _ _ _ H) as [-> _]. reflexivity.
Defined.

Lemma container_metrics_of_keys now stats metrics :
  container_metrics_of now stats = ret metrics ->
  dom metrics = container_metrics_keys.
Proof.
  intros Hm. apply container_metrics_of_items in Hm as (cpu & mem & ->).
  unfold dict_of. rewrite dom_list_to_map_L. reflexivity.
Qed.

(** [X2] [collect_container_metrics] returns either the empty dict or a
    record with exactly its nine keys, block I/O being the runtime's figures
    or 0 when the runtime gives none.  The record is non-empty exactly when
    Docker was available, the container and its stats were obtained and the
    derivation raised nothing; only then is the log left alone too, unless
    Docker was unavailable, which is not logged. *)
Theorem collect_container_metrics_outcome g env container_id st :
  let r := collect_container_metrics g env container_id st in
  let attempt :=
    (container <- containers_get env container_id ;;
     stats <- Docker.stats container ;;
     container_metrics_of (now_isoformat env) stats)%try in
  (r.1 = ∅ \/ dom r.1 = container_metrics_keys) /\
  (truthy r.1 = true <-> DOCKER_AVAILABLE g = true /\ attempt = ret r.1) /\
  (forall e, DOCKER_AVAILABLE g = true -> attempt = raise e ->
     r.1 = ∅ /\ events r.2 = events st ++ [LogError "Error collecting container metrics" e]) /\
  (DOCKER_AVAILABLE g = false -> r = (∅, st)) /\
  (forall container stats,
     truthy r.1 = true ->
     containers_get env container_id = ret container ->
     Docker.stats container = ret stats ->
     r.2 = st /\
     r.1 !! "block_read"
       = Some (PyInt (from_option Docker.read_bytes 0 (Docker.blkio_stats stats))) /\
     r.1 !! "block_write"
       = Some (PyInt (from_option Docker.write_bytes 0 (Docker.blkio_stats stats)))).
Proof.
  cbv zeta. unfold collect_container_metrics.
  destruct (DOCKER_AVAILABLE g); cbn [negb].
  2:{ unfold pure. cbn [fst snd]. rewrite truthy_empty.
      split; [by left|]. split; [split; [done|by intros [? _]]|].
      split; [by intros|]. split; [done|]. by intros. }
  destruct (containers_get env container_id) as [e|container] eqn:Hc; cbn [bind].
  { unfold seq, logger_error, emit, pure. cbn [fst snd events]. rewrite truthy_empty.
    split; [by left|]. split; [split; [done|by intros [_ [=]]]|].
    split; [by intros e' _ [= ->]|]. split; [done|]. by intros. }
  destruct (Docker.stats container) as [e|stats] eqn:Hs; cbn [bind].
  { unfold seq, logger_error, emit, pure. cbn [fst snd events]. rewrite truthy_empty.
    split; [by left|]. split; [split; [done|by intros [_ [=]]]|].
    split; [by intros e' _ [= ->]|]. split; [done|]. by intros. }
  destruct (container_metrics_of (now_isoformat env) stats) as [e|metrics] eqn:Hm.
  { unfold seq, logger_error, emit, pure. cbn [fst snd events]. rewrite truthy_empty.
    split; [by left|]. split; [split; [done|by intros [_ [=]]]|].
    split; [by intros e' _ [= ->]|]. split; [done|]. by intros. }
  unfold pure. cbn [fst snd].
  pose proof (container_metrics_of_keys _ _ _ Hm) as Hk.
  pose proof (container_metrics_of_items _ _ _ Hm) as (cpu & mem & Hitems).
  assert (Ht : truthy metrics = true).
  { apply (truthy_lookup _ "timestamp" (PyStr (now_isoformat env))). by rewrite Hitems. }
  split; [by right|]. split; [by rewrite Ht|]. split; [by intros e _ [=]|].
  split; [done|]. intros c s _ [= <-] Hs'. rewrite Hs in Hs'. injection Hs' as <-.
  split; [done|]. rewrite Hitems. split; reflexivity.
Qed.

Lemma collect_container_metrics_outcome_witness :
  (collect_container_metrics Sample.with_redis Sample.env_down "abc123" initial).1 = ∅ /\
  (collect_container_metrics Sample.with_redis Sample.env "abc123" initial).1
    !! "block_read" = Some (PyInt 0).
Proof.
  split.
  - destruct (collect_container_metrics_outcome Sample.with_redis Sample.env_down
                "abc123" initial) as (_ & _ & H & _).
    by destruct (H (DockerException "Connection refused") eq_refl eq_refl).
  - destruct (collect_container_metrics_outcome Sample.with_redis Sample.env
                "abc123" initial) as (_ & _ & _ & _ & H).
    destruct (H Sample.running Sample.stats) as (_ & H' & _);
      [by vm_compute|reflexivity|reflexivity|exact H'].
Defined.

(** [X3] [collect_system_metrics] returns the empty dict exactly when one
    of the psutil reads raised, which it logs once; otherwise it returns a
    record with exactly its six keys, stamped with the current time, and
    logs nothing.  It changes nothing else. *)
Theorem collect_system_metrics_outcome env st :
  let r := collect_system_metrics env st in
  (r.1 = ∅ <-> exists e, psutil_reads env = raise e) /\
  (forall e, psutil_reads env = raise e ->
     events r.2 = events st ++ [LogError "Error collecting system metrics" e]) /\
  (forall reads, psutil_reads env = ret reads ->
     r.2 = st /\ dom r.1 = system_metrics_keys /\ truthy r.1 = true /\
     r.1 !! "timestamp" = Some (PyStr (now_isoformat env)) /\
     r.1 !! "cpu_percent" = Some reads.1.1.1.1) /\
  same_history st r.2 /\ active_sessions r.2 = active_sessions st.
Proof.
  cbv zeta. unfold collect_system_metrics, same_history.
  destruct (psutil_reads env) as [e|[[[[cpu mem] disk] net] load]].
  - unfold seq, logger_error, emit, pure. cbn [fst snd events metrics_history redis active_sessions].
    split; [split; [by eexists|done]|]. split; [by intros e' [= ->]|].
    split; [by intros|]. done.
  - unfold pure. cbn [fst snd].
    split; [split; [done|by intros [e [=]]]|]. split; [done|].
    split; [|done]. intros reads [= <-]. split; [done|].
    split; [unfold dict_of; by rewrite dom_list_to_map_L|].
    split; [|split; reflexivity].
    eapply (truthy_lookup _ "timestamp"). reflexivity.
Qed.

Lemma collect_system_metrics_outcome_witness :
  (collect_system_metrics Sample.env_down initial).1 = ∅ /\
  (collect_system_metrics Sample.env initial).1 !! "timestamp"
    = Some (PyStr "2023-11-14T22:13:20").
Proof.
  split.
  - destruct (collect_system_metrics_outcome Sample.env_down initial) as ([_ H] & _).
    apply H. by eexists.
  - destruct (collect_system_metrics_outcome Sample.env initial) as (_ & _ & H & _).
    by destruct (H _ eq_refl) as (_ & _ & _ & -> & _).
Defined.

(** ** One store *)

Lemma elem_of_omap_drop {A B} (f : A -> option B) (l : list A) n x :
  x ∈ omap f (drop n l) -> x ∈ omap f l.
Proof.
  rewrite !list_elem_of_omap. intros (a & Ha & Hf). exists a. split; [|done].
  by eapply subseteq_drop.
Qed.

Lemma entry_data_inv metrics_type other data timestamp x :
  entry_data metrics_type (history_entry other data timestamp) = Some x ->
  other = metrics_type /\ x = data.
Proof.
  destruct (decide (other = metrics_type)) as [->|Hne].
  - rewrite entry_data_same. by intros [= ->].
  - by rewrite entry_data_other.
Qed.

(** What a store can add to a stream: the stored record, under its own
    type. *)
Lemma stream_store_elem g env metrics_type other data st x :
  x ∈ stream g metrics_type (store_metrics g env other data st).2 ->
  x ∈ stream g metrics_type st \/ (other = metrics_type /\ x = data).
Proof.
  destruct (REDIS_AVAILABLE g) eqn:Hg.
  - destruct (redis_up env) eqn:Hup; [|rewrite store_metrics_redis_down by done; auto].
    rewrite store_metrics_redis by done. unfold stream. rewrite Hg. cbn [snd redis].
    destruct (decide (other = metrics_type)) as [->|Hne].
    + rewrite lookup_insert_eq. cbn [default from_option id].
      rewrite !elem_of_reverse. intros Hx.
      apply (subseteq_take 100) in Hx. apply elem_of_cons in Hx as [->|Hx]; auto.
    + rewrite lookup_insert_ne; [auto|]. intros Heq. by apply (inj _) in Heq.
  - unfold stream. rewrite Hg. unfold store_metrics. rewrite Hg.
    unfold lift, seq, get, set_metrics_history.
    set (h' := metrics_history st ++ _).
    assert (Hin : x ∈ omap (entry_data metrics_type) h' ->
                  x ∈ omap (entry_data metrics_type) (metrics_history st) \/
                  (other = metrics_type /\ x = data)).
    { subst h'. rewrite omap_app, elem_of_app. intros [?|Hx]; [by left|right].
      apply list_elem_of_omap in Hx as (a & Ha & Hf).
      apply list_elem_of_singleton in Ha as ->. by apply entry_data_inv in Hf. }
    destruct (_ <? _); cbn [snd metrics_history]; [|done].
    intros Hx. by apply Hin, (elem_of_omap_drop _ _ 1).
Qed.

(** After a store that the backend answered, the stored record is the
    newest of its stream. *)
Lemma stream_store_last g env metrics_type data st :
  backend_up g env ->
  (store_metrics g env metrics_type data st).1 = ret tt /\
  last (stream g metrics_type (store_metrics g env metrics_type data st).2) = Some data.
Proof.
  intros Hup. destruct (REDIS_AVAILABLE g) eqn:Hg.
  - rewrite store_metrics_redis by auto. split; [done|].
    unfold stream. rewrite Hg. cbn [snd redis]. rewrite lookup_insert_eq.
    cbn [default from_option id take]. by rewrite reverse_cons, last_snoc.
  - split; [by rewrite store_metrics_result, Hg|].
    unfold stream. rewrite Hg. unfold store_metrics. rewrite Hg.
    unfold lift, seq, get, set_metrics_history.
    set (e := history_entry _ _ _).
    destruct (Z.ltb_spec max_history (Z.of_nat (length (metrics_history st ++ [e]))))
      as [Hlt|Hge]; cbn [snd metrics_history].
    + destruct (metrics_history st) as [|m h] eqn:Hh.
      { cbn in Hlt. unfold max_history in Hlt. lia. }
      change (drop 1 ((m :: h) ++ [e])) with (h ++ [e]). rewrite omap_app. cbn [omap list_omap].
      subst e. rewrite entry_data_same. by rewrite last_snoc.
    + rewrite omap_app. cbn [omap list_omap].
      subst e. rewrite entry_data_same. by rewrite last_snoc.
Qed.

Lemma store_metrics_sessions g env metrics_type data st :
  active_sessions (store_metrics g env metrics_type data st).2 = active_sessions st.
Proof.
  unfold store_metrics. destruct (REDIS_AVAILABLE g).
  - unfold Redis.lpush, Redis.ltrim, Redis.command. destruct (redis_up env); [|done].
    unfold try_seq, lift, seq, get, set_redis. cbn [redis fst snd].
    by destruct (Redis.slice _ _ _).
  - unfold lift, seq, get, set_metrics_history. by destruct (_ <? _).
Qed.

(** [X4] A store that the backend answers returns normally and makes the
    record the newest of its stream, adding nothing else to it; it adds
    nothing to any other stream, and touches neither the log nor the
    sessions.  A store sent to a Redis server that is down raises and changes
    nothing. *)
Theorem store_metrics_effect g env metrics_type data st :
  let r := store_metrics g env metrics_type data st in
  (backend_up g env ->
   r.1 = ret tt /\
   last (stream g metrics_type r.2) = Some data /\
   (forall x, x ∈ stream g metrics_type r.2 -> x ∈ stream g metrics_type st \/ x = data) /\
   (forall other x, other <> metrics_type ->
      x ∈ stream g other r.2 -> x ∈ stream g other st)) /\
  (REDIS_AVAILABLE g = true -> redis_up env = false ->
   r = (raise RedisConnectionError, st)) /\
  events r.2 = events st /\
  active_sessions r.2 = active_sessions st.
Proof.
  cbv zeta. split; [|split; [|split]].
  - intros Hup. destruct (stream_store_last g env metrics_type data st Hup) as [Hr Hl].
    split; [done|]. split; [done|]. split.
    + intros x Hx. apply stream_store_elem in Hx as [?|[_ ?]]; auto.
    + intros other x Hne Hx. apply stream_store_elem in Hx as [?|[? _]]; [done|].
      by subst.
  - intros Hg Hup. by apply store_metrics_redis_down.
  - apply store_metrics_events.
  - apply store_metrics_sessions.
Qed.

Lemma store_metrics_effect_witness :
  last (stream Sample.in_memory "system"
          (store_metrics Sample.in_memory Sample.env "system" {["seq" := PyInt 7]}
             (store_all Sample.in_memory (appends_to "system" Sample.records) initial).2).2)
  = Some {["seq" := PyInt 7]}.
Proof.
  destruct (store_metrics_effect Sample.in_memory Sample.env "system" {["seq" := PyInt 7]}
              (store_all Sample.in_memory (appends_to "system" Sample.records) initial).2)
    as [H _].
  destruct H as (_ & H & _); [by intros ?|exact H].
Defined.

(** ** What the loop keeps *)

#[local] Instance keeps_preorder P : PreOrder (keeps P).
Proof.
  split; [by intros st H|]. intros st1 st2 st3 H1 H2 H. by apply H2, H1.
Qed.

#[local] Instance same_history_preorder : PreOrder same_history.
Proof.
  split; [by intros st|]. intros st1 st2 st3 [H1 H2] [H3 H4].
  split; congruence.
Qed.

Lemma emit_same_history ev st : same_history st (emit ev st).2.
Proof. by split. Qed.

Section LoopFrame.
Context (R : relation State) `{!PreOrder R} (g : Globals).
Hypothesis emit_within : forall ev, within R (emit ev).
Hypothesis sample_system_within : forall env, within R (sample_system g env).
Hypothesis sample_container_within :
  forall env container, within R (sample_container g env container).

Lemma sampling_cycle_within env : within R (sampling_cycle g env).
Proof.
  unfold sampling_cycle.
  apply (within_try_seq R); [apply sample_system_within|]. intros _.
  apply (within_try_seq R); [|intros _; apply (within_lift R), emit_within].
  destruct (DOCKER_AVAILABLE g); [|apply (within_pure R)].
  apply (within_try_seq R); [apply (within_pure R)|]. intros containers.
  apply (within_try_for_each R). intros container. apply sample_container_within.
Qed.

Lemma iteration_within env : within R (iteration g env).
Proof.
  unfold iteration. apply (within_seq R); [apply sampling_cycle_within|].
  intros [e|[]]; [|apply (within_pure R)].
  apply (within_seq R); [apply emit_within|]. intros _. apply emit_within.
Qed.

Lemma loop_within envs : within R (collect_metrics_background g envs).
Proof.
  induction envs as [|env envs IH]; [apply (within_pure R)|].
  cbn [collect_metrics_background]. apply (within_seq R); [apply iteration_within|].
  by intros _.
Qed.

End LoopFrame.

(** A property of what the backends hold, kept by every store of the loop,
    is kept by the loop. *)
Lemma loop_keeps (P : State -> Prop) g :
  (forall st st', same_history st st' -> P st -> P st') ->
  (forall env d, within (keeps P) (store_metrics g env "system" d)) ->
  (forall env container d,
     within (keeps P)
       (store_metrics g env ("container:" +:+ Docker.id container)
          (<["container_id" := PyStr (Docker.id container)]> d))) ->
  forall envs, within (keeps P) (collect_metrics_background g envs).
Proof.
  intros Hsame Hsys Hcont. apply (loop_within (keeps P)).
  - intros ev st. unfold keeps. by apply Hsame.
  - intros env. unfold sample_system. apply (within_try_seq (keeps P)).
    + apply (within_lift (keeps P)). intros st. unfold keeps.
      apply Hsame, collect_system_metrics_same_history.
    + intros d. destruct (truthy d); [apply Hsys|apply (within_pure (keeps P))].
  - intros env container. unfold sample_container. apply (within_try_seq (keeps P)).
    + apply (within_lift (keeps P)). intros st. unfold keeps.
      apply Hsame, collect_container_metrics_same_history.
    + intros d. destruct (truthy d); [apply Hcont|apply (within_pure (keeps P))].
Qed.

Lemma stream_same_history g metrics_type st st' :
  same_history st st' -> stream g metrics_type st' = stream g metrics_type st.
Proof. intros [Hm Hr]. unfold stream. by rewrite Hm, Hr. Qed.

Lemma loop_bounded g envs st :
  history_bounded st -> history_bounded (collect_metrics_background g envs st).2.
Proof.
  apply (loop_keeps history_bounded g).
  - intros st1 st2 [Hm Hr] [H1 H2]. split; [by rewrite Hm|]. intros key l. rewrite Hr. apply H2.
  - intros env d st1 H. by apply store_metrics_bounded.
  - intros env container d st1 H. by apply store_metrics_bounded.
Qed.

Lemma loop_tagged g envs st :
  records_tagged g st -> records_tagged g (collect_metrics_background g envs st).2.
Proof.
  apply (loop_keeps (records_tagged g) g).
  - intros st1 st2 Hs H cid d. rewrite (stream_same_history _ _ _ _ Hs). apply H.
  - intros env d st1 H cid x Hx.
    apply stream_store_elem in Hx as [Hx|[[=] _]]. by apply H.
  - intros env container d st1 H cid x Hx.
    apply stream_store_elem in Hx as [Hx|[Heq ->]]; [by apply H|].
    apply (inj _) in Heq as <-. apply lookup_insert_eq.
Qed.

Lemma store_metrics_untagged g env metrics_type data st :
  entries_untagged st -> entries_untagged (store_metrics g env metrics_type data st).2.
Proof.
  unfold entries_untagged. intros H. unfold store_metrics. destruct (REDIS_AVAILABLE g).
  - unfold Redis.lpush, Redis.ltrim, Redis.command. destruct (redis_up env); [|done].
    unfold try_seq, lift, seq, get, set_redis. cbn [redis fst snd].
    by destruct (Redis.slice _ _ _).
  - unfold lift, seq, get, set_metrics_history.
    assert (H' : Forall (fun m : dict => m !! "container_id" = None)
                   (metrics_history st
                      ++ [history_entry metrics_type data (now_isoformat env)])).
    { apply Forall_app. split; [done|]. by apply Forall_singleton. }
    destruct (_ <? _); cbn [snd metrics_history]; [|done]. by apply Forall_drop.
Qed.

Lemma loop_untagged g envs st :
  entries_untagged st -> entries_untagged (collect_metrics_background g envs st).2.
Proof.
  apply (loop_keeps entries_untagged g).
  - intros st1 st2 [Hm _]. unfold entries_untagged. by rewrite Hm.
  - intros env d st1 H. by apply store_metrics_untagged.
  - intros env container d st1 H. by apply store_metrics_untagged.
Qed.

(** [X5] Whatever the loop has run through, every record held for a
    container's metrics type carries that container's id under
    ['container_id']. *)
Theorem history_records_tagged g envs container_id d :
  d ∈ stream g ("container:" +:+ container_id) (collect_metrics_background g envs initial).2 ->
  d !! "container_id" = Some (PyStr container_id).
Proof.
  apply loop_tagged. intros cid x. unfold stream.
  destruct (REDIS_AVAILABLE g); cbn; by rewrite ?lookup_empty; intros ?%elem_of_nil.
Qed.

Lemma history_records_tagged_witness :
  default ∅ (last (stream Sample.with_redis "container:abc123"
                     (collect_metrics_background Sample.with_redis
                        [Sample.env; Sample.env] initial).2))
    !! "container_id" = Some (PyStr "abc123").
Proof.
  assert (Hlen : length (stream Sample.with_redis "container:abc123"
                           (collect_metrics_background Sample.with_redis
                              [Sample.env; Sample.env] initial).2) = 2%nat)
    by (vm_compute; reflexivity).
  apply (history_records_tagged Sample.with_redis [Sample.env; Sample.env] "abc123").
  change ("container:" +:+ "abc123") with "container:abc123".
  destruct (stream Sample.with_redis "container:abc123"
              (collect_metrics_background Sample.with_redis
                 [Sample.env; Sample.env] initial).2) as [|d1 [|d2 [|d3 l]]];
    try discriminate Hlen.
  cbn. right. left.
Defined.

(** [X6] Whatever the loop has run through, the history read returns at
    most 100 records and changes nothing; with Redis as backend it returns,
    when the server answers, the container's stream newest first, and the
    empty list when the server is down. *)
Theorem history_read_bounded g envs env container_id :
  let st := (collect_metrics_background g envs initial).2 in
  let r := get_container_stats_history g env container_id st in
  r.2 = st /\
  (length r.1 <= 100)%nat /\
  (REDIS_AVAILABLE g = true -> redis_up env = true ->
   r.1 = reverse (stream g ("container:" +:+ container_id) st)) /\
  (REDIS_AVAILABLE g = true -> redis_up env = false -> r.1 = []).
Proof.
  cbv zeta.
  pose proof (loop_bounded g envs initial history_bounded_initial) as Hb.
  pose proof (loop_untagged g envs initial (Forall_nil_2 _)) as Hu.
  set (st := (collect_metrics_background g envs initial).2) in *.
  destruct (REDIS_AVAILABLE g) eqn:Hg.
  - destruct (redis_up env) eqn:Hup.
    + pose proof (history_read_redis g env container_id st Hg Hup) as Hr.
      split; [|split; [|done]].
      * unfold get_container_stats_history, Redis.lrange, Redis.command.
        by rewrite Hg, Hup.
      * rewrite Hr, length_reverse. by apply stream_bounded.
    + unfold get_container_stats_history, Redis.lrange, Redis.command.
      rewrite Hg, Hup. cbn. repeat split; (done || lia).
  - unfold get_container_stats_history. rewrite Hg. unfold seq, get, pure. cbn [fst snd].
    split; [done|]. split; [|done].
    etrans; [apply length_filter|]. apply Hb.
Qed.

Lemma history_read_bounded_witness :
  (get_container_stats_history Sample.with_redis Sample.env_down "abc123"
     (collect_metrics_background Sample.with_redis [Sample.env] initial).2).1
  = reverse (stream Sample.with_redis "container:abc123"
               (collect_metrics_background Sample.with_redis [Sample.env] initial).2).
Proof.
  destruct (history_read_bounded Sample.with_redis [Sample.env] Sample.env_down "abc123")
    as (_ & _ & H & _).
  by apply H.
Defined.

(** [X7] With the in-process backend the history read returns the empty
    list whatever the loop has stored: it looks for ['container_id'] on the
    entries, which carry it only inside their ['data']. *)
Theorem in_process_read_is_empty g envs env container_id :
  REDIS_AVAILABLE g = false ->
  let st := (collect_metrics_background g envs initial).2 in
  get_container_stats_history g env container_id st = ([], st).
Proof.
  intros Hg. cbv zeta.
  pose proof (loop_untagged g envs initial (Forall_nil_2 _)) as Hu.
  set (st := (collect_metrics_background g envs initial).2) in *.
  unfold get_container_stats_history. rewrite Hg. unfold seq, get, pure. f_equal.
  unfold entries_untagged in Hu. induction Hu as [|m h Hm _ IH]; [done|].
  rewrite filter_cons_False; [done|]. unfold get_eq_str. by rewrite Hm.
Qed.

Lemma in_process_read_is_empty_witness :
  get_container_stats_history Sample.in_memory Sample.env "abc123"
    (collect_metrics_background Sample.in_memory [Sample.env; Sample.env] initial).2
  = ([], (collect_metrics_background Sample.in_memory [Sample.env; Sample.env] initial).2).
Proof. by apply in_process_read_is_empty. Defined.

(** ** Terminal sessions, further *)

#[local] Instance same_sessions_preorder : PreOrder same_sessions.
Proof.
  split; [by intros st|]. intros st1 st2 st3 H1 H2. unfold same_sessions in *. congruence.
Qed.

(** A creation that returns no id leaves the table and the history alone;
    what it logs is the exception of the runtime call that raised. *)
Lemma create_session_none g env container_id st st' :
  create_session g env container_id st = (None, st') ->
  same_sessions st st' /\ same_history st st' /\
  (st' = st \/
   exists e, events st' = events st ++ [LogError "Error creating terminal session" e] /\
             (containers_get env container_id = raise e \/
              exec_create env container_id = raise e)).
Proof.
  unfold create_session.
  destruct (DOCKER_AVAILABLE g);
    [|intros [= <-]; split; [done|]; split; [done|]; by left]. cbn [negb].
  destruct (containers_get env container_id) as [e|container].
  { intros [= <-]. split; [done|]. split; [done|]. right. exists e. auto. }
  destruct (negb _); [intros [= <-]; split; [done|]; split; [done|]; by left|].
  destruct (exec_create env container_id) as [e|x]; [|by intros [=]].
  intros [= <-]. split; [done|]. split; [done|]. right. exists e. auto.
Qed.

Lemma create_session_same_history g env container_id st :
  same_history st (create_session g env container_id st).2.
Proof.
  destruct (create_session g env container_id st) as [[sid|] st'] eqn:Hc; cbn [snd].
  - revert Hc. unfold create_session. destruct (DOCKER_AVAILABLE g); [|done]. cbn [negb].
    destruct (containers_get env container_id) as [e|container]; [done|].
    destruct (negb _); [done|].
    destruct (exec_create env container_id) as [e|x]; [done|]. by intros [= _ <-].
  - by apply create_session_none in Hc as (_ & ? & _).
Qed.

Lemma create_session_running g env container_id st session_id st' :
  create_session g env container_id st = (Some session_id, st') ->
  DOCKER_AVAILABLE g = true /\
  exists container,
    containers_get env container_id = ret container /\ Docker.status container = "running".
Proof.
  unfold create_session. destruct (DOCKER_AVAILABLE g); [|done]. cbn [negb].
  destruct (containers_get env container_id) as [e|container]; [done|].
  destruct (String.eqb_spec (Docker.status container) "running") as [Hs|Hs]; [|done].
  intros _. split; [done|]. by exists container.
Qed.

Lemma session_id_nonempty container_id (t : Z) : container_id +:+ "_" +:+ pretty t <> "".
Proof. by destruct container_id. Qed.

(** [X8] A creation that returns an id has found the container running and
    files one entry under that id, with the container's id, the exec handle
    and no socket; every other entry, the history and the log stay as they
    were.  A creation that returns nothing leaves the table and the history
    as they were.  The terminal route answers with success and that id in
    the first case and with a failure in the second. *)
Theorem create_session_outcome g env container_id st :
  let r := create_session g env container_id st in
  let response := (api_create_terminal g env container_id st).1 in
  same_history st r.2 /\
  (api_create_terminal g env container_id st).2 = r.2 /\
  match r.1 with
  | Some session_id =>
      response = TerminalCreated session_id /\
      session_id = container_id +:+ "_" +:+ pretty (time_time env) /\
      (exists container,
         containers_get env container_id = ret container /\
         Docker.status container = "running") /\
      (exists exec_id,
         exec_create env container_id = ret exec_id /\
         active_sessions r.2 !! session_id
           = Some {| container_id := container_id; exec_id := exec_id; socket := None |}) /\
      (forall other, other <> session_id ->
         active_sessions r.2 !! other = active_sessions st !! other) /\
      events r.2 = events st
  | None =>
      response = TerminalFailed "Failed to create terminal session" /\
      same_sessions st r.2
  end.
Proof.
  cbv zeta. split; [apply create_session_same_history|].
  unfold api_create_terminal, create_terminal_session, seq.
  destruct (create_session g env container_id st) as [[sid|] st'] eqn:Hc; cbn [fst snd].
  - pose proof (create_session_running _ _ _ _ _ _ Hc) as [_ Hrun].
    apply create_session_some in Hc as (x & Hx & -> & Hev & Ha).
    assert (Ht : truthy_id (Some (container_id +:+ "_" +:+ pretty (time_time env))) = true).
    { unfold truthy_id. apply negb_true_iff, String.eqb_neq, session_id_nonempty. }
    rewrite Ht. unfold pure. cbn [fst snd default from_option id].
    split; [done|]. split; [done|]. split; [done|]. split; [exact Hrun|].
    split; [|split; [|done]].
    + exists x. split; [done|]. by rewrite Ha, lookup_insert_eq.
    + intros other Hne. by rewrite Ha, lookup_insert_ne.
  - cbn [truthy_id]. unfold pure. cbn [fst snd]. split; [done|]. split; [done|].
    by apply create_session_none in Hc as (? & _).
Qed.

Lemma create_session_outcome_witness :
  (api_create_terminal Sample.with_redis Sample.env "abc123" initial).1
    = TerminalCreated "abc123_1700000000" /\
  (api_create_terminal Sample.with_redis Sample.env "def456" initial).1
    = TerminalFailed "Failed to create terminal session".
Proof.
  split.
  - exact (proj1 (proj2 (proj2 (create_session_outcome Sample.with_redis Sample.env
                                  "abc123" initial)))).
  - exact (proj1 (proj2 (proj2 (create_session_outcome Sample.with_redis Sample.env
                                  "def456" initial)))).
Defined.

Lemma string_app_cons c s1 s2 : String c s1 +:+ s2 = String c (s1 +:+ s2).
Proof. reflexivity. Qed.

Lemma string_app_nil s : "" +:+ s = s.
Proof. reflexivity. Qed.

Lemma underscore_free_app s1 s2 :
  underscore_free (s1 +:+ s2) = underscore_free s1 && underscore_free s2.
Proof.
  induction s1 as [|c s1 IH]; [done|].
  rewrite string_app_cons. cbn [underscore_free]. by rewrite IH, andb_assoc.
Qed.

Lemma underscore_free_pretty_N_go x s :
  underscore_free s = true -> underscore_free (pretty_N_go x s) = true.
Proof.
  revert s. induction (N.lt_wf_0 x) as [x _ IH]; intros s Hs.
  destruct (decide (x = 0)%N) as [->|Hx]; [by rewrite pretty_N_go_0|].
  rewrite pretty_N_go_step by lia. apply IH; [apply N.div_lt; lia|].
  cbn [underscore_free]. rewrite Hs, andb_true_r.
  unfold pretty_N_char. by repeat case_match.
Qed.

Lemma underscore_free_pretty (t : Z) : underscore_free (pretty t) = true.
Proof.
  assert (HN : forall n : N, underscore_free (pretty n) = true).
  { intros n. unfold pretty, pretty_N. case_decide; [done|].
    by apply underscore_free_pretty_N_go. }
  destruct t as [|p|p]; [done|apply (HN (Npos p))|].
  change (pretty (Z.neg p)) with ("-" +:+ pretty (Npos p)).
  rewrite underscore_free_app. by rewrite HN.
Qed.

(** An id splits at its last underscore. *)
Lemma session_id_split c1 c2 p1 p2 :
  underscore_free p1 = true -> underscore_free p2 = true ->
  c1 +:+ "_" +:+ p1 = c2 +:+ "_" +:+ p2 -> c1 = c2 /\ p1 = p2.
Proof.
  intros H1 H2. revert c2.
  assert (Hno : forall c p q, underscore_free p = true -> p <> c +:+ "_" +:+ q).
  { intros c p q Hp ->. rewrite !underscore_free_app in Hp.
    apply andb_true_iff in Hp as [_ Hp]. by apply andb_true_iff in Hp as [Hp _]. }
  induction c1 as [|a c1 IH]; intros [|b c2];
    rewrite ?string_app_cons, ?string_app_nil.
  - by intros [= ->].
  - intros [= <- Hp]. by apply Hno in Hp.
  - intros [= -> Hp]. symmetry in Hp. by apply Hno in Hp.
  - intros [= -> Hp]. apply IH in Hp as [-> ->]. done.
Qed.

(** [X9] The id of a session names its container and its second: two
    creations that return the same id were for the same container and
    within the same second.  Creations for different containers, or in
    different seconds, never share an id, underscores in container names
    notwithstanding. *)
Theorem session_id_names_container_and_second
    g1 env1 container1 st1 g2 env2 container2 st2 session_id :
  (create_session g1 env1 container1 st1).1 = Some session_id ->
  (create_session g2 env2 container2 st2).1 = Some session_id ->
  container1 = container2 /\ time_time env1 = time_time env2.
Proof.
  intros H1 H2.
  destruct (create_session g1 env1 container1 st1) as [r1 st1'] eqn:Hc1.
  destruct (create_session g2 env2 container2 st2) as [r2 st2'] eqn:Hc2.
  cbn [fst] in *. subst r1 r2.
  apply create_session_some in Hc1 as (_ & _ & Hid1 & _).
  apply create_session_some in Hc2 as (_ & _ & Hid2 & _).
  rewrite Hid1 in Hid2.
  apply session_id_split in Hid2 as [-> Ht]; try apply underscore_free_pretty.
  split; [done|]. by apply (inj pretty).
Qed.

Lemma session_id_names_container_and_second_witness :
  "abc123" = "abc123" /\ time_time Sample.env = time_time (Sample.env_at 1700000000 "exec-2").
Proof.
  apply (session_id_names_container_and_second
           Sample.with_redis Sample.env "abc123" initial
           Sample.in_memory (Sample.env_at 1700000000 "exec-2") "abc123" initial
           "abc123_1700000000"); vm_compute; reflexivity.
Defined.

(** What [send_command] does to the state: at most one log record. *)
Lemma send_command_state env session_id command st :
  let r := send_command env session_id command st in
  same_sessions st r.2 /\ same_history st r.2 /\
  (r.1 = true -> r.2 = st).
Proof.
  cbv zeta. unfold send_command, seq, get.
  destruct (active_sessions st !! session_id) as [session|]; [|done].
  by destruct (bind _ _).
Qed.

Lemma call_wellformed c : within (keeps sessions_wellformed) (call c).
Proof.
  intros st Hwf. destruct c as [g env container_id|env sid command]; unfold call, seq.
  - destruct (create_session g env container_id st) as [[sid|] st'] eqn:Hc;
      unfold pure; cbn [snd].
    + apply create_session_some in Hc as (x & _ & -> & _ & Ha).
      intros sid session. rewrite Ha. intros Hl.
      apply lookup_insert_Some in Hl as [[<- <-]|[_ Hl]]; [|by apply Hwf].
      split; [done|]. by exists (time_time env).
    + apply create_session_none in Hc as (Hs & _).
      intros sid session. rewrite Hs. apply Hwf.
  - pose proof (send_command_state env sid command st) as (Hs & _).
    destruct (send_command env sid command st) as [b st']. unfold pure. cbn [snd] in *.
    intros sid' session. rewrite Hs. apply Hwf.
Qed.

Lemma for_each_within (R : relation State) `{!PreOrder R} {A} (xs : list A)
    (body : A -> M unit) :
  (forall x, within R (body x)) -> within R (for_each xs body).
Proof.
  intros Hb. induction xs as [|x xs IH]; [apply (within_pure R)|].
  cbn [for_each]. apply (within_seq R); [apply Hb|]. by intros _.
Qed.

(** [X10] Through every sequence of [create_session] and [send_command]
    calls, every session in the table is filed under its container's id
    followed by an underscore and a second, and holds no socket:
    [send_command] does not keep the socket it opens, and changes neither
    the table nor the history. *)
Theorem sessions_hold_no_socket cs env session_id command :
  let st := (for_each cs call initial).2 in
  sessions_wellformed st /\
  same_sessions st (send_command env session_id command st).2 /\
  same_history st (send_command env session_id command st).2 /\
  ((send_command env session_id command st).1 = true ->
   exists session,
     active_sessions st !! session_id = Some session /\
     socket session = None /\
     (send_command env session_id command st).2 = st).
Proof.
  cbv zeta.
  assert (Hwf : sessions_wellformed (for_each cs call initial).2).
  { apply (for_each_within (keeps sessions_wellformed) cs call call_wellformed initial).
    intros sid session. cbn. by rewrite lookup_empty. }
  set (st := (for_each cs call initial).2) in *.
  destruct (send_command_state env session_id command st) as (Hs & Hh & Hst).
  split; [done|]. split; [done|]. split; [done|]. intros Ht.
  destruct (active_sessions st !! session_id) as [session|] eqn:Hl.
  - exists session. split; [done|]. split; [by apply (Hwf session_id)|by apply Hst].
  - revert Ht. unfold send_command, seq, get. by rewrite Hl.
Qed.

Lemma sessions_hold_no_socket_witness :
  socket <$> active_sessions
               (for_each [CreateSession Sample.with_redis Sample.env "abc123";
                          SendCommand Sample.env "abc123_1700000000" "ls"] call initial).2
             !! "abc123_1700000000"
  = Some None.
Proof.
  destruct (sessions_hold_no_socket
              [CreateSession Sample.with_redis Sample.env "abc123";
               SendCommand Sample.env "abc123_1700000000" "ls"]
              Sample.env "abc123_1700000000" "ls") as [Hwf _].
  destruct (active_sessions _ !! "abc123_1700000000") as [session|] eqn:Hl;
    [|by vm_compute in Hl].
  cbn. f_equal. by apply (Hwf "abc123_1700000000").
Defined.

(** ** The loop and the rest of the state *)

Lemma collect_system_metrics_sessions env : within same_sessions (collect_system_metrics env).
Proof.
  intros st. unfold same_sessions, collect_system_metrics.
  by destruct (psutil_reads env) as [e|[[[[? ?] ?] ?] ?]].
Qed.

Lemma collect_container_metrics_sessions g env container_id :
  within same_sessions (collect_container_metrics g env container_id).
Proof.
  intros st. unfold same_sessions, collect_container_metrics.
  destruct (DOCKER_AVAILABLE g); [|done]. cbn [negb]. by destruct (bind _ _).
Qed.

Lemma loop_same_sessions g envs : within same_sessions (collect_metrics_background g envs).
Proof.
  apply (loop_within same_sessions).
  - by intros ev st.
  - intros env. unfold sample_system. apply (within_try_seq same_sessions).
    + apply (within_lift same_sessions), collect_system_metrics_sessions.
    + intros d. destruct (truthy d); [|apply (within_pure same_sessions)].
      intros st. apply store_metrics_sessions.
  - intros env container. unfold sample_container. apply (within_try_seq same_sessions).
    + apply (within_lift same_sessions), collect_container_metrics_sessions.
    + intros d. destruct (truthy d); [|apply (within_pure same_sessions)].
      intros st. apply store_metrics_sessions.
Qed.

Lemma call_same_history c : within same_history (call c).
Proof.
  intros st. destruct c as [g env container_id|env sid command]; unfold call, seq.
  - pose proof (create_session_same_history g env container_id st) as H.
    by destruct (create_session g env container_id st).
  - pose proof (send_command_state env sid command st) as (_ & H & _).
    by destruct (send_command env sid command st).
Qed.

Lemma call_quiet c : within quiet (call c).
Proof.
  intros st. destruct c as [g env container_id|env sid command]; unfold call, seq.
  - destruct (create_session g env container_id st) as [[sid|] st'] eqn:Hc;
      unfold pure; cbn [snd].
    + apply create_session_some in Hc as (_ & _ & _ & Hev & _). unfold quiet. by rewrite Hev.
    + apply create_session_none in Hc as (_ & _ & [->|(e & Hev & _)]); [done|].
      unfold quiet, loop_events. rewrite Hev, filter_app. cbn. by rewrite app_nil_r.
  - unfold send_command, seq, get.
    destruct (active_sessions st !! sid) as [session|]; [|done].
    destruct (bind _ _); [|done].
    unfold logger_error, emit, pure, quiet, loop_events. cbn [snd events].
    rewrite filter_app. cbn. by rewrite app_nil_r.
Qed.

(** [X11] The sampling loop and the terminal manager do not touch each
    other's state: over any number of iterations the loop leaves the
    session table as it was, and over any sequence of calls the terminal
    manager leaves both history backends as they were and adds neither a
    sleep nor a record of the loop's own to the log. *)
Theorem loop_and_terminal_apart g envs cs st :
  same_sessions st (collect_metrics_background g envs st).2 /\
  same_history st (for_each cs call st).2 /\
  quiet st (for_each cs call st).2.
Proof.
  split; [apply loop_same_sessions|]. split.
  - apply (for_each_within same_history cs call call_same_history).
  - apply (for_each_within quiet cs call call_quiet).
Qed.

(** ** An iteration as a sequence of stores *)

Lemma store_metrics_congr g env metrics_type data st st' :
  same_history st st' ->
  same_history (store_metrics g env metrics_type data st).2
               (store_metrics g env metrics_type data st').2.
Proof.
  intros [Hm Hr]. unfold same_history, store_metrics. destruct (REDIS_AVAILABLE g).
  - unfold Redis.lpush, Redis.ltrim, Redis.command. destruct (redis_up env); [|done].
    unfold try_seq, lift, seq, get, set_redis. cbn [redis metrics_history fst snd].
    rewrite Hr. by destruct (Redis.slice _ _ _).
  - unfold lift, seq, get, set_metrics_history. rewrite Hm.
    by destruct (_ <? _).
Qed.

Lemma store_all_congr g calls : forall st st',
  same_history st st' -> same_history (store_all g calls st).2 (store_all g calls st').2.
Proof.
  induction calls as [|call calls IH]; intros st st' H; [done|].
  rewrite !store_all_cons. by apply IH, store_metrics_congr.
Qed.

Lemma store_all_app g calls1 calls2 st :
  store_all g (calls1 ++ calls2) st = store_all g calls2 (store_all g calls1 st).2.
Proof.
  revert st. induction calls1 as [|call calls1 IH]; intros st; [done|].
  cbn [app]. by rewrite !store_all_cons, IH.
Qed.

Lemma store_metrics_up g env metrics_type data st :
  backend_up g env -> (store_metrics g env metrics_type data st).1 = ret tt.
Proof.
  intros Hup. rewrite store_metrics_result. unfold backend_up in Hup.
  destruct (REDIS_AVAILABLE g); [|done]. by rewrite Hup.
Qed.

(** Sampling the host is storing the host sample, if there is one. *)
Lemma sample_system_stores g env st0 st :
  backend_up g env ->
  same_history st0 st ->
  let system_metrics := (collect_system_metrics env initial).1 in
  (sample_system g env st).1 = ret tt /\
  same_history
    (store_all g (if truthy system_metrics then [(env, "system", system_metrics)] else [])
       st0).2
    (sample_system g env st).2.
Proof.
  intros Hup Hs. cbv zeta. unfold sample_system, try_seq, lift.
  pose proof (collect_system_metrics_same_history env st) as H1.
  pose proof (collect_system_metrics_stateless env st initial) as H2.
  destruct (collect_system_metrics env st) as [m st1]. cbn [fst snd] in *. rewrite <- H2.
  unfold ret. destruct (truthy m).
  - pose proof (store_metrics_up g env "system" m st1 Hup) as Hr.
    rewrite store_all_cons. cbn [fst snd].
    assert (Hc : same_history (store_metrics g env "system" m st0).2
                              (store_metrics g env "system" m st1).2).
    { apply store_metrics_congr. by etrans. }
    destruct (store_metrics g env "system" m st1) as [[e|[]] st2]; [done|].
    by split.
  - split; [done|]. cbn. by etrans.
Qed.

(** Sampling a container is storing its sample, if there is one. *)
Lemma sample_container_stores g env container st0 st :
  backend_up g env ->
  same_history st0 st ->
  (sample_container g env container st).1 = ret tt /\
  same_history
    (store_all g (option_list (container_sample g env container)) st0).2
    (sample_container g env container st).2.
Proof.
  intros Hup Hs. unfold sample_container, container_sample, try_seq, lift.
  pose proof (collect_container_metrics_same_history g env (Docker.id container) st) as H1.
  pose proof (collect_container_metrics_stateless g env (Docker.id container) st initial)
    as H2.
  destruct (collect_container_metrics g env (Docker.id container) st) as [m st1].
  cbn [fst snd] in *. rewrite <- H2. unfold ret. destruct (truthy m).
  - cbv [option_list option_rect]. rewrite store_all_cons. cbn [fst snd].
    set (key := "container:" +:+ Docker.id container).
    set (d := <["container_id" := PyStr (Docker.id container)]> m).
    pose proof (store_metrics_up g env key d st1 Hup) as Hr.
    assert (Hc : same_history (store_metrics g env key d st0).2
                              (store_metrics g env key d st1).2).
    { apply store_metrics_congr. by etrans. }
    destruct (store_metrics g env key d st1) as [[e|[]] st2]; [done|].
    by split.
  - split; [done|]. cbn. by etrans.
Qed.

(** Sampling the listed containers is storing their samples in turn. *)
Lemma sample_containers_store g env containers : forall st0 st,
  backend_up g env ->
  same_history st0 st ->
  (try_for_each containers (sample_container g env) st).1 = ret tt /\
  same_history (store_all g (omap (container_sample g env) containers) st0).2
               (try_for_each containers (sample_container g env) st).2.
Proof.
  induction containers as [|c containers IH]; intros st0 st Hup Hs; [done|].
  cbn [try_for_each]. unfold try_seq.
  destruct (sample_container_stores g env c st0 st Hup Hs) as [Hr Hc].
  destruct (sample_container g env c st) as [[e|[]] st1]; [done|]. cbn [fst snd] in Hc.
  replace (omap (container_sample g env) (c :: containers))
    with (option_list (container_sample g env c)
          ++ omap (container_sample g env) containers)
    by (csimpl; by destruct (container_sample g env c)).
  rewrite store_all_app. by apply IH.
Qed.

Lemma iteration_stores g env st0 st :
  backend_up g env ->
  same_history st0 st ->
  same_history (store_all g (samples_of g env) st0).2 (iteration g env st).2.
Proof.
  intros Hup Hs. unfold samples_of. rewrite store_all_app.
  destruct (sample_system_stores g env st0 st Hup Hs) as [Hr1 Hs1].
  unfold iteration, seq, sampling_cycle. unfold try_seq at 1.
  destruct (sample_system g env st) as [[e|[]] st1]; [done|]. cbn [fst snd] in Hs1.
  set (st0' := (store_all g _ st0).2) in *.
  destruct (DOCKER_AVAILABLE g).
  - unfold try_seq at 1. unfold try_seq at 1. unfold pure at 1.
    destruct (containers_list env) as [e|containers].
    + unfold raise. cbn. done.
    + destruct (sample_containers_store g env containers st0' st1 Hup Hs1) as [Hr2 Hs2].
      unfold ret.
      destruct (try_for_each containers (sample_container g env) st1) as [[e|[]] st2];
        [done|].
      cbn [fst snd] in *. unfold lift, time_sleep, emit, pure. cbn. done.
  - unfold try_seq, pure, ret, lift, time_sleep, emit. cbn. done.
Qed.

(** [X12] While the backend answers, what the loop leaves in the history
    is what the [store_metrics] calls for its samples leave, in order: per
    iteration the host sample, if the reads gave one, then one record per
    listed container that gave a sample, tagged with the container's id;
    nothing when listing the containers raised. *)
Theorem loop_is_its_stores g envs st :
  Forall (backend_up g) envs ->
  same_history (store_all g (concat (map (samples_of g) envs)) st).2
               (collect_metrics_background g envs st).2.
Proof.
  intros Hup.
  assert (H : forall st0 st, same_history st0 st ->
            same_history (store_all g (concat (map (samples_of g) envs)) st0).2
                         (collect_metrics_background g envs st).2).
  { induction Hup as [|env envs Hup _ IH]; intros st0 st1 Hs; [done|].
    cbn [map concat collect_metrics_background]. rewrite store_all_app.
    unfold seq at 1.
    pose proof (iteration_stores g env st0 st1 Hup Hs) as Hi.
    destruct (iteration g env st1) as [[] st2]. by apply IH. }
  by apply H.
Qed.

Lemma loop_is_its_stores_witness :
  same_history
    (store_all Sample.in_memory
       (concat (map (samples_of Sample.in_memory) [Sample.env; Sample.env_down])) initial).2
    (collect_metrics_background Sample.in_memory [Sample.env; Sample.env_down] initial).2.
Proof.
  apply loop_is_its_stores. repeat constructor; by intros ?.
Defined.

(** ** A Redis outage *)

Lemma store_metrics_down_same g env metrics_type data :
  REDIS_AVAILABLE g = true -> redis_up env = false ->
  within same_history (store_metrics g env metrics_type data).
Proof. intros Hg Hup st. by rewrite store_metrics_redis_down. Qed.

Lemma sampling_cycle_down_same g env :
  REDIS_AVAILABLE g = true -> redis_up env = false ->
  within same_history (sampling_cycle g env).
Proof.
  intros Hg Hup. unfold sampling_cycle.
  apply (within_try_seq same_history).
  { unfold sample_system. apply (within_try_seq same_history).
    - apply (within_lift same_history). intros st. apply collect_system_metrics_same_history.
    - intros d. destruct (truthy d); [|apply (within_pure same_history)].
      by apply store_metrics_down_same. }
  intros _. apply (within_try_seq same_history).
  2:{ intros _. apply (within_lift same_history). intros st. apply emit_same_history. }
  destruct (DOCKER_AVAILABLE g); [|apply (within_pure same_history)].
  apply (within_try_seq same_history); [apply (within_pure same_history)|].
  intros containers. apply (within_try_for_each same_history). intros container.
  unfold sample_container. apply (within_try_seq same_history).
  - apply (within_lift same_history). intros st.
    apply collect_container_metrics_same_history.
  - intros d. destruct (truthy d); [|apply (within_pure same_history)].
    by apply store_metrics_down_same.
Qed.

(** [X13] With Redis as backend and the server down, an iteration stores
    nothing.  When the host reads gave a sample, the store of that sample
    raises: the iteration logs the connection error and sleeps 10 seconds,
    and does nothing else, the containers not being sampled at all. *)
Theorem redis_outage_iteration g env st :
  REDIS_AVAILABLE g = true ->
  redis_up env = false ->
  same_history st (iteration g env st).2 /\
  (forall reads, psutil_reads env = ret reads ->
     outcome g env = raise RedisConnectionError /\
     same_sessions st (iteration g env st).2 /\
     events (iteration g env st).2
       = events st ++ [LogError "Error in metrics collection" RedisConnectionError;
                       Sleep 10]).
Proof.
  intros Hg Hup. split.
  - unfold iteration. apply (within_seq same_history).
    + by apply sampling_cycle_down_same.
    + intros [e|[]]; [|apply (within_pure same_history)].
      apply (within_seq same_history); [intros st1; apply emit_same_history|].
      intros _ st1. apply emit_same_history.
  - intros reads Hreads.
    assert (Hc : forall st1, sampling_cycle g env st1 = (raise RedisConnectionError, st1)).
    { intros st1. unfold sampling_cycle, sample_system, try_seq, lift, collect_system_metrics.
      rewrite Hreads. destruct reads as [[[[cpu mem] disk] net] load].
      unfold ret, pure. cbv beta iota.
      rewrite (truthy_lookup _ "timestamp" (PyStr (now_isoformat env))) by reflexivity.
      by rewrite store_metrics_redis_down. }
    split; [unfold outcome; by rewrite Hc|].
    unfold iteration, seq. rewrite Hc. unfold raise, logger_error, time_sleep, emit.
    cbn [snd events active_sessions]. split; [done|]. by rewrite <- app_assoc.
Qed.

Lemma redis_outage_iteration_witness :
  outcome Sample.with_redis
    {| containers_get := Sample.get; containers_list := ret [Sample.running];
       redis_up := false; psutil_reads := psutil_reads Sample.env;
       now_isoformat := "2023-11-14T22:13:30"; time_time := 1700000010;
       exec_create := exec_create Sample.env; exec_start := exec_start Sample.env;
       sock_send := sock_send Sample.env |}
  = raise RedisConnectionError.
Proof.
  destruct (redis_outage_iteration Sample.with_redis
              {| containers_get := Sample.get; containers_list := ret [Sample.running];
                 redis_up := false; psutil_reads := psutil_reads Sample.env;
                 now_isoformat := "2023-11-14T22:13:30"; time_time := 1700000010;
                 exec_create := exec_create Sample.env; exec_start := exec_start Sample.env;
                 sock_send := sock_send Sample.env |}
              initial eq_refl eq_refl) as [_ H].
  by destruct (H _ eq_refl) as [-> _].
Defined.

(** ** Process listings *)

Lemma zip_dict_list_to_map headers process :
  zip_dict headers process = list_to_map (reverse (zip headers process)).
Proof.
  unfold zip_dict. induction (zip headers process) as [|x l IH] using rev_ind; [done|].
  by rewrite foldl_snoc, reverse_snoc, IH.
Qed.

Lemma zip_fst_take (headers process : list string) :
  (zip headers process).*1 = take (length process) headers.
Proof.
  revert process. induction headers as [|h headers IH]; intros [|p process]; csimpl; try done.
  by rewrite IH.
Qed.

(** With distinct titles, a column is read at its title's position. *)
Lemma zip_dict_lookup_NoDup headers process i title :
  NoDup headers -> headers !! i = Some title ->
  zip_dict headers process !! title = process !! i.
Proof.
  intros Hnd Hi. rewrite zip_dict_list_to_map.
  assert (Hnd' : NoDup (reverse (zip headers process)).*1).
  { rewrite fmap_reverse, zip_fst_take, reverse_Permutation.
    rewrite <- (take_drop (length process) headers) in Hnd.
    by apply NoDup_app in Hnd as [? _]. }
  destruct (process !! i) as [v|] eqn:Hp.
  - apply elem_of_list_to_map; [done|]. apply elem_of_reverse.
    apply list_elem_of_lookup. exists i. by rewrite lookup_zip_with, Hi; cbn; rewrite Hp.
  - apply not_elem_of_list_to_map. rewrite fmap_reverse, zip_fst_take, elem_of_reverse.
    intros Hin. apply list_elem_of_lookup in Hin as [j Hj].
    apply lookup_take_Some in Hj as [Hj Hlt].
    assert (i = j) as -> by exact (NoDup_lookup headers i j title Hnd Hi Hj).
    apply lookup_ge_None in Hp. lia.
Qed.

(** A title that is not there gives no value. *)
Lemma zip_dict_lookup_absent headers process title :
  title ∉ headers -> zip_dict headers process !! title = None.
Proof.
  intros Hnot. rewrite zip_dict_list_to_map. apply not_elem_of_list_to_map.
  rewrite fmap_reverse, zip_fst_take, elem_of_reverse. intros Hin. apply Hnot.
  by eapply subseteq_take.
Qed.

(** A title that comes twice keeps the value of its last column. *)
Lemma zip_dict_lookup_last headers process title v :
  length headers = length process ->
  zip_dict (headers ++ [title]) (process ++ [v]) !! title = Some v.
Proof.
  intros Hlen. unfold zip_dict. rewrite zip_with_app by done. cbn [zip_with].
  by rewrite foldl_snoc, lookup_insert_eq.
Qed.

Lemma process_record_fields headers process field title dflt :
  (field, title, dflt) ∈ process_columns ->
  process_record headers process !! field
    = Some (PyStr (default dflt (zip_dict headers process !! title))).
Proof.
  unfold process_columns. rewrite !elem_of_cons, elem_of_nil.
  intros [[= -> -> ->]|[[= -> -> ->]|[[= -> -> ->]|[[= -> -> ->]|[[= -> -> ->]|
          [[= -> -> ->]|[]]]]]]]; reflexivity.
Qed.

(** [X14] A process record has exactly the six keys.  Each is read from
    the row at the position of its column title: with distinct titles the
    value found there, or the default (empty, ["0.0"] for cpu and memory)
    when the row is too short; the default when no column has that title;
    and from the last of the columns when several have it. *)
Theorem process_record_columns headers process field title dflt :
  (field, title, dflt) ∈ process_columns ->
  dom (process_record headers process) = process_keys /\
  (forall i, NoDup headers -> headers !! i = Some title ->
     process_record headers process !! field = Some (PyStr (default dflt (process !! i)))) /\
  (title ∉ headers -> process_record headers process !! field = Some (PyStr dflt)) /\
  (forall v, length headers = length process ->
     process_record (headers ++ [title]) (process ++ [v]) !! field = Some (PyStr v)).
Proof.
  intros Hin. split; [|split; [|split]].
  - unfold process_record, dict_of. by rewrite dom_list_to_map_L.
  - intros i Hnd Hi. rewrite (process_record_fields _ _ _ _ _ Hin).
    by rewrite (zip_dict_lookup_NoDup _ _ i).
  - intros Hnot. rewrite (process_record_fields _ _ _ _ _ Hin).
    by rewrite zip_dict_lookup_absent.
  - intros v Hlen. rewrite (process_record_fields _ _ _ _ _ Hin).
    by rewrite zip_dict_lookup_last.
Qed.

Lemma process_record_columns_witness :
  process_record ["UID"; "PID"; "PPID"; "C"; "STIME"; "TTY"; "TIME"; "CMD"]
                 ["root"; "4242"; "1"; "0"; "10:01"; "?"; "00:00:03"; "nginx"]
    !! "command" = Some (PyStr "").
Proof.
  destruct (process_record_columns
              ["UID"; "PID"; "PPID"; "C"; "STIME"; "TTY"; "TIME"; "CMD"]
              ["root"; "4242"; "1"; "0"; "10:01"; "?"; "00:00:03"; "nginx"]
              "command" "COMMAND" "") as (_ & _ & H & _).
  - unfold process_columns. rewrite !elem_of_cons. tauto.
  - apply H. rewrite !elem_of_cons, elem_of_nil. intros H'. by decompose [or] H'.
Defined.

(** [X15] [get_container_processes] never raises and changes nothing but
    the log.  It gives one record per row of the listing, in order, when
    Docker is available, the container is found running and [top()]
    answers with rows; in every other case it gives the empty list, and it
    logs exactly when a runtime call raised. *)
Theorem get_container_processes_outcome g env container_top container_id st :
  let r := get_container_processes g env container_top container_id st in
  let attempt :=
    (container <- containers_get env container_id ;;
     if negb (String.eqb (Docker.status container) "running") then ret None
     else (top <- container_top container ;; ret (Some top)))%try in
  same_history st r.2 /\ same_sessions st r.2 /\
  (DOCKER_AVAILABLE g = false -> r = ([], st)) /\
  (DOCKER_AVAILABLE g = true ->
   match attempt with
   | inr (Some top) =>
       r = (map (process_record (Titles top)) (default [] (Processes top)), st) /\
       length r.1 = length (default [] (Processes top))
   | inr None => r = ([], st)
   | inl e =>
       r.1 = [] /\
       events r.2 = events st ++ [LogError "Error getting container processes" e]
   end).
Proof.
  cbv zeta. unfold get_container_processes.
  destruct (DOCKER_AVAILABLE g); cbn [negb]; [|done].
  destruct (containers_get env container_id) as [e|container]; cbn [bind]; [done|].
  destruct (negb _); [done|].
  destruct (container_top container) as [e|top]; cbn [bind]; [done|].
  unfold ret. cbv iota.
  destruct (Processes top) as [rows|]; cbn [default from_option id]; unfold pure;
    cbn [fst snd]; (split; [done|]); (split; [done|]); (split; [done|]); intros _;
    (split; [done|]); [by rewrite length_map|done].
Qed.

(** ** Project health *)

Lemma get_eq_str_lookup (d : dict) k s :
  get_eq_str d k s = true <-> d !! k = Some (PyStr s).
Proof.
  unfold get_eq_str. destruct (d !! k) as [[| | |s'| |]|]; try (split; [done|by intros [=]]).
  destruct (String.eqb_spec s' s) as [->|Hne]; [done|]. split; [done|]. by intros [= ->].
Qed.

(** The entry of a container says ["unhealthy"] exactly when the container
    is running and its health check reports so. *)
Lemma container_health_unhealthy container :
  get_eq_str (container_health container) "health" "unhealthy"
    = reports_unhealthy container.
Proof.
  unfold container_health, reports_unhealthy, health_info_of.
  destruct (String.eqb (Health.status container) "running"); cbn [andb]; [|done].
  destruct (Health.attrs container !! "State") as [[| | | | |state]|];
    cbn [default from_option id]; try done.
  destruct (state !! "Health") as [[|z|x|s|l|h]|]; cbn [default from_option id py_truthy].
  - done.
  - by destruct (negb _).
  - by destruct x.
  - by destruct (negb _).
  - by destruct l.
  - destruct (truthy h) eqn:Ht.
    + unfold get_eq_str at 1. rewrite lookup_insert_ne, lookup_insert_eq by done.
      unfold get_eq_str. by destruct (h !! "Status").
    + apply truthy_spec in Ht as ->. done.
  - by rewrite truthy_empty.
Qed.

Lemma container_health_name container :
  entry_name (container_health container) = Health.name container.
Proof.
  unfold container_health, entry_name, health_info_of.
  destruct (String.eqb (Health.status container) "running"); [|done].
  destruct (default (PyDict ∅) (Health.attrs container !! "State")) as [| | | | |state];
    try done.
  destruct (py_truthy _); [|done].
  by destruct (default (PyDict ∅) (state !! "Health")).
Qed.

Lemma filter_map_commute {A B} (f : A -> B) (P : B -> Prop) `{!forall y, Decision (P y)}
    (l : list A) :
  filter P (map f l) = map f (filter (fun x => P (f x)) l).
Proof.
  induction l as [|x l IH]; [done|]. cbn [map].
  rewrite !filter_cons. destruct (decide (P (f x))); cbn [map]; by rewrite IH.
Qed.

(** What the check gives once the runtime has listed the containers. *)
Lemma get_project_health_listed lower g env all_containers projects name st status :
  DOCKER_AVAILABLE g = true ->
  (get_project_health lower g env (ret all_containers) projects name st).1 = Some status ->
  let mine := project_containers lower name all_containers in
  let unhealthy := filter (fun c => reports_unhealthy c = true) mine in
  Health.containers status = map container_health mine /\
  Health.issues status = map (fun c => Health.Unhealthy (Health.name c)) unhealthy /\
  Health.overall status =
    match mine, unhealthy with
    | [], _ => "no_containers"
    | _ :: _, _ :: _ => "unhealthy"
    | _ :: _, [] => "healthy"
    end.
Proof.
  intros Hg. cbv zeta. unfold get_project_health. rewrite Hg.
  destruct (projects !! name) as [project|]; [|done].
  destruct (negb (py_truthy project)); [done|]. unfold ret. cbv iota.
  fold (project_containers lower name all_containers).
  destruct (project_containers lower name all_containers) as [|c mine] eqn:Hmine.
  { intros [= <-]. done. }
  rewrite filter_map_commute.
  rewrite (list_filter_iff _ (fun c => reports_unhealthy c = true))
    by (intros x; by rewrite container_health_unhealthy).
  destruct (filter _ (c :: mine)) as [|u unhealthy] eqn:Hu.
  - cbn [map]. intros [= <-]. done.
  - cbn [map]. intros [= <-]. cbn [Health.containers Health.issues Health.overall].
    split; [done|]. split; [|done]. rewrite !container_health_name. f_equal.
    rewrite <- list_fmap_compose. apply list_fmap_ext. intros i x _. cbn.
    by rewrite container_health_name.
Qed.

(** [X16] [get_project_health] gives nothing for a name that is not a
    configured project.  Otherwise, with Docker unavailable it reports
    ["healthy"] without looking; when listing the containers raises it
    reports ["error"] with that exception as the one issue, and logs it;
    else it counts the containers whose name starts with the project's name
    in lower case, and reports ["no_containers"] when there is none,
    ["unhealthy"] when one of them is running with a health check that
    says so, naming each such container in the issues, and ["healthy"] in
    every other case, stopped containers included. *)
Theorem project_health_overall lower g env all_containers projects name st :
  let r := get_project_health lower g env all_containers projects name st in
  same_history st r.2 /\ same_sessions st r.2 /\
  (r.1 = None <->
   forall project, projects !! name = Some project -> py_truthy project = false) /\
  forall status, r.1 = Some status ->
    Health.last_check status = now_isoformat env /\
    (DOCKER_AVAILABLE g = false ->
     r.2 = st /\ Health.overall status = "healthy" /\
     Health.containers status = [] /\ Health.issues status = []) /\
    (forall e, DOCKER_AVAILABLE g = true -> all_containers = raise e ->
     Health.overall status = "error" /\
     Health.containers status = [] /\ Health.issues status = [Health.Failure e] /\
     events r.2 = events st ++ [LogError "Error checking project health" e]) /\
    (forall listed, DOCKER_AVAILABLE g = true -> all_containers = ret listed ->
     let mine := project_containers lower name listed in
     r.2 = st /\
     Health.containers status = map container_health mine /\
     Health.issues status
       = map (fun c => Health.Unhealthy (Health.name c))
             (filter (fun c => reports_unhealthy c = true) mine) /\
     (Health.overall status = "no_containers" <-> mine = []) /\
     (Health.overall status = "unhealthy" <->
      Exists (fun c => reports_unhealthy c = true) mine) /\
     (Health.overall status = "healthy" <->
      mine <> [] /\ Forall (fun c => reports_unhealthy c = false) mine)).
Proof.
  cbv zeta.
  assert (Hstate : same_history st (get_project_health lower g env all_containers
                                      projects name st).2 /\
                   same_sessions st (get_project_health lower g env all_containers
                                       projects name st).2).
  { unfold get_project_health. destruct (projects !! name) as [project|]; [|done].
    destruct (negb _); [done|]. destruct (DOCKER_AVAILABLE g); [|done].
    destruct all_containers as [e|listed]; [done|].
    destruct (filter _ listed); [done|]. by destruct (filter _ _). }
  destruct Hstate as [Hh Hs]. split; [done|]. split; [done|]. split.
  { unfold get_project_health. destruct (projects !! name) as [project|]; [|done].
    destruct (py_truthy project) eqn:Ht; cbn [negb].
    - split; [|intros H; specialize (H _ eq_refl); congruence].
      destruct (DOCKER_AVAILABLE g); [|done].
      destruct all_containers as [e|listed]; [done|].
      destruct (filter _ listed); [done|]. by destruct (filter _ _).
    - split; [|done]. by intros _ ? [= <-]. }
  intros status Hr. split; [|split; [|split]].
  - revert Hr. unfold get_project_health. destruct (projects !! name) as [project|]; [|done].
    destruct (negb _); [done|]. destruct (DOCKER_AVAILABLE g); [|by intros [= <-]].
    destruct all_containers as [e|listed]; [by intros [= <-]|].
    destruct (filter _ listed); [by intros [= <-]|].
    destruct (filter _ _); by intros [= <-].
  - intros Hg. revert Hr. unfold get_project_health. rewrite Hg.
    destruct (projects !! name) as [project|]; [|done].
    destruct (negb _); [done|]. by intros [= <-].
  - intros e Hg ->. revert Hr. unfold get_project_health. rewrite Hg.
    destruct (projects !! name) as [project|]; [|done].
    destruct (negb _); [done|]. by intros [= <-].
  - intros listed Hg ->. cbv zeta.
    destruct (get_project_health_listed _ _ _ _ _ _ _ _ Hg Hr) as (Hc & Hi & Ho).
    split.
    { revert Hr. clear. unfold get_project_health.
      destruct (projects !! name) as [project|]; [|done].
      destruct (negb _); [done|]. destruct (DOCKER_AVAILABLE g); [|done].
      unfold ret. cbv iota. destruct (filter _ listed); [done|]. by destruct (filter _ _). }
    split; [done|]. split; [done|]. rewrite Ho.
    destruct (project_containers lower name listed) as [|c mine].
    { split; [done|]. split; [split; [done|by intros ?%Exists_nil]|].
      split; [done|]. by intros [? _]. }
    destruct (filter _ (c :: mine)) as [|u unhealthy] eqn:Hu.
    + split; [done|]. split.
      * split; [done|]. intros Hex. apply Exists_exists in Hex as (x & Hx & Hp).
        assert (Hin : x ∈ filter (fun c => reports_unhealthy c = true) (c :: mine))
          by (by apply list_elem_of_filter).
        rewrite Hu in Hin. by apply elem_of_nil in Hin.
      * split; [|done]. intros _. split; [done|]. apply Forall_forall. intros x Hx.
        destruct (reports_unhealthy x) eqn:Hp; [|done].
        assert (Hin : x ∈ filter (fun c => reports_unhealthy c = true) (c :: mine))
          by (by apply list_elem_of_filter).
        rewrite Hu in Hin. by apply elem_of_nil in Hin.
    + assert (Hin : u ∈ filter (fun c => reports_unhealthy c = true) (c :: mine))
        by (rewrite Hu; left).
      apply list_elem_of_filter in Hin as [Hp Hin].
      split; [done|]. split.
      * split; [|done]. intros _. apply Exists_exists. by exists u.
      * split; [done|]. intros [_ Hall]. rewrite Forall_forall in Hall.
        specialize (Hall u Hin). congruence.
Qed.

Lemma get_container_processes_outcome_witness :
  length (get_container_processes Sample.with_redis Sample.env SampleProject.top
            "abc123" initial).1 = 2%nat /\
  get_container_processes Sample.with_redis Sample.env SampleProject.top "def456" initial
    = ([], initial).
Proof.
  split.
  - destruct (get_container_processes_outcome Sample.with_redis Sample.env
                SampleProject.top "abc123" initial) as (_ & _ & _ & H).
    exact (proj2 (H eq_refl)).
  - destruct (get_container_processes_outcome Sample.with_redis Sample.env
                SampleProject.top "def456" initial) as (_ & _ & _ & H).
    exact (H eq_refl).
Defined.

Lemma project_health_overall_witness :
  Health.overall <$>
    (get_project_health SampleProject.lower Sample.with_redis Sample.env
       (ret SampleProject.listed) SampleProject.projects "Web" initial).1
  = Some "unhealthy".
Proof.
  destruct (get_project_health SampleProject.lower Sample.with_redis Sample.env
              (ret SampleProject.listed) SampleProject.projects "Web" initial).1
    as [status|] eqn:Hs; [|by vm_compute in Hs].
  cbn. f_equal.
  destruct (project_health_overall SampleProject.lower Sample.with_redis Sample.env
              (ret SampleProject.listed) SampleProject.projects "Web" initial)
    as (_ & _ & _ & H).
  destruct (H status Hs) as (_ & _ & _ & H').
  destruct (H' SampleProject.listed eq_refl eq_refl) as (_ & _ & _ & _ & [_ Hu] & _).
  apply Hu. apply Exists_exists. exists SampleProject.failing.
  split; [|reflexivity]. vm_compute. right. left.
Defined.

Lemma prefix_trans s1 s2 s3 :
  String.prefix s1 s2 = true -> String.prefix s2 s3 = true -> String.prefix s1 s3 = true.
Proof.
  revert s2 s3. induction s1 as [|a s1 IH]; intros [|b s2] [|c s3]; cbn; try done.
  destruct (Ascii.ascii_dec a b) as [->|]; [|done].
  destruct (Ascii.ascii_dec b c) as [->|]; [|done]. apply IH.
Qed.

Lemma project_containers_prefix lower name1 name2 all_containers :
  String.prefix (lower name1) (lower name2) = true ->
  project_containers lower name2 all_containers
    `sublist_of` project_containers lower name1 all_containers.
Proof.
  intros Hp. unfold project_containers.
  induction all_containers as [|c cs IH]; [done|]. rewrite !filter_cons.
  destruct (decide (String.prefix (lower name2) (Health.name c) = true)) as [H2|H2].
  - rewrite decide_True by (by eapply prefix_trans). by constructor.
  - case_decide; [by constructor|done].
Qed.

(** [X17] Projects are told apart by name prefix only: when the lowered
    name of one project starts with the lowered name of another, every
    container counted for the first is counted for the second as well, so
    an unhealthy container of the first makes the second unhealthy too,
    and the second has containers whenever the first has. *)
Theorem project_health_shared_by_prefix
    lower g env listed projects name1 name2 st1 st2 status1 status2 :
  String.prefix (lower name1) (lower name2) = true ->
  DOCKER_AVAILABLE g = true ->
  (get_project_health lower g env (ret listed) projects name1 st1).1 = Some status1 ->
  (get_project_health lower g env (ret listed) projects name2 st2).1 = Some status2 ->
  Health.containers status2 `sublist_of` Health.containers status1 /\
  (Health.overall status2 = "unhealthy" -> Health.overall status1 = "unhealthy") /\
  (Health.overall status1 = "no_containers" -> Health.overall status2 = "no_containers").
Proof.
  intros Hp Hg H1 H2.
  apply get_project_health_listed in H1 as (Hc1 & _ & Ho1); [|done].
  apply get_project_health_listed in H2 as (Hc2 & _ & Ho2); [|done].
  pose proof (project_containers_prefix lower name1 name2 listed Hp) as Hsub.
  rewrite Hc1, Hc2, Ho1, Ho2. split; [by apply (fmap_sublist container_health)|].
  set (mine1 := project_containers lower name1 listed) in *.
  set (mine2 := project_containers lower name2 listed) in *.
  split.
  - destruct mine2 as [|c2 mine2]; [done|].
    destruct (filter _ (c2 :: mine2)) as [|u us] eqn:Hu; [done|]. intros _.
    assert (Hin : u ∈ filter (fun c => reports_unhealthy c = true) (c2 :: mine2))
      by (rewrite Hu; left).
    apply list_elem_of_filter in Hin as [Hpu Hin].
    assert (Hin1 : u ∈ filter (fun c => reports_unhealthy c = true) mine1).
    { apply list_elem_of_filter. split; [done|]. by eapply elem_of_sublist. }
    destruct mine1 as [|c1 mine1]; [by apply elem_of_nil in Hin1|].
    destruct (filter _ (c1 :: mine1)); [by apply elem_of_nil in Hin1|done].
  - destruct mine1 as [|c1 mine1].
    + apply sublist_nil_r in Hsub. by rewrite Hsub.
    + by destruct (filter _ (c1 :: mine1)).
Qed.

Lemma project_health_shared_by_prefix_witness :
  Health.overall <$>
    (get_project_health SampleProject.lower Sample.with_redis Sample.env
       (ret SampleProject.listed) SampleProject.projects "Web" initial).1
  = Some "unhealthy".
Proof.
  destruct (get_project_health SampleProject.lower Sample.with_redis Sample.env
              (ret SampleProject.listed) SampleProject.projects "Web" initial).1
    as [status1|] eqn:H1; [|by vm_compute in H1].
  destruct (get_project_health SampleProject.lower Sample.with_redis Sample.env
              (ret SampleProject.listed) SampleProject.projects "webapp" initial).1
    as [status2|] eqn:H2; [|by vm_compute in H2].
  cbn. f_equal.
  destruct (project_health_shared_by_prefix SampleProject.lower Sample.with_redis
              Sample.env SampleProject.listed SampleProject.projects "Web" "webapp"
              initial initial status1 status2 eq_refl eq_refl H1 H2) as (_ & H & _).
  apply H. vm_compute in H2. by injection H2 as <-.
Defined.

(** ** The in-process cap *)

Lemma entry_data_type metrics_type m d :
  entry_data metrics_type m = Some d -> m !! "type" = Some (PyStr metrics_type).
Proof.
  unfold entry_data. destruct (get_eq_str m "type" metrics_type) eqn:Hg; [|done].
  intros _. by apply get_eq_str_lookup.
Qed.

(** An entry counts for one metrics type at most. *)
Lemma entry_counted_once (m : dict) metrics_types :
  NoDup metrics_types ->
  (sum_list_with (fun t => length (option_list (entry_data t m))) metrics_types <= 1)%nat.
Proof.
  induction 1 as [|t ts Hnot _ IH]; [cbn; lia|]. cbn [sum_list_with].
  destruct (entry_data t m) as [d|] eqn:Ht; cbn [option_list option_rect length]; [|lia].
  assert (H0 : sum_list_with (fun t => length (option_list (entry_data t m))) ts = 0%nat);
    [|lia].
  clear IH. induction ts as [|t' ts IH]; [done|]. cbn [sum_list_with].
  apply not_elem_of_cons in Hnot as [Hne Hnot]. rewrite (IH Hnot).
  destruct (entry_data t' m) as [d'|] eqn:Ht'; [|done].
  apply entry_data_type in Ht. apply entry_data_type in Ht'. congruence.
Qed.

Lemma held_in_process g metrics_types st :
  REDIS_AVAILABLE g = false ->
  NoDup metrics_types ->
  (held g metrics_types st <= length (metrics_history st))%nat.
Proof.
  intros Hg Hnd. unfold held, stream. rewrite Hg.
  induction (metrics_history st) as [|m h IH].
  { induction metrics_types as [|t ts IHt]; [done|]. cbn.
    apply NoDup_cons in Hnd as [_ Hnd]. specialize (IHt Hnd). cbn in IHt. lia. }
  assert (Hsplit : forall ts,
    sum_list_with (fun t => length (omap (entry_data t) (m :: h))) ts
    = (sum_list_with (fun t => length (option_list (entry_data t m))) ts
       + sum_list_with (fun t => length (omap (entry_data t) h)) ts)%nat).
  { induction ts as [|t ts IHt]; [done|]. cbn [sum_list_with]. rewrite IHt. csimpl.
    destruct (entry_data t m); cbn; lia. }
  rewrite Hsplit. pose proof (entry_counted_once m metrics_types Hnd). cbn [length]. lia.
Qed.

(** [X18] With the in-process backend the cap of 100 is one cap for all
    metrics types together: whatever the loop has run through, the records
    held for any set of distinct types number at most 100 in all. *)
Theorem in_process_cap_is_shared g envs metrics_types :
  REDIS_AVAILABLE g = false ->
  NoDup metrics_types ->
  (held g metrics_types (collect_metrics_background g envs initial).2 <= 100)%nat.
Proof.
  intros Hg Hnd.
  pose proof (loop_bounded g envs initial history_bounded_initial) as [Hb _].
  etrans; [by apply held_in_process|done].
Qed.

Lemma in_process_cap_is_shared_witness :
  (held Sample.in_memory ["system"; "container:abc123"]
     (collect_metrics_background Sample.in_memory [Sample.env; Sample.env_down] initial).2
   <= 100)%nat.
Proof.
  apply in_process_cap_is_shared; [reflexivity|].
  apply NoDup_cons. split; [|apply NoDup_singleton].
  by intros ?%list_elem_of_singleton.
Defined.

(** ** A container that resolves *)



(** ** Projects *)

Lemma save_config_config env st :
  Projects.config (save_config env st) = Projects.config st.
Proof. unfold save_config, perform. cbn. by destruct (Projects.write env _). Qed.

Lemma save_config_effects env st :
  Projects.effects (save_config env st)
    = Projects.effects st
      ++ Projects.Dump (Projects.config st)
         :: match Projects.write env (Projects.config st) with
            | inl e => [Projects.Log "Error saving config" e]
            | inr _ => []
            end.
Proof.
  unfold save_config, perform. cbn. destruct (Projects.write env _); cbn; [|done].
  by rewrite <- app_assoc.
Qed.

(** How [add_project] comes out, by what the checkout answers and what the
    config holds under ['projects']. *)
Lemma add_project_cases env name repo_url branch dockerfile_path compose_file
    environment_vars st :
  let r := add_project env name repo_url branch dockerfile_path compose_file
             environment_vars st in
  let repo := checkout env name repo_url branch in
  let entry := project_entry env name repo_url branch (path_join PROJECTS_DIR name)
                 dockerfile_path compose_file environment_vars in
  let failed e :=
    r = (Projects.Failed e,
         {| Projects.config := Projects.config st;
            Projects.effects :=
              Projects.effects st ++ [repo.1; Projects.Log "Error adding project" e] |}) in
  match repo.2, Projects.config st with
  | inl e, _ => failed e
  | inr _, PyDict c =>
      match c !! "projects" with
      | Some (PyDict projects) =>
          r.1 = Projects.Added name /\
          Projects.config r.2
            = PyDict (<["projects" := PyDict (<[name := entry]> projects)]> c) /\
          Projects.effects r.2
            = Projects.effects st
              ++ [repo.1; Projects.Dump (Projects.config r.2)]
              ++ match Projects.write env (Projects.config r.2) with
                 | inl e => [Projects.Log "Error saving config" e]
                 | inr _ => []
                 end
      | Some _ => failed Projects.TypeError
      | None => failed (Projects.KeyError "projects")
      end
  | inr _, _ => failed Projects.TypeError
  end.
Proof.
  cbv zeta. unfold add_project.
  destruct (checkout env name repo_url branch) as [op [e|[]]]; cbn [fst snd].
  { unfold add_project_failed, perform. cbn. by rewrite <- app_assoc. }
  assert (Hf : forall e,
    add_project_failed e (perform op st)
    = (Projects.Failed e,
       {| Projects.config := Projects.config st;
          Projects.effects := Projects.effects st ++ [op; Projects.Log "Error adding project" e] |})).
  { intros e. unfold add_project_failed, perform. cbn. by rewrite <- app_assoc. }
  cbn [perform Projects.config].
  destruct (Projects.config st) as [| | | | |c]; try apply Hf.
  destruct (c !! "projects") as [[| | | | |projects]|]; try apply Hf.
  cbn [fst snd]. split; [done|]. rewrite save_config_config, save_config_effects.
  cbn [set_config Projects.config Projects.effects perform]. split; [done|].
  by rewrite <- app_assoc.
Qed.

(** [X20] [add_project] reports success exactly when the checkout raised
    nothing and the config holds a dict under ['projects'].  It then files
    a fresh entry for the name, whatever was filed there before, leaves
    every other project as it was, and tries to write the config once; a
    write that fails is logged and the success is reported all the same.
    When it reports a failure the config is unchanged and no write is
    tried, though the checkout has been started. *)
Theorem add_project_outcome env name repo_url branch dockerfile_path compose_file
    environment_vars st :
  let r := add_project env name repo_url branch dockerfile_path compose_file
             environment_vars st in
  let repo := checkout env name repo_url branch in
  let entry := project_entry env name repo_url branch (path_join PROJECTS_DIR name)
                 dockerfile_path compose_file environment_vars in
  (r.1 = Projects.Added name <->
   repo.2 = inr tt /\
   exists c projects,
     Projects.config st = PyDict c /\ c !! "projects" = Some (PyDict projects)) /\
  (r.1 = Projects.Added name ->
   get_project name r.2 = inr entry /\
   (forall other, other <> name -> get_project other r.2 = get_project other st) /\
   Projects.effects r.2
     = Projects.effects st
       ++ [repo.1; Projects.Dump (Projects.config r.2)]
       ++ match Projects.write env (Projects.config r.2) with
          | inl e => [Projects.Log "Error saving config" e]
          | inr _ => []
          end) /\
  (forall e, r.1 = Projects.Failed e ->
   Projects.config r.2 = Projects.config st /\
   Projects.effects r.2
     = Projects.effects st ++ [repo.1; Projects.Log "Error adding project" e]).
Proof.
  cbv zeta.
  pose proof (add_project_cases env name repo_url branch dockerfile_path compose_file
                environment_vars st) as H. cbv zeta in H.
  destruct (checkout env name repo_url branch) as [op [e|[]]]; cbn [fst snd] in *.
  { rewrite H. cbn. split; [split; [done|by intros [[=] _]]|]. split; [done|].
    by intros e' [= <-]. }
  destruct (Projects.config st) as [| | | | |c] eqn:Hc;
    try (rewrite H; cbn; split; [split; [done|by intros [_ (? & ? & [=] & _)]]|];
         split; [done|]; by intros e' [= <-]).
  destruct (c !! "projects") as [[| | | | |projects]|] eqn:Hp;
    try (rewrite H; cbn; split; [split; [done|intros [_ (c' & p' & [= <-] & Hp')]; congruence]|];
         split; [done|]; by intros e' [= <-]).
  destruct H as (Hr & Hcfg & Heff). split; [|split].
  - split; [|done]. intros _. split; [done|]. by exists c, projects.
  - intros _. split; [|split; [|done]].
    + unfold get_project, get_projects. rewrite Hcfg. cbn [py_get].
      rewrite lookup_insert_eq. cbn [default from_option id py_get].
      by rewrite lookup_insert_eq.
    + intros other Hne. unfold get_project, get_projects. rewrite Hcfg, Hc. cbn [py_get].
      rewrite lookup_insert_eq, Hp. cbn [default from_option id py_get].
      by rewrite lookup_insert_ne.
  - intros e. by rewrite Hr.
Qed.

Lemma add_project_outcome_witness :
  (add_project SampleRepo.env "blog" "https://example.org/blog.git" "main" "Dockerfile"
     "docker-compose.yml" ∅ SampleRepo.loaded).1 = Projects.Added "blog" /\
  Projects.effects
    (add_project SampleRepo.env "blog" "https://example.org/blog.git" "main" "Dockerfile"
       "docker-compose.yml" ∅ SampleRepo.loaded).2 !! 2%nat
  = Some (Projects.Log "Error saving config" (Projects.OSError "Read-only file system")).
Proof.
  destruct (add_project_outcome SampleRepo.env "blog" "https://example.org/blog.git" "main"
              "Dockerfile" "docker-compose.yml" ∅ SampleRepo.loaded) as ([_ Hr] & He & _).
  assert (Hadded : (add_project SampleRepo.env "blog" "https://example.org/blog.git" "main"
                      "Dockerfile" "docker-compose.yml" ∅ SampleRepo.loaded).1
                   = Projects.Added "blog").
  { apply Hr. split; [reflexivity|]. by eexists _, _. }
  split; [done|]. destruct (He Hadded) as (_ & _ & ->). reflexivity.
Defined.

Lemma project_path_of name :
  path_join PROJECTS_DIR name
    = if String.prefix "/" name then name else PROJECTS_DIR +:+ "/" +:+ name.
Proof. unfold path_join. by destruct (String.prefix "/" name). Qed.

Lemma add_project_first_effect env name repo_url branch dockerfile_path compose_file
    environment_vars st :
  Projects.effects
    (add_project env name repo_url branch dockerfile_path compose_file
       environment_vars st).2 !! length (Projects.effects st)
  = Some (checkout env name repo_url branch).1.
Proof.
  pose proof (add_project_cases env name repo_url branch dockerfile_path compose_file
                environment_vars st) as H. cbv zeta in H.
  assert (Hl : forall op rest,
            (Projects.effects st ++ op :: rest) !! length (Projects.effects st) = Some op).
  { intros op rest. by rewrite lookup_app_r, Nat.sub_diag. }
  destruct (checkout env name repo_url branch).2 as [e|[]].
  { rewrite H. apply Hl. }
  destruct (Projects.config st) as [| | | | |c]; try (rewrite H; apply Hl).
  destruct (c !! "projects") as [[| | | | |projects]|]; try (rewrite H; apply Hl).
  destruct H as (_ & _ & ->). apply Hl.
Qed.

(** [X21] The directory of a project is [PROJECTS_DIR/name], unless the
    name starts with a slash: such a name is itself the directory, outside
    the projects directory.  When the directory exists [add_project] only
    pulls there, and the [repo_url] and [branch] it was given are recorded
    in the entry without having been used; otherwise it clones [repo_url]
    at [branch] into the directory. *)
Theorem project_directory env name repo_url branch dockerfile_path compose_file
    environment_vars st :
  let r := add_project env name repo_url branch dockerfile_path compose_file
             environment_vars st in
  let project_path :=
    if String.prefix "/" name then name else PROJECTS_DIR +:+ "/" +:+ name in
  Projects.effects r.2 !! length (Projects.effects st)
    = Some (if Projects.path_exists env project_path
            then Projects.Pull project_path
            else Projects.Clone repo_url project_path branch) /\
  (r.1 = Projects.Added name ->
   exists entry,
     get_project name r.2 = inr (PyDict entry) /\
     entry !! "path" = Some (PyStr project_path) /\
     entry !! "repo_url" = Some (PyStr repo_url) /\
     entry !! "branch" = Some (PyStr branch) /\
     entry !! "status" = Some (PyStr "configured") /\
     entry !! "build_history" = Some (PyList [])).
Proof.
  cbv zeta. rewrite <- project_path_of.
  destruct (add_project_outcome env name repo_url branch dockerfile_path compose_file
              environment_vars st) as (_ & Hadded & Hfailed).
  assert (Hop : (checkout env name repo_url branch).1
                = if Projects.path_exists env (path_join PROJECTS_DIR name)
                  then Projects.Pull (path_join PROJECTS_DIR name)
                  else Projects.Clone repo_url (path_join PROJECTS_DIR name) branch).
  { unfold checkout. by destruct (Projects.path_exists env _). }
  rewrite <- Hop. split; [apply add_project_first_effect|].
  intros Hr. destruct (Hadded Hr) as (Hget & _). eexists. split; [exact Hget|].
  repeat split; reflexivity.
Qed.

Lemma project_directory_witness :
  Projects.effects
    (add_project SampleRepo.env "/etc/cron.d" "https://example.org/jobs.git" "main"
       "Dockerfile" "docker-compose.yml" ∅ SampleRepo.loaded).2 !! 0%nat
    = Some (Projects.Clone "https://example.org/jobs.git" "/etc/cron.d" "main") /\
  Projects.effects
    (add_project SampleRepo.env "shop" "https://example.org/other.git" "dev"
       "Dockerfile" "docker-compose.yml" ∅ SampleRepo.loaded).2 !! 0%nat
    = Some (Projects.Pull "/tmp/advanced_manager_projects/shop").
Proof.
  split.
  - exact (proj1 (project_directory SampleRepo.env "/etc/cron.d"
                    "https://example.org/jobs.git" "main" "Dockerfile"
                    "docker-compose.yml" ∅ SampleRepo.loaded)).
  - exact (proj1 (project_directory SampleRepo.env "shop"
                    "https://example.org/other.git" "dev" "Dockerfile"
                    "docker-compose.yml" ∅ SampleRepo.loaded)).
Defined.

(** [X22] After [load_config] found no config file, or one it could not
    read, the config is the default one, no project is configured, and
    [add_project] fails only when the checkout does; an unreadable file is
    logged and left as it is, a missing one is written.  After it read a
    dict without ['projects'], [get_projects] still gives the empty dict,
    but every [add_project] fails, with a [KeyError] once the checkout has
    been done. *)
Theorem add_project_after_load env0 env name repo_url branch dockerfile_path compose_file
    environment_vars st :
  let loaded := load_config env0 st in
  let r := add_project env name repo_url branch dockerfile_path compose_file
             environment_vars loaded in
  let repo := checkout env name repo_url branch in
  (Projects.read env0 = None ->
   Projects.effects loaded
     = Projects.effects st
       ++ Projects.Dump default_config
          :: match Projects.write env0 default_config with
             | inl e => [Projects.Log "Error saving config" e]
             | inr _ => []
             end) /\
  (forall e, Projects.read env0 = Some (inl e) ->
   Projects.effects loaded = Projects.effects st ++ [Projects.Log "Error loading config" e]) /\
  (Projects.read env0 = None \/ (exists e, Projects.read env0 = Some (inl e)) ->
   Projects.config loaded = default_config /\
   get_projects loaded = inr (PyDict ∅) /\
   get_project name loaded = inr PyNone /\
   (r.1 = Projects.Added name <-> repo.2 = inr tt)) /\
  (forall c, Projects.read env0 = Some (inr (PyDict c)) -> c !! "projects" = None ->
   loaded = set_config (PyDict c) st /\
   get_projects loaded = inr (PyDict ∅) /\
   r.1 = match repo.2 with
         | inl e => Projects.Failed e
         | inr _ => Projects.Failed (Projects.KeyError "projects")
         end).
Proof.
  cbv zeta. split; [|split; [|split]].
  - intros Hread. unfold load_config. rewrite Hread. by rewrite save_config_effects.
  - intros e Hread. unfold load_config. by rewrite Hread.
  - intros Hread.
    assert (Hcfg : Projects.config (load_config env0 st) = default_config).
    { unfold load_config. destruct Hread as [->|[e ->]]; [|done].
      by rewrite save_config_config. }
    split; [done|]. unfold get_project, get_projects. rewrite Hcfg.
    split; [done|]. split; [done|].
    destruct (add_project_outcome env name repo_url branch dockerfile_path compose_file
                environment_vars (load_config env0 st)) as (Hiff & _).
    rewrite Hiff, Hcfg. split; [by intros [? _]|]. intros Hrepo. split; [done|].
    by eexists _, _.
  - intros c Hread Hc. unfold load_config. rewrite Hread. split; [done|].
    split; [unfold get_projects; cbn; by rewrite Hc|].
    pose proof (add_project_cases env name repo_url branch dockerfile_path compose_file
                  environment_vars (set_config (PyDict c) st)) as H. cbv zeta in H.
    destruct (checkout env name repo_url branch).2 as [e|[]]; cbn [set_config Projects.config] in H.
    + by rewrite H.
    + rewrite Hc in H. by rewrite H.
Qed.

Lemma add_project_after_load_witness :
  (add_project SampleRepo.env "blog" "https://example.org/blog.git" "main" "Dockerfile"
     "docker-compose.yml" ∅ (load_config SampleRepo.env SampleRepo.loaded)).1
  = Projects.Failed (Projects.KeyError "projects").
Proof.
  destruct (add_project_after_load SampleRepo.env SampleRepo.env "blog"
              "https://example.org/blog.git" "main" "Dockerfile" "docker-compose.yml" ∅
              SampleRepo.loaded) as (_ & _ & _ & H).
  by destruct (H ∅ eq_refl eq_refl) as (_ & _ & ->).
Defined.
